(** * ObjectNav task measures: a shallow embedding of
      [habitat/tasks/nav/object_nav_task.py]

    The measures of the ObjectNav task are per-episode state machines driven
    by the host task runner: [reset_metric] once per episode, [update_metric]
    once per step.  Each measure is embedded as a record for the attributes
    of [self] and a function per method, with the values read from the
    collaborators (simulator, other measures, configuration) as arguments.

    Numbers.  Python integers are [Z].  Finite floating-point values are
    idealised as exact rationals [Q] (no rounding, no overflow); the values the
    collaborators hand in (positions, box extents, distances, visibility
    ratios, configuration coefficients) are finite.  Where the code itself
    divides two numpy integers, the quotient is an [npfloat]: a rational, an
    infinity or a NaN, as numpy's true division yields (a zero divisor gives
    a warning and inf or nan, not an exception).  The distance handed to
    [DistanceToGoalReward] is an [npfloat] as well: the distance measure
    reports inf for a goal that cannot be reached. *)

From Stdlib Require Import ZArith QArith String List Lia Bool.
From stdpp Require Import gmap strings list fin_maps pretty.
Import ListNotations.

Local Open Scope Z_scope.
Local Open Scope string_scope.

(** ** Rational helpers *)

Definition Qleb (a b : Q) : bool := Qle_bool a b.
Definition Qltb (a b : Q) : bool := negb (Qle_bool b a).

(** ** numpy floating-point results *)

Module NpFloat.

Inductive npfloat : Type :=
| Fin (q : Q)
| PInf
| NInf
| NaN.

(** Same value: rationals up to [Qeq], the special values only to
    themselves.  (This is identity of results, not IEEE [==].) *)
Definition equiv (a b : npfloat) : Prop :=
  match a, b with
  | Fin p, Fin q => (p == q)%Q
  | PInf, PInf | NInf, NInf | NaN, NaN => True
  | _, _ => False
  end.

Definition of_Z (z : Z) : npfloat := Fin (inject_Z z).

Definition neg (a : npfloat) : npfloat :=
  match a with
  | Fin q => Fin (- q)%Q
  | PInf => NInf
  | NInf => PInf
  | NaN => NaN
  end.

Definition add (a b : npfloat) : npfloat :=
  match a, b with
  | NaN, _ | _, NaN => NaN
  | Fin p, Fin q => Fin (p + q)%Q
  | PInf, NInf | NInf, PInf => NaN
  | PInf, _ | _, PInf => PInf
  | NInf, _ | _, NInf => NInf
  end.

Definition sub (a b : npfloat) : npfloat := add a (neg b).

(** Sign of a rational: [Lt], [Eq] or [Gt] against zero. *)
Definition Qsign (q : Q) : comparison := (q ?= 0)%Q.

Definition inf_of (c : comparison) : npfloat :=
  match c with
  | Gt => PInf
  | Lt => NInf
  | Eq => NaN
  end.

Definition mul (a b : npfloat) : npfloat :=
  match a, b with
  | NaN, _ | _, NaN => NaN
  | Fin p, Fin q => Fin (p * q)%Q
  | PInf, Fin q | Fin q, PInf => inf_of (Qsign q)
  | NInf, Fin q | Fin q, NInf => inf_of (CompOpp (Qsign q))
  | PInf, PInf | NInf, NInf => PInf
  | PInf, NInf | NInf, PInf => NInf
  end.

(** [a > b]: false as soon as a NaN is involved. *)
Definition gtb (a b : npfloat) : bool :=
  match a, b with
  | NaN, _ | _, NaN => false
  | Fin p, Fin q => Qltb q p
  | PInf, PInf => false
  | PInf, _ => true
  | _, PInf => false
  | NInf, _ => false
  | Fin _, NInf => true
  end.

(** [np.isfinite(a)]. *)
Definition isfinite (a : npfloat) : bool :=
  match a with
  | Fin _ => true
  | _ => false
  end.

(** [a / n] for a float [a] and a positive integer [n]. *)
Definition div_pos (a : npfloat) (n : Z) : npfloat :=
  mul a (Fin (/ inject_Z n)).

(** True division of two numpy integers, [a / b]. *)
Definition true_divide (a b : Z) : npfloat :=
  if Z.eqb b 0 then inf_of (Z.compare a 0)
  else Fin (inject_Z a / inject_Z b)%Q.

End NpFloat.
Import NpFloat.

Infix "≈" := NpFloat.equiv (at level 70, no associativity).

(** ** Geometry: 3D points and axis-aligned boxes *)

(** A 3D vector ([position], [aabb.center], [aabb.sizes]); axis 1 is up. *)
Record vec3 : Type := Vec3 { vx : Q; vy : Q; vz : Q }.

(** [v[i]] for [i] in [range(3)]. *)
Definition vget (v : vec3) (i : nat) : Q :=
  match i with
  | O => vx v
  | 1%nat => vy v
  | _ => vz v
  end.

Definition axes : list nat := [0%nat; 1%nat; 2%nat].

(** The bounding box of a region as the simulator provides it. *)
Record aabb : Type := AABB { center : vec3; sizes : vec3 }.

(** The box type's corner accessors [aabb.min()] and [aabb.max()] (they
    belong to the simulator's geometry library): centre minus, respectively
    plus, half the size on each axis. *)
Definition aabb_min (b : aabb) : vec3 :=
  Vec3 (vx (center b) - vx (sizes b) / 2)
       (vy (center b) - vy (sizes b) / 2)
       (vz (center b) - vz (sizes b) / 2).

Definition aabb_max (b : aabb) : vec3 :=
  Vec3 (vx (center b) + vx (sizes b) / 2)
       (vy (center b) + vy (sizes b) / 2)
       (vz (center b) + vz (sizes b) / 2).

(** The half-extent of the box on an axis. *)
Definition half_extent (b : aabb) (i : nat) : Q := (vget (sizes b) i / 2)%Q.

Module RegionLevelInfo.

(** [sizes] of [_is_in]: the half sizes, with [sizes[1] += 0.1]. *)
Definition padded_sizes (b : aabb) (i : nat) : Q :=
  if Nat.eqb i 1 then (half_extent b i + (1 # 10))%Q else half_extent b i.

(** [RegionLevelInfo._is_in(loc, aabb)]. *)
Definition _is_in (loc : vec3) (b : aabb) : bool :=
  forallb
    (fun i =>
       Qltb (vget (center b) i - padded_sizes b i) (vget loc i)
       && Qltb (vget loc i) (vget (center b) i + padded_sizes b i))
    axes.

End RegionLevelInfo.

(** [RoomVisitationMap.aabb_contains] and [ExplorationMetrics.aabb_contains]
    (the two methods have the same body). *)
Definition aabb_contains (position : vec3) (b : aabb) : bool :=
  let aabb_min := aabb_min b in
  let aabb_max := aabb_max b in
  Qleb (vget aabb_min 0) (vget position 0)
  && Qleb (vget position 0) (vget aabb_max 0)
  && Qleb (vget aabb_min 2) (vget position 2)
  && Qleb (vget position 2) (vget aabb_max 2)
  && Qleb (vget aabb_min 1) (vget position 1)
  && Qleb (vget position 1) (vget aabb_max 1).

(** The containment convention as the specification words it: inclusive on
    every axis, the vertical half-extent inflated by 0.1. *)
Module SpecContainment.

Definition padded_half_extent (b : aabb) (i : nat) : Q :=
  if Nat.eqb i 1 then (half_extent b i + (1 # 10))%Q else half_extent b i.

Definition contains (p : vec3) (b : aabb) : bool :=
  forallb
    (fun i =>
       Qleb (vget (center b) i - padded_half_extent b i) (vget p i)
       && Qleb (vget p i) (vget (center b) i + padded_half_extent b i))
    axes.

End SpecContainment.

(** ** Python exceptions *)

Inductive py_exception : Type :=
| IndexError
| TypeError
| RuntimeError (msg : string).

(** What a call does: it returns a value or raises. *)
Inductive outcome (A : Type) : Type :=
| Returns (a : A)
| Raises (e : py_exception).
Arguments Returns {A} a.
Arguments Raises {A} e.

Definition bind {A B : Type} (o : outcome A) (k : A -> outcome B) : outcome B :=
  match o with
  | Returns a => k a
  | Raises e => Raises e
  end.

Notation "'do' x <- o ; k" := (bind o (fun x => k))
  (at level 10, x name, o at level 100, k at level 200).

(** ** The top-down map measure's metric *)

(** The fields of the [TopDownMap] metric this file reads: the label grid
    ["map"] and the visibility grid ["fog_of_war_mask"].  The metric itself is
    [None] (here [@None top_down_info]) while no map is available. *)
Record top_down_info : Type := TopDownInfo {
  tdm_map : list (list Z);
  fog_of_war_mask : list (list bool)
}.

Section Grids.
Context {A : Type}.

(** [np.where(cond, x, y)] on a grid, [cond] given cell by cell. *)
Definition np_where (cond : A -> bool) (x y : Z) (g : list (list A))
  : list (list Z) :=
  map (map (fun a => if cond a then x else y)) g.

(** [g.size] *)
Definition np_size (g : list (list A)) : Z :=
  fold_right (fun row acc => Z.of_nat (length row) + acc) 0 g.
End Grids.

(** [np.sum(g)] *)
Definition np_sum (g : list (list Z)) : Z :=
  fold_right (fun row acc => fold_right Z.add 0 row + acc) 0 g.

(** [mask.sum()] of a boolean grid: the number of true cells. *)
Definition mask_sum (g : list (list bool)) : Z :=
  np_sum (map (map Z.b2z) g).

(** ** ObjectNavReward: the shaped reward *)

Module ObjectNavReward.

Record config : Type := Config {
  MODE : string;
  SLACK_REWARD : Q;
  SUCCESS_REWARD : Q;
  EXP_REWARD_COEF : Q;
  GOAL_SEEN_THRESHOLD : Q;
  GOAL_SEEN_REWARD : Q
}.

(** The metrics of the measures the reward depends on, as read through
    [task.measurements.measures[...].get_metric()] during one call. *)
Record measures : Type := Measures {
  distance_to_goal : Q;
  top_down_map : option top_down_info;
  goal_vis : Q;
  success : bool
}.

(** The attributes of [self].  [_previous_exploration_ratio] is [None]
    while the attribute does not exist ([hasattr] is false). *)
Record state : Type := State {
  _metric : npfloat;
  step_count : Z;
  _goal_was_seen : bool;
  _previous_distance_to_target : npfloat;
  _previous_exploration_ratio : option npfloat
}.

(** The object as [__init__] leaves it.  Only the absence of
    [_previous_exploration_ratio] is ever observed: [reset_metric] assigns
    the other attributes before anything reads them. *)
Definition init : state :=
  State (Fin 0) 0 false (Fin 0) None.

Definition reward_exploration (cfg : config) (st : state) (m : measures)
  : npfloat * state :=
  let reward := Fin 0 in
  let exploration_ratio :=
    match top_down_map m with
    | Some map_measures =>
        true_divide (mask_sum (fog_of_war_mask map_measures))
                    (np_size (fog_of_war_mask map_measures))
    | None => Fin 0
    end in
  let previous :=
    match _previous_exploration_ratio st with
    | None => exploration_ratio
    | Some r => r
    end in
  let reward :=
    add reward (mul (sub exploration_ratio previous)
                    (Fin (EXP_REWARD_COEF cfg))) in
  (reward,
   State (_metric st) (step_count st) (_goal_was_seen st)
         (_previous_distance_to_target st) (Some exploration_ratio)).

Definition reward_distance_to_goal (cfg : config) (st : state) (m : measures)
  : npfloat * state :=
  let reward := Fin 0 in
  let distance_to_target := Fin (distance_to_goal m) in
  let reward :=
    add reward (sub (_previous_distance_to_target st) distance_to_target) in
  (reward,
   State (_metric st) (step_count st) (_goal_was_seen st)
         distance_to_target (_previous_exploration_ratio st)).

Definition reward_expl_dt_when_visible (cfg : config) (st : state)
  (m : measures) : npfloat * state :=
  let reward := Fin 0 in
  let goal_object_visible := goal_vis m in
  let '(reward, st) :=
    if Qltb (GOAL_SEEN_THRESHOLD cfg) goal_object_visible
       && negb (_goal_was_seen st)
    then
      (add reward (Fin (GOAL_SEEN_REWARD cfg)),
       State (_metric st) (step_count st) true
             (Fin (distance_to_goal m)) (_previous_exploration_ratio st))
    else (reward, st) in
  if _goal_was_seen st then
    let '(r, st) := reward_distance_to_goal cfg st m in
    (add reward r, st)
  else
    let '(r, st) := reward_exploration cfg st m in
    (add reward r, st).

(** The mode dispatch of [update_metric]: the branch that runs, if any
    (the [if]/[elif] chain has no [else]). *)
Definition shaping (cfg : config) (st : state) (m : measures)
  : option (npfloat * state) :=
  if String.eqb (MODE cfg) "DISTANCE_TO_GOAL_WHEN_VISIBLE_OTHERWISE_EXPLORE"
  then Some (reward_expl_dt_when_visible cfg st m)
  else if String.eqb (MODE cfg) "DISTANCE_TO_GOAL"
  then Some (reward_distance_to_goal cfg st m)
  else if String.eqb (MODE cfg) "EXPLORATION"
  then Some (reward_exploration cfg st m)
  else None.

(** [update_metric]; the closing [print] is not modelled. *)
Definition update_metric (cfg : config) (st : state) (m : measures)
  : outcome state :=
  let step_count' := step_count st + 1 in
  let st := State (_metric st) step_count' (_goal_was_seen st)
                  (_previous_distance_to_target st)
                  (_previous_exploration_ratio st) in
  let reward :=
    if Z.ltb 20 (step_count st) then Fin (SLACK_REWARD cfg) else Fin 0 in
  let '(reward, st) :=
    match shaping cfg st m with
    | Some (r, st') => (add reward r, st')
    | None => (reward, st)
    end in
  let reward :=
    if success m then add reward (Fin (SUCCESS_REWARD cfg)) else reward in
  Returns (State reward (step_count st) (_goal_was_seen st)
                 (_previous_distance_to_target st)
                 (_previous_exploration_ratio st)).

Definition reset_metric (cfg : config) (st : state) (m : measures)
  : outcome state :=
  let st := State (Fin 0) 0 false (Fin (distance_to_goal m))
                  (_previous_exploration_ratio st) in
  update_metric cfg st m.

(** One episode: the reset, then one update per step. *)
Fixpoint updates (cfg : config) (st : state) (steps : list measures)
  : outcome state :=
  match steps with
  | [] => Returns st
  | m :: steps' => do st' <- update_metric cfg st m; updates cfg st' steps'
  end.

Definition episode (cfg : config) (st : state) (m0 : measures)
  (steps : list measures) : outcome state :=
  do st' <- reset_metric cfg st m0; updates cfg st' steps.

End ObjectNavReward.

(** ** ObjectNavSparseReward: binary success reward *)

Module ObjectNavSparseReward.

Record state : Type := State { _metric : npfloat }.

Definition update_metric (SUCCESS_REWARD : Q) (st : state) (success : bool)
  : state :=
  let reward := Fin 0 in
  let reward :=
    if success then add reward (Fin SUCCESS_REWARD) else reward in
  State reward.

Definition reset_metric (SUCCESS_REWARD : Q) (st : state) (success : bool)
  : state :=
  update_metric SUCCESS_REWARD (State (Fin 0)) success.

End ObjectNavSparseReward.

(** ** DistanceToGoalReward *)

Module DistanceToGoalReward.

Record state : Type := State {
  _previous_distance_to_target : npfloat;
  _metric : npfloat
}.

Definition init : state := State (Fin 0) (Fin 0).

Definition update_metric (SUCCESS_REWARD : Q) (st : state)
  (distance_to_goal : npfloat) (success : bool) : state :=
  let reward := Fin 0 in
  let distance_to_target := distance_to_goal in
  let st := State distance_to_target (_metric st) in
  let reward :=
    add reward (sub (_previous_distance_to_target st) distance_to_target) in
  let reward :=
    if success then add reward (Fin SUCCESS_REWARD) else reward in
  State (_previous_distance_to_target st) reward.

Definition reset_metric (SUCCESS_REWARD : Q) (st : state)
  (distance_to_goal : npfloat) (success : bool) : state :=
  update_metric SUCCESS_REWARD (State distance_to_goal (Fin 0))
                distance_to_goal success.

End DistanceToGoalReward.

(** The two measures run side by side on the same episode, a step being the
    values of the distance and the success measures: the metric each exports
    after the reset and after every step. *)
Fixpoint d2g_metrics (SUCCESS_REWARD : Q) (st : DistanceToGoalReward.state)
  (steps : list (npfloat * bool)) : list npfloat :=
  match steps with
  | [] => []
  | (d, s) :: steps' =>
      let st' := DistanceToGoalReward.update_metric SUCCESS_REWARD st d s in
      DistanceToGoalReward._metric st'
        :: d2g_metrics SUCCESS_REWARD st' steps'
  end.

Fixpoint sparse_metrics (SUCCESS_REWARD : Q) (st : ObjectNavSparseReward.state)
  (steps : list (npfloat * bool)) : list npfloat :=
  match steps with
  | [] => []
  | (_, s) :: steps' =>
      let st' := ObjectNavSparseReward.update_metric SUCCESS_REWARD st s in
      ObjectNavSparseReward._metric st'
        :: sparse_metrics SUCCESS_REWARD st' steps'
  end.

Definition d2g_episode (SUCCESS_REWARD : Q) (st : DistanceToGoalReward.state)
  (first : npfloat * bool) (steps : list (npfloat * bool)) : list npfloat :=
  let st' :=
    DistanceToGoalReward.reset_metric SUCCESS_REWARD st (fst first) (snd first)
  in DistanceToGoalReward._metric st' :: d2g_metrics SUCCESS_REWARD st' steps.

Definition sparse_episode (SUCCESS_REWARD : Q)
  (st : ObjectNavSparseReward.state)
  (first : npfloat * bool) (steps : list (npfloat * bool)) : list npfloat :=
  let st' := ObjectNavSparseReward.reset_metric SUCCESS_REWARD st (snd first)
  in ObjectNavSparseReward._metric st'
       :: sparse_metrics SUCCESS_REWARD st' steps.

(** ** Scene description and dictionaries *)

(** A region of the semantic scene: [region.category.name()] and
    [region.aabb]. *)
Record region : Type := Region { category_name : string; region_aabb : aabb }.

(** An episode goal: its [view_points] attribute, [None] by default,
    otherwise the positions of the viewpoints, in order. *)
Record goal : Type := Goal { view_points : option (list vec3) }.

(** A [defaultdict(list)] from region names to boxes.  Iteration follows
    insertion order, so the dictionary is an association list with one entry
    per key. *)
Definition room_dict : Type := list (string * list aabb).

(** [d[name].append(b)] *)
Fixpoint dict_append (d : room_dict) (name : string) (b : aabb) : room_dict :=
  match d with
  | [] => [(name, [b])]
  | (k, bs) :: d' =>
      if String.eqb k name then (k, (bs ++ [b])%list) :: d'
      else (k, bs) :: dict_append d' name b
  end.

(** [d[name]] without inserting: the empty list for a missing key. *)
Fixpoint dict_get (d : room_dict) (name : string) : list aabb :=
  match d with
  | [] => []
  | (k, bs) :: d' => if String.eqb k name then bs else dict_get d' name
  end.

(** A [defaultdict(int)] from region names to counts; [count m k] is
    [m[k]]. *)
Definition count (m : gmap string Z) (k : string) : Z := default 0 (m !! k).

(** [m[k] += 1] *)
Definition incr (m : gmap string Z) (k : string) : gmap string Z :=
  <[k := count m k + 1]> m.

(** [sum(m.values())] *)
Definition sum_values (m : gmap string Z) : Z :=
  map_fold (fun _ v acc => v + acc) 0 m.

(** ** RoomVisitationMap *)

Module RoomVisitationMap.

(** The attributes of [self].  The exported [_metric] holds the live
    [room_visitation_map] dictionary; [time_spent_goal_room] is the number
    stored beside it by the last [update_metric] ([None] right after a
    reset, when [_metric] is the dictionary alone). *)
Record state : Type := State {
  goal_rooms : room_dict;
  room_aabbs : room_dict;
  goal_room_visitation_map : gmap string Z;
  room_visitation_map : gmap string Z;
  time_spent_goal_room : option Z
}.

Definition init : state := State [] [] ∅ ∅ None.

(** The two nested loops of [update_metric] over one dictionary of
    boxes. *)
Definition count_visits (agent_position : vec3) (rooms : room_dict)
  (counts : gmap string Z) : gmap string Z :=
  fold_left
    (fun counts '(region, boxes) =>
       fold_left
         (fun counts b =>
            if aabb_contains agent_position b then incr counts region
            else counts)
         boxes counts)
    rooms counts.

Definition update_metric (st : state) (agent_position : vec3) : state :=
  let rvm := count_visits agent_position (room_aabbs st)
                          (room_visitation_map st) in
  let grvm := count_visits agent_position (goal_rooms st)
                           (goal_room_visitation_map st) in
  State (goal_rooms st) (room_aabbs st) grvm rvm (Some (sum_values grvm)).

(** The inner loop of [reset_metric] over the goals, for one box:
    [goal.view_points[0]] raises [TypeError] on [None] and [IndexError] on
    an empty list. *)
Fixpoint contains_goal (goals : list goal) (b : aabb) (contains : bool)
  : outcome bool :=
  match goals with
  | [] => Returns contains
  | g :: goals' =>
      match view_points g with
      | None => Raises TypeError
      | Some [] => Raises IndexError
      | Some (goal_position :: _) =>
          contains_goal goals' b
            (if aabb_contains goal_position b then true else contains)
      end
  end.

(** The loop of [reset_metric] over the regions, on the pair
    ([room_aabbs], [goal_rooms]). *)
Fixpoint scan_regions (regions : list region) (goals : list goal)
  (acc : room_dict * room_dict) : outcome (room_dict * room_dict) :=
  match regions with
  | [] => Returns acc
  | r :: regions' =>
      let region_name := category_name r in
      let b := region_aabb r in
      let rooms := dict_append (fst acc) region_name b in
      do contains <- contains_goal goals b false;
      scan_regions regions' goals
        (rooms,
         if contains then dict_append (snd acc) region_name b else snd acc)
  end.

(** [reset_metric]: it first runs [update_metric] on the attributes of the
    episode before, then replaces all four dictionaries. *)
Definition reset_metric (st : state) (agent_position : vec3)
  (regions : list region) (goals : list goal) : outcome state :=
  let st := update_metric st agent_position in
  do dicts <- scan_regions regions goals ([], []);
  Returns (State (snd dicts) (fst dicts) ∅ ∅ None).

(** The updates of one episode, one agent position per step. *)
Definition updates (st : state) (positions : list vec3) : state :=
  fold_left update_metric positions st.

End RoomVisitationMap.

(** ** ExplorationMetrics *)

(** [needle in hay] on strings. *)
Definition str_in (needle hay : string) : bool :=
  match String.index 0 needle hay with
  | Some _ => true
  | None => false
  end.

(** [a == b] where either side may be [None]. *)
Definition room_eqb (a b : option string) : bool :=
  match a, b with
  | Some x, Some y => String.eqb x y
  | None, None => true
  | _, _ => false
  end.

(** [l[-k]] for [k >= 1], on a list that is long enough. *)
Definition from_back {A : Type} (l : list A) (k : nat) : option A :=
  nth_error (rev l) (k - 1).

Module ExplorationMetrics.

(** The attributes of [self].  [coverage], [sight_coverage], [beeline] and
    [avg_cov] are the numbers the last [update_metric] computed and stored
    in [_metric]; the dictionaries and [last_20_actions] of [_metric] are
    the live attributes. *)
Record state : Type := State {
  room_aabbs : room_dict;
  previous_room_stack : list string;
  steps_between_rooms : Z;
  room_visitation_map : gmap string Z;
  room_revisitation_map : gmap string Z;
  room_revisitation_map_strict : gmap string Z;
  last_20_actions : list string;
  total_left_turns : Z;
  total_right_turns : Z;
  panoramic_turns : Z;
  panoramic_turns_strict : Z;
  delta_sight_coverage : npfloat;
  prev_sight_coverage : npfloat;
  avg_delta_coverage : npfloat;
  previous_room : option string;
  coverage : npfloat;
  sight_coverage : npfloat;
  beeline : bool;
  avg_cov : npfloat
}.

(** The object as [__init__] leaves it. *)
Definition init : state :=
  State [] [] 0 ∅ ∅ ∅ [] 0 0 0 0 (Fin 0) (Fin 0) (Fin 0) None
        (Fin 0) (Fin 0) false (Fin 0).

(** [get_navigable_area(info)] for an available map. *)
Definition get_navigable_area (info : top_down_info) : Z :=
  let top_down_map := tdm_map info in
  let navigable_area :=
    np_where (fun c => Z.eqb c 1 || Z.leb 10 c) 1 0 top_down_map in
  np_sum navigable_area.

Definition get_coverage (info : option top_down_info) : npfloat :=
  match info with
  | None => Fin 0
  | Some info =>
      let top_down_map := tdm_map info in
      let visted_points := np_where (fun c => Z.leb c 9) 0 1 top_down_map in
      let coverage :=
        true_divide (np_sum visted_points) (get_navigable_area info) in
      coverage
  end.

Definition get_visible_area (info : option top_down_info) : npfloat :=
  match info with
  | None => Fin 0
  | Some info =>
      let fog_of_war_mask := fog_of_war_mask info in
      let visible_area :=
        true_divide (mask_sum fog_of_war_mask) (get_navigable_area info) in
      if gtb visible_area (Fin 1) then Fin 1 else visible_area
  end.

Definition _is_peeking (stack : list string) (current_room : option string)
  : bool :=
  let prev_prev_room :=
    if Nat.leb 2 (length stack) then from_back stack 2 else None in
  let prev_room :=
    if Nat.leb 1 (length stack) then from_back stack 1 else None in
  match prev_prev_room, prev_room with
  | Some _, Some _ =>
      if room_eqb prev_prev_room current_room
         && negb (room_eqb prev_room current_room)
      then true else false
  | _, _ => false
  end.

(** The loop of [is_beeline]: the longest run of ["MOVE_FORWARD"]. *)
Fixpoint longest_forward_run (actions : list string)
  (count_move_forwards max_move_forwards : Z) : Z :=
  match actions with
  | [] => max_move_forwards
  | action :: actions' =>
      let count_move_forwards :=
        if negb (String.eqb action "MOVE_FORWARD") then 0
        else count_move_forwards + 1 in
      longest_forward_run actions' count_move_forwards
        (Z.max max_move_forwards count_move_forwards)
  end.

(** [is_beeline]: a quotient of two Python integers, the divisor the
    length of a list that [update_metric] has just appended to. *)
Definition is_beeline (last_20_actions : list string) : bool :=
  Qleb (1 # 2)
       (inject_Z (longest_forward_run last_20_actions 0 0)
        / inject_Z (Z.of_nat (length last_20_actions))).

(** The first loop of [update_metric]: visit counts, the room the agent is
    in (the last match in iteration order) and the list of all matches. *)
Definition locate (agent_position : vec3) (rooms : room_dict)
  (acc : gmap string Z * option string * list string)
  : gmap string Z * option string * list string :=
  fold_left
    (fun acc '(region, boxes) =>
       fold_left
         (fun '(counts, current_room, all_rooms) b =>
            if aabb_contains agent_position b
            then (incr counts region, Some region,
                  (all_rooms ++ [region])%list)
            else (counts, current_room, all_rooms))
         boxes acc)
    rooms acc.

(** The body guarded by either revisitation test: the counter of the room
    goes up once more when it is still zero. *)
Definition count_revisit (m : gmap string Z) (room : string)
  : gmap string Z :=
  let m := if Z.eqb (count m room) 0 then incr m room else m in
  incr m room.

(** The room a revisitation counter is indexed with: a room name
    ([current_room] is not [None] whenever the guard holds). *)
Definition revisit (guard : bool) (current_room : option string)
  (m : gmap string Z) : gmap string Z :=
  match current_room with
  | Some room => if guard then count_revisit m room else m
  | None => m
  end.

Definition visited (m : gmap string Z) (current_room : option string)
  : bool :=
  match current_room with
  | Some room => Z.leb 1 (count m room)
  | None => false
  end.

(** The guard of the lenient revisitation count. *)
Definition peek_guard (st : state) (rvm : gmap string Z)
  (current_room : option string) : bool :=
  _is_peeking (previous_room_stack st) current_room
  && visited rvm current_room
  && Z.leb (steps_between_rooms st) 10.

(** The guard of the strict revisitation count. *)
Definition peek_guard_strict (st : state) (rvm : gmap string Z)
  (current_room : option string) : bool :=
  _is_peeking (previous_room_stack st) current_room
  && visited rvm current_room
  && Z.leb 8 (steps_between_rooms st)
  && Z.leb (steps_between_rooms st) 14.

(** The append to [previous_room_stack] and the step counter. *)
Definition enter_room (stack : list string) (steps : Z)
  (current_room : option string) : list string * Z :=
  match current_room with
  | Some room =>
      if Nat.eqb (length stack) 0
         || negb (room_eqb (from_back stack 1) current_room)
      then ((stack ++ [room])%list, 0)
      else (stack, steps)
  | None => (stack, steps)
  end.

(** The test both sweep counters share, on the turn counts. *)
Definition sweep_turns (left_turns right_turns : Z) : bool :=
  Z.leb 3 left_turns && Z.leb 3 right_turns
  && Z.leb 8 (right_turns + left_turns).

Definition update_metric (st : state) (top_down_map : option top_down_info)
  (agent_position : vec3) (action_name : string) : state :=
  let '(rvm, current_room, all_rooms) :=
    locate agent_position (room_aabbs st)
           (room_visitation_map st, None, []) in
  let rrm :=
    revisit (peek_guard st rvm current_room) current_room
            (room_revisitation_map st) in
  let rrms :=
    revisit (peek_guard_strict st rvm current_room) current_room
            (room_revisitation_map_strict st) in
  let '(stack, steps) :=
    enter_room (previous_room_stack st) (steps_between_rooms st)
               current_room in
  let steps := steps + 1 in
  let coverage := get_coverage top_down_map in
  let sight_coverage := get_visible_area top_down_map in
  let delta := sub sight_coverage (prev_sight_coverage st) in
  let prev_sight := sight_coverage in
  let actions := (last_20_actions st ++ [action_name])%list in
  let actions :=
    if Nat.ltb 20 (length actions) then tl actions else actions in
  let '(left_turns, right_turns, delta) :=
    if negb (str_in "TURN" action_name) then (0, 0, Fin 0)
    else if String.eqb action_name "TURN_LEFT"
    then (total_left_turns st + 1, total_right_turns st, delta)
    else if String.eqb action_name "TURN_RIGHT"
    then (total_left_turns st, total_right_turns st + 1, delta)
    else (total_left_turns st, total_right_turns st, delta) in
  let panoramic :=
    if sweep_turns left_turns right_turns && gtb delta (Fin (15 # 1000))
    then panoramic_turns st + 1 else panoramic_turns st in
  let '(strict, avg_delta) :=
    if sweep_turns left_turns right_turns && gtb delta (Fin (1 # 100))
    then (panoramic_turns_strict st + 1,
          add (avg_delta_coverage st) delta)
    else (panoramic_turns_strict st, avg_delta_coverage st) in
  let avg_cov :=
    if Z.ltb 0 strict then div_pos avg_delta strict else Fin 0 in
  State (room_aabbs st) stack steps rvm rrm rrms actions
        left_turns right_turns panoramic strict delta prev_sight avg_delta
        (previous_room st)
        coverage sight_coverage (is_beeline actions) avg_cov.

(** The loop of [reset_metric] over the regions of one level; [i] counts
    the regions seen so far. *)
Definition scan_level (agent_position : vec3) (regions : list region)
  (acc : room_dict * option string * Z) : room_dict * option string * Z :=
  fold_left
    (fun '(rooms, current_room, i) r =>
       let region_name := category_name r in
       let region_name :=
         if str_in "bedroom" region_name
         then category_name r ++ "_" ++ pretty i
         else region_name in
       let b := region_aabb r in
       (dict_append rooms region_name b,
        (if aabb_contains agent_position b then Some region_name
         else current_room),
        i + 1))
    regions acc.

(** [reset_metric]; [previous_room_stack] and the numbers of the last
    exported metric are not assigned. *)
Definition reset_metric (st : state) (levels : list (list region))
  (agent_position : vec3) : state :=
  let '(rooms, current_room, _) :=
    fold_left (fun acc level => scan_level agent_position level acc)
              levels ([], None, 0) in
  State rooms (previous_room_stack st) 0 ∅ ∅ ∅ [] 0 0 0 0
        (Fin 0) (Fin 0) (Fin 0) current_room
        (coverage st) (sight_coverage st) (beeline st) (avg_cov st).

(** One step's input: the map metric, the agent position and the name of
    the action taken. *)
Definition step : Type := option top_down_info * vec3 * string.

Definition update (st : state) (x : step) : state :=
  let '(top_down_map, agent_position, action_name) := x in
  update_metric st top_down_map agent_position action_name.

Definition updates (st : state) (steps : list step) : state :=
  fold_left update steps st.

End ExplorationMetrics.

(** ** Vocabulary of the statements and example inputs *)

(** A box of side 2 around the origin and a point on the upper face of its
    padded version. *)
Definition unit_box : aabb := AABB (Vec3 0 0 0) (Vec3 2 2 2).
Definition padded_top : vec3 := Vec3 0 (11 # 10) 0.

(** A map without a navigable cell, nothing seen yet. *)
Definition blank_map : top_down_info :=
  TopDownInfo [[0; 0]; [0; 0]] [[false; false]; [false; false]].

(** A mode name is recognized when the dispatch of [update_metric] has a
    branch for it. *)
Definition recognized_mode (mode : string) : Prop :=
  mode = "DISTANCE_TO_GOAL_WHEN_VISIBLE_OTHERWISE_EXPLORE"
  \/ mode = "DISTANCE_TO_GOAL"
  \/ mode = "EXPLORATION".

(** The reward [update_metric] computes around the shaping term: the slack
    penalty past 20 steps and the success bonus. *)
Definition fixed_terms (cfg : ObjectNavReward.config) (step_count : Z)
  (success : bool) : npfloat :=
  let reward :=
    if Z.ltb 20 step_count then Fin (ObjectNavReward.SLACK_REWARD cfg)
    else Fin 0 in
  if success then add reward (Fin (ObjectNavReward.SUCCESS_REWARD cfg))
  else reward.

(** A configuration whose mode is a typo of a shaping mode, and the
    measures of some step. *)
Definition typo_config : ObjectNavReward.config :=
  ObjectNavReward.Config "EXPLORE" (-1 # 100) (5 # 2) 1 (1 # 10) 1.

Definition some_measures : ObjectNavReward.measures :=
  ObjectNavReward.Measures 3 None 0 true.

(** The metric of the sparse reward, in the words of the claim. *)
Definition sparse_value (SUCCESS_REWARD : Q) (success : bool) : npfloat :=
  Fin (if success then SUCCESS_REWARD else 0).

(** What [DistanceToGoalReward] exports on a step: the sparse reward at a
    finite distance, NaN at an infinite or NaN distance. *)
Definition d2g_value (SUCCESS_REWARD : Q) (x : npfloat * bool) (r : npfloat)
  : Prop :=
  if isfinite (fst x) then r ≈ sparse_value SUCCESS_REWARD (snd x)
  else r = NaN.

(** An episode towards a goal that cannot be reached at first: distance inf
    at the reset, 2 after a step. *)
Definition unreachable_then_near : npfloat * bool * list (npfloat * bool) :=
  ((PInf, false), [(Fin 2, true)]).

(** A region is marked as a goal region when its box is stored in
    [goal_rooms] under its name. *)
Definition goal_region (st : RoomVisitationMap.state) (name : string)
  (b : aabb) : Prop :=
  In b (dict_get (RoomVisitationMap.goal_rooms st) name).

(** The goal has a list of viewpoints with at least one entry. *)
Definition has_viewpoint (g : goal) : Prop :=
  exists p ps, view_points g = Some (p :: ps).

(** The box contains the first viewpoint of some goal. *)
Definition first_viewpoint_inside (goals : list goal) (b : aabb) : Prop :=
  exists g p ps, In g goals /\ view_points g = Some (p :: ps)
                 /\ aabb_contains p b = true.

(** The box contains some viewpoint of some goal. *)
Definition some_viewpoint_inside (goals : list goal) (b : aabb) : Prop :=
  exists g ps p, In g goals /\ view_points g = Some ps /\ In p ps
                 /\ aabb_contains p b = true.

(** A scene with one room and a goal seen from two viewpoints, the first
    outside the room and the second inside. *)
Definition kitchen : region := Region "kitchen" unit_box.
Definition far_away : vec3 := Vec3 5 0 5.
Definition origin : vec3 := Vec3 0 0 0.
Definition two_viewpoints : goal := Goal (Some [far_away; origin]).
Definition one_viewpoint : goal := Goal (Some [origin]).

(** What one run of the counting loops preserves: no count goes down, nor
    does the sum of the counts. *)
Definition grows (m m' : gmap string Z) : Prop :=
  (forall r, count m r <= count m' r) /\ sum_values m <= sum_values m'.

(** An exploration-mode configuration, and the measures of a step on a map
    of two cells with nothing seen, respectively everything seen. *)
Definition exploration_config : ObjectNavReward.config :=
  ObjectNavReward.Config "EXPLORATION" 0 (5 # 2) 1 (1 # 10) 1.

Definition dark : ObjectNavReward.measures :=
  ObjectNavReward.Measures 3
    (Some (TopDownInfo [[1; 1]] [[false; false]])) 0 false.

Definition lit : ObjectNavReward.measures :=
  ObjectNavReward.Measures 3
    (Some (TopDownInfo [[1; 1]] [[true; true]])) 0 false.

(** The exploration ratio [reward_exploration] reads off the map. *)
Definition exploration_ratio (m : ObjectNavReward.measures) : npfloat :=
  match ObjectNavReward.top_down_map m with
  | Some map_measures =>
      true_divide (mask_sum (fog_of_war_mask map_measures))
                  (np_size (fog_of_war_mask map_measures))
  | None => Fin 0
  end.

(** The hybrid shaping policy along the steps of an episode: the reward of
    each step and the state after the last one. *)
Fixpoint hybrid_run (cfg : ObjectNavReward.config)
  (st : ObjectNavReward.state) (steps : list ObjectNavReward.measures)
  : list npfloat * ObjectNavReward.state :=
  match steps with
  | [] => ([], st)
  | m :: steps' =>
      let '(r, st') := ObjectNavReward.reward_expl_dt_when_visible cfg st m in
      let '(rs, st'') := hybrid_run cfg st' steps' in
      (r :: rs, st'')
  end.

(** The exploration delta terms of a run of steps, in the words of the
    specification: (current ratio - previous ratio) * coefficient, the
    previous ratio being the current one on a first observation. *)
Fixpoint exploration_deltas (coef : Q) (previous : option npfloat)
  (steps : list ObjectNavReward.measures) : list npfloat :=
  match steps with
  | [] => []
  | m :: steps' =>
      let ratio := exploration_ratio m in
      mul (sub ratio (default ratio previous)) (Fin coef)
        :: exploration_deltas coef (Some ratio) steps'
  end.

(** The distance terms of a run of steps: previous distance - current
    distance. *)
Fixpoint distance_deltas (previous : Q)
  (steps : list ObjectNavReward.measures) : list npfloat :=
  match steps with
  | [] => []
  | m :: steps' =>
      Fin (previous - ObjectNavReward.distance_to_goal m)
        :: distance_deltas (ObjectNavReward.distance_to_goal m) steps'
  end.

(** The example of the specification: threshold 0.1, goal-seen reward 1,
    visibilities 0.05, 0.15 and 0.2 at distances 5, 4 and 3. *)
Definition hybrid_config : ObjectNavReward.config :=
  ObjectNavReward.Config "DISTANCE_TO_GOAL_WHEN_VISIBLE_OTHERWISE_EXPLORE"
    0 (5 # 2) 1 (1 # 10) 1.

Definition glimpse (distance visibility : Q) : ObjectNavReward.measures :=
  ObjectNavReward.Measures distance
    (Some (TopDownInfo [[1; 1]] [[true; false]])) visibility false.

(** The turn counters after an action, as [update_metric] branches on the
    action name. *)
Definition turn_step (name : string) (lr : Z * Z) : Z * Z :=
  if negb (str_in "TURN" name) then (0, 0)
  else if String.eqb name "TURN_LEFT" then (fst lr + 1, snd lr)
  else if String.eqb name "TURN_RIGHT" then (fst lr, snd lr + 1)
  else lr.

Definition turn_counts (names : list string) (lr : Z * Z) : Z * Z :=
  fold_left (fun lr name => turn_step name lr) names lr.

(** The action names of the synthetic sweep: 4 left turns, then 4 right
    turns. *)
Definition four_left_four_right : list string :=
  ["TURN_LEFT"; "TURN_LEFT"; "TURN_LEFT"; "TURN_LEFT";
   "TURN_RIGHT"; "TURN_RIGHT"; "TURN_RIGHT"; "TURN_RIGHT"].

(** The action name of a step. *)
Definition action_name (x : ExplorationMetrics.step) : string := snd x.

(** Maps of four navigable cells with none, respectively one, visible, and
    the steps of a sweep on which the visible area grows on the last
    turn. *)
Definition unseen_map : top_down_info :=
  TopDownInfo [[1; 1]; [1; 1]] [[false; false]; [false; false]].
Definition glimpsed_map : top_down_info :=
  TopDownInfo [[1; 1]; [1; 1]] [[true; false]; [false; false]].

Definition turning (info : top_down_info) (name : string)
  : ExplorationMetrics.step := (Some info, origin, name).

Definition sweep_steps : list ExplorationMetrics.step :=
  [turning unseen_map "TURN_LEFT"; turning unseen_map "TURN_LEFT";
   turning unseen_map "TURN_LEFT"; turning unseen_map "TURN_LEFT";
   turning unseen_map "TURN_RIGHT"; turning unseen_map "TURN_RIGHT";
   turning unseen_map "TURN_RIGHT"; turning glimpsed_map "TURN_RIGHT"].

(** The test on the turn counts of both sweep counters, on a pair. *)
Definition sweeping (lr : Z * Z) : bool :=
  ExplorationMetrics.sweep_turns (fst lr) (snd lr).

(** The turn counters of a state. *)
Definition turns_of (st : ExplorationMetrics.state) : Z * Z :=
  (ExplorationMetrics.total_left_turns st,
   ExplorationMetrics.total_right_turns st).

(** The room a step detects a peek into, under the lenient test of
    [update_metric], if it detects one. *)
Definition peeked (st : ExplorationMetrics.state)
  (x : ExplorationMetrics.step) : option string :=
  let '(_, agent_position, _) := x in
  let '(rvm, current_room, _) :=
    ExplorationMetrics.locate agent_position
      (ExplorationMetrics.room_aabbs st)
      (ExplorationMetrics.room_visitation_map st, None, []) in
  if ExplorationMetrics.peek_guard st rvm current_room then current_room
  else None.

(** The same under the strict test. *)
Definition peeked_strict (st : ExplorationMetrics.state)
  (x : ExplorationMetrics.step) : option string :=
  let '(_, agent_position, _) := x in
  let '(rvm, current_room, _) :=
    ExplorationMetrics.locate agent_position
      (ExplorationMetrics.room_aabbs st)
      (ExplorationMetrics.room_visitation_map st, None, []) in
  if ExplorationMetrics.peek_guard_strict st rvm current_room
  then current_room else None.

(** The number of steps of a run that detect a peek into [room]. *)
Fixpoint peeks (detect : ExplorationMetrics.state ->
                         ExplorationMetrics.step -> option string)
  (st : ExplorationMetrics.state) (steps : list ExplorationMetrics.step)
  (room : string) : nat :=
  match steps with
  | [] => 0%nat
  | x :: steps' =>
      ((if room_eqb (detect st x) (Some room) then 1 else 0)
       + peeks detect (ExplorationMetrics.update st x) steps' room)%nat
  end.

(** The revisitation count after [n] detections: 0, then 2, 3, 4, ... *)
Definition revisits_after (n : nat) : Z :=
  match n with
  | O => 0
  | S k => Z.of_nat k + 2
  end.

(** The revisitation count after one more detection. *)
Definition revisited (c : Z) : Z := if Z.eqb c 0 then 2 else c + 1.

(** Two rooms side by side and a walk: into the hall, the given number of
    steps in the study, and back into the hall. *)
Definition hall : region := Region "hallway" unit_box.
Definition study : region :=
  Region "office" (AABB (Vec3 3 0 0) (Vec3 2 2 2)).
Definition in_study : vec3 := Vec3 3 0 0.

Definition walking (p : vec3) : ExplorationMetrics.step :=
  (None, p, "MOVE_FORWARD").

Definition peek_walk (n : nat) : list ExplorationMetrics.step :=
  (walking origin :: repeat (walking in_study) n ++ [walking origin])%list.

Definition interrupted_sweep : list ExplorationMetrics.step :=
  (take 3 sweep_steps ++ walking origin :: drop 3 sweep_steps)%list.

(** The sweep with a non-turn action put in front of its first turn. *)
Definition preceded_sweep : list ExplorationMetrics.step :=
  (take 0 sweep_steps ++ walking origin :: drop 0 sweep_steps)%list.

(** The visible-area ratio of the map a step comes with. *)
Definition sight_of (x : ExplorationMetrics.step) : npfloat :=
  ExplorationMetrics.get_visible_area (fst (fst x)).

(** Two states agree on what the shaping policies read and write: the
    goal-seen flag and the two baselines. *)
Definition same_shaping_state (s1 s2 : ObjectNavReward.state) : Prop :=
  ObjectNavReward._goal_was_seen s1 = ObjectNavReward._goal_was_seen s2
  /\ ObjectNavReward._previous_distance_to_target s1
     = ObjectNavReward._previous_distance_to_target s2
  /\ ObjectNavReward._previous_exploration_ratio s1
     = ObjectNavReward._previous_exploration_ratio s2.

(** ** Vocabulary of the further properties *)

(** The number of boxes of a list that contain a position. *)
Fixpoint hits (position : vec3) (boxes : list aabb) : Z :=
  match boxes with
  | [] => 0
  | b :: boxes' =>
      (if aabb_contains position b then 1 else 0) + hits position boxes'
  end.

(** The boxes of the regions of a scene that carry a category name, in
    scene order. *)
Fixpoint boxes_named (regions : list region) (name : string) : list aabb :=
  match regions with
  | [] => []
  | r :: regions' =>
      if String.eqb (category_name r) name
      then region_aabb r :: boxes_named regions' name
      else boxes_named regions' name
  end.

(** The boxes of the regions that carry a category name and contain the
    first viewpoint of some goal. *)
Fixpoint goal_boxes_named (goals : list goal) (regions : list region)
  (name : string) : list aabb :=
  match regions with
  | [] => []
  | r :: regions' =>
      if String.eqb (category_name r) name
         && existsb (fun g => match view_points g with
                              | Some (p :: _) =>
                                  aabb_contains p (region_aabb r)
                              | _ => false
                              end) goals
      then region_aabb r :: goal_boxes_named goals regions' name
      else goal_boxes_named goals regions' name
  end.

(** The number of (step, box) pairs of a walk in which the box contains the
    position of the step. *)
Fixpoint visits (boxes : list aabb) (positions : list vec3) : Z :=
  match positions with
  | [] => 0
  | p :: positions' => hits p boxes + visits boxes positions'
  end.

(** No two neighbours of a list are equal. *)
Fixpoint adjacent_distinct (l : list string) : Prop :=
  match l with
  | a :: (b :: _) as l' => a <> b /\ adjacent_distinct l'
  | _ => True
  end.

(** The calls the host makes on an [ExplorationMetrics] object over its
    life: resets and updates, in any order. *)
Inductive exploration_call : Type :=
| CallReset (levels : list (list region)) (agent_position : vec3)
| CallUpdate (x : ExplorationMetrics.step).

Definition exploration_run (st : ExplorationMetrics.state)
  (calls : list exploration_call) : ExplorationMetrics.state :=
  fold_left
    (fun st call =>
       match call with
       | CallReset levels agent_position =>
           ExplorationMetrics.reset_metric st levels agent_position
       | CallUpdate x => ExplorationMetrics.update st x
       end)
    calls st.

(** The region names of the boxes that contain a position, one entry per
    box, in the iteration order of the dictionary. *)
Fixpoint matches (position : vec3) (rooms : room_dict) : list string :=
  match rooms with
  | [] => []
  | (region, boxes) :: rooms' =>
      (map (fun _ => region) (filter (fun b => aabb_contains position b = true)
                                     boxes)
       ++ matches position rooms')%list
  end.

(** A numpy float that is a number between 0 and 1. *)
Definition unit_ratio (a : npfloat) : Prop :=
  exists q, a = Fin q /\ (0 <= q <= 1)%Q.

(** The rewards an [ObjectNavReward] object stores along the updates of an
    episode, and along the whole episode with its reset first. *)
Fixpoint reward_trace (cfg : ObjectNavReward.config)
  (st : ObjectNavReward.state) (steps : list ObjectNavReward.measures)
  : list npfloat :=
  match steps with
  | [] => []
  | m :: steps' =>
      match ObjectNavReward.update_metric cfg st m with
      | Returns st' =>
          ObjectNavReward._metric st' :: reward_trace cfg st' steps'
      | Raises _ => []
      end
  end.

Definition episode_rewards (cfg : ObjectNavReward.config)
  (st : ObjectNavReward.state) (m0 : ObjectNavReward.measures)
  (steps : list ObjectNavReward.measures) : list npfloat :=
  match ObjectNavReward.reset_metric cfg st m0 with
  | Returns st' => ObjectNavReward._metric st' :: reward_trace cfg st' steps
  | Raises _ => []
  end.

(** The sum of a list of rewards. *)
Definition total (rewards : list npfloat) : npfloat :=
  fold_right add (Fin 0) rewards.

(** The number of steps on which the success measure holds. *)
Fixpoint successes (steps : list ObjectNavReward.measures) : Z :=
  match steps with
  | [] => 0
  | m :: steps' =>
      (if ObjectNavReward.success m then 1 else 0) + successes steps'
  end.

(** The distance at the last of the steps, [d] when there is none. *)
Fixpoint last_distance (d : Q) (steps : list ObjectNavReward.measures) : Q :=
  match steps with
  | [] => d
  | m :: steps' => last_distance (ObjectNavReward.distance_to_goal m) steps'
  end.

(** The number of updates that pay the slack penalty, among those that
    follow a state whose step count is [c]. *)
Fixpoint slack_count (c : Z) (steps : list ObjectNavReward.measures) : Z :=
  match steps with
  | [] => 0
  | _ :: steps' =>
      (if Z.ltb 20 (c + 1) then 1 else 0) + slack_count (c + 1) steps'
  end.

(** A distance-mode configuration and a walk towards the goal. *)
Definition distance_config : ObjectNavReward.config :=
  ObjectNavReward.Config "DISTANCE_TO_GOAL" (-1 # 100) (5 # 2) 1 (1 # 10) 1.

Definition approach (distance : Q) (success : bool)
  : ObjectNavReward.measures :=
  ObjectNavReward.Measures distance None 0 success.

(** ** Further code of the task file *)

(** The exceptions of the code below, and what a call of it does. *)
Module Py.

Inductive error : Type :=
| KeyError (key : string)
| IndexError
| AttributeError (name : string)
| TypeError
| OverflowError
| RuntimeError (msg : string).

Inductive result (A : Type) : Type :=
| Ok (a : A)
| Error (e : error).
Arguments Ok {A} a.
Arguments Error {A} e.

End Py.

(** [d[key]] on a dictionary with string keys given as its items. *)
Fixpoint dict_lookup {A : Type} (d : list (string * A)) (key : string)
  : option A :=
  match d with
  | [] => None
  | (k, v) :: d' => if String.eqb k key then Some v else dict_lookup d' key
  end.

(** [d[key] = v]: a present key keeps its place. *)
Fixpoint dict_set {A : Type} (d : list (string * A)) (key : string) (v : A)
  : list (string * A) :=
  match d with
  | [] => [(key, v)]
  | (k, v') :: d' =>
      if String.eqb k key then (k, v) :: d'
      else (k, v') :: dict_set d' key v
  end.

(** [l[i]] on a Python list: a negative index counts from the end. *)
Definition list_index {A : Type} (l : list A) (i : Z) : Py.result A :=
  let n := Z.of_nat (length l) in
  let j := if Z.ltb i 0 then i + n else i in
  if Z.ltb j 0 || Z.leb n j then Py.Error Py.IndexError
  else match nth_error l (Z.to_nat j) with
       | Some a => Py.Ok a
       | None => Py.Error Py.IndexError
       end.

Definition REGION_ANNOTATIONS : list (string * Z) :=
  [("bathroom", 0); ("bedroom", 1); ("closet", 2); ("dining room", 3);
   ("entryway/foyer/lobby", 4); ("familyroom/lounge", 5); ("garage", 6);
   ("hallway", 7); ("library", 8); ("laundryroom/mudroom", 9);
   ("kitchen", 10); ("living room", 11);
   ("meetingroom/conferenceroom", 12); ("lounge", 13); ("office", 14);
   ("porch/terrace/deck", 15); ("rec/game", 16); ("stairs", 17);
   ("toilet", 18); ("utilityroom/toolroom", 19); ("tv", 20);
   ("workout/gym/exercise", 21); ("outdoor", 22); ("balcony", 23);
   ("other room", 24); ("bar", 25); ("classroom", 26);
   ("dining booth", 27); ("spa/sauna", 28); ("junk", 29);
   ("no label", 30)].

Definition task_cat2mpcat40 : list Z :=
  [3; 5; 6; 7; 8; 10; 11; 13; 14; 15; 18; 19; 20; 22; 23; 25; 26; 27; 33;
   34; 38; 43; 44; 45; 46; 47; 48; 49].

(** *** RegionLevelInfo, the measure *)

Module RegionLevelInfoMeasure.

(** A region of the semantic annotations: [r.id], [r.aabb] and
    [r.category.name()]. *)
Record annotated_region : Type := AnnotatedRegion {
  region_id : string;
  annotated_aabb : aabb;
  annotated_category : string
}.

(** The attributes of [self]: [regions] is [None] until the first reset;
    [room_cat] is the entry of the [_metric] dictionary, [None] while
    [_metric] is. *)
Record state : Type := State {
  regions : option (list (string * (aabb * string)));
  _found_any : bool;
  room_cat : option Z
}.

Definition init : state := State None false None.

(** The loop of [update_metric] over the regions: the category code of the
    first region that contains the position, if any does. *)
Fixpoint find_room (agent_position : vec3)
  (regions : list (string * (aabb * string))) : Py.result (option Z) :=
  match regions with
  | [] => Py.Ok None
  | (r_id, (box, category)) :: regions' =>
      if RegionLevelInfo._is_in agent_position box
      then match dict_lookup REGION_ANNOTATIONS category with
           | Some code => Py.Ok (Some code)
           | None => Py.Error (Py.KeyError category)
           end
      else find_room agent_position regions'
  end.

Definition update_metric (st : state) (agent_position : vec3)
  : Py.result state :=
  match dict_lookup REGION_ANNOTATIONS "no label" with
  | None => Py.Error (Py.KeyError "no label")
  | Some room_cat =>
      match regions st with
      | None => Py.Error Py.TypeError
      | Some rs =>
          match find_room agent_position rs with
          | Py.Error e => Py.Error e
          | Py.Ok (Some code) => Py.Ok (State (regions st) true (Some code))
          | Py.Ok None =>
              Py.Ok (State (regions st) (_found_any st) (Some room_cat))
          end
      end
  end.

(** [reset_metric]; the message it prints is not modelled. *)
Definition reset_metric (st : state) (annot_regions : list annotated_region)
  (agent_position : vec3) : Py.result state :=
  let rs :=
    fold_left
      (fun d r =>
         dict_set d (region_id r) (annotated_aabb r, annotated_category r))
      annot_regions [] in
  match dict_lookup REGION_ANNOTATIONS "no label" with
  | None => Py.Error (Py.KeyError "no label")
  | Some room_cat =>
      update_metric (State (Some rs) false (Some room_cat)) agent_position
  end.

End RegionLevelInfoMeasure.

(** *** GoalObjectVisible *)

Module GoalObjectVisible.

(** The entries of [observations] the two classes read; [None] for a
    missing key. *)
Record observations : Type := Observations {
  semantic : option (list (list Z));
  objectgoal : option (list Z);
  gripped_object_id : option Z
}.

(** [(semantic == idx).sum() / semantic.size] *)
Definition visible_area (semantic_obs : list (list Z)) (idx : Z) : npfloat :=
  let goal_visible_pixels :=
    np_sum (np_where (fun c => Z.eqb c idx) 1 0 semantic_obs) in
  true_divide goal_visible_pixels (np_size semantic_obs).

(** [self.task_cat2mpcat40[observations["objectgoal"][0]]] *)
Definition goal_label (obs : observations) : Py.result Z :=
  match objectgoal obs with
  | None => Py.Error (Py.KeyError "objectgoal")
  | Some [] => Py.Error Py.IndexError
  | Some (k :: _) => list_index task_cat2mpcat40 k
  end.

(** [update_metric] of the first class of that name ([goal_vis]): the
    metric it stores. *)
Definition update_metric_goal_vis (obs : observations) : Py.result npfloat :=
  match semantic obs, objectgoal obs with
  | Some obj_semantic, Some _ =>
      match goal_label obs with
      | Py.Ok idx => Py.Ok (visible_area obj_semantic idx)
      | Py.Error e => Py.Error e
      end
  | _, _ => Py.Ok (Fin 0)
  end.

(** [d[key]] on the simulator's map from object ids to semantic ids. *)
Definition semantic_id_of (d : gmap Z Z) (key : Z) : Py.result Z :=
  match d !! key with
  | Some v => Py.Ok v
  | None => Py.Error (Py.KeyError (pretty key))
  end.

(** [update_metric] of the second class of that name
    ([goal_vis_pixels]). *)
Definition update_metric (INSERTED_OBJECTS : bool)
  (obj_id_to_semantic_obj_id_map : gmap Z Z) (obs : observations)
  : Py.result npfloat :=
  match semantic obs with
  | None => Py.Ok (Fin 0)
  | Some semantic_obs =>
      if INSERTED_OBJECTS then
        match semantic_id_of obj_id_to_semantic_obj_id_map 0 with
        | Py.Error e => Py.Error e
        | Py.Ok semantic_object_id =>
            match gripped_object_id obs with
            | None => Py.Error (Py.KeyError "gripped_object_id")
            | Some gripped =>
                if negb (Z.eqb gripped (-1)) then
                  match semantic_id_of obj_id_to_semantic_obj_id_map 1 with
                  | Py.Error e => Py.Error e
                  | Py.Ok semantic_object_id =>
                      Py.Ok (visible_area semantic_obs semantic_object_id)
                  end
                else Py.Ok (visible_area semantic_obs semantic_object_id)
            end
        end
      else
        match goal_label obs with
        | Py.Ok idx => Py.Ok (visible_area semantic_obs idx)
        | Py.Error e => Py.Error e
        end
  end.

End GoalObjectVisible.

(** *** ObjectGoalSensor *)

Module ObjectGoalSensor.

(** A goal of the episode: whether it is an [ObjectGoal], and its
    [object_name_id] when it has that attribute. *)
Record nav_goal : Type := NavGoal {
  is_object_goal : bool;
  object_name_id : option Z
}.

Record episode : Type := Episode {
  goals : list nav_goal;
  object_category : option string
}.

(** [np.array([v], dtype=np.int64)] on a Python integer: the one-element
    array, [OverflowError] when [v] is not a 64-bit signed integer. *)
Definition int64_array (v : Z) : Py.result (option (list Z)) :=
  if Z.leb (- 2 ^ 63) v && Z.ltb v (2 ^ 63) then Py.Ok (Some [v])
  else Py.Error Py.OverflowError.

(** [get_observation]: [None], or the one-element array; the messages it
    logs are not modelled. *)
Definition get_observation (GOAL_SPEC : string)
  (category_to_task_category_id : gmap string Z) (ep : episode)
  : Py.result (option (list Z)) :=
  if String.eqb GOAL_SPEC "TASK_CATEGORY_ID" then
    match goals ep with
    | [] => Py.Ok None
    | g :: _ =>
        if negb (is_object_goal g) then Py.Ok None
        else
          match object_category ep with
          | None => Py.Error (Py.KeyError "None")
          | Some category_name =>
              match category_to_task_category_id !! category_name with
              | Some id => int64_array id
              | None => Py.Error (Py.KeyError category_name)
              end
          end
    end
  else if String.eqb GOAL_SPEC "OBJECT_ID" then
    match goals ep with
    | [] => Py.Error Py.IndexError
    | g :: _ =>
        match object_name_id g with
        | Some id => int64_array id
        | None => Py.Error (Py.AttributeError "object_name_id")
        end
    end
  else Py.Error
         (Py.RuntimeError "Wrong GOAL_SPEC specified for ObjectGoalSensor.").

End ObjectGoalSensor.

(** *** Python strings: [rfind] and slices *)

(** [s.rfind(c)] for a one-character string [c]: the index of its last
    occurrence, [-1] when there is none. *)
Fixpoint rfind_from (c : Ascii.ascii) (s : string) (i last : Z) : Z :=
  match s with
  | EmptyString => last
  | String a s' =>
      rfind_from c s' (i + 1) (if Ascii.eqb a c then i else last)
  end.

Definition rfind (c : Ascii.ascii) (s : string) : Z :=
  rfind_from c s 0 (-1).

(** The bound of a slice: a negative index counts from the end, and the
    result is clipped to the string. *)
Definition slice_bound (s : string) (k : Z) : nat :=
  let n := Z.of_nat (String.length s) in
  Z.to_nat (if Z.ltb k 0 then Z.max 0 (n + k) else Z.min k n).

(** [s[:k]] and [s[k:]] *)
Definition slice_to (s : string) (k : Z) : string :=
  substring 0 (slice_bound s k) s.

Definition slice_from (s : string) (k : Z) : string :=
  substring (slice_bound s k) (String.length s - slice_bound s k) s.

(** [c] occurs in [s]. *)
Fixpoint occurs (c : Ascii.ascii) (s : string) : bool :=
  match s with
  | EmptyString => false
  | String a s' => Ascii.eqb a c || occurs c s'
  end.

(** The character of ["/"]. *)
Definition slash : Ascii.ascii :=
  match "/" with
  | String c _ => c
  | EmptyString => Ascii.zero
  end.

(** *** ObjectGoalNavEpisode *)

Module ObjectGoalNavEpisode.

(** [os.path.basename(p)]: what follows the last slash. *)
Definition basename (p : string) : string := slice_from p (rfind slash p + 1).

(** [str(x)] of an optional string, as an f-string formats it. *)
Definition format_optional (x : option string) : string :=
  match x with
  | Some s => s
  | None => "None"
  end.

(** The property [goals_key]. *)
Definition goals_key (scene_id : string) (object_category : option string)
  : string :=
  basename scene_id ++ "_" ++ format_optional object_category.

End ObjectGoalNavEpisode.

(** ** The plotting script [scripts/pretty_plot_obj.py] *)

Module PrettyPlot.

(** [v[:v.rfind("/")]], the stem of a variant name as
    [get_plot_steps_and_values] takes it. *)
Definition stem (v : string) : string := slice_to v (rfind slash v).

(** The variants [get_plot_steps_and_values] uses for a key. *)
Definition used_variants (key : string) (variants : list string)
  : list string :=
  if negb (str_in "eval" key) then map stem variants else variants.

Definition get_label (variant key : string) : string :=
  if str_in "eval" key then
    if str_in "pred_sem" variant then "RL"
    else if str_in "il" variant then "IL"
    else "Train"
  else "Train".

(** [np.max] of two values and of a non-empty row. *)
Definition Qmax2 (a b : Q) : Q := if Qle_bool a b then b else a.

Definition np_max (l : list Q) : option Q :=
  match l with
  | [] => None
  | a :: l' => Some (fold_left Qmax2 l' a)
  end.

(** One pass of the early-stop loop of [get_means_and_ci]:
    [best_until[:, t] = np.max(best_until[:, :t + 1], axis=1)]. *)
Definition best_until_step (best_until : list (list Q)) (t : nat)
  : list (list Q) :=
  map (fun row =>
         match np_max (take (S t) row) with
         | Some m => <[t := m]> row
         | None => row
         end)
      best_until.

(** The early-stop loop, [t] running over the [columns] of the data. *)
Definition early_stop (data : list (list Q)) (columns : nat)
  : list (list Q) :=
  fold_left best_until_step (seq 0 columns) data.

(** The running maximum of a row: every entry replaced by the largest
    entry up to it. *)
Fixpoint scan_max (m : Q) (row : list Q) : list Q :=
  match row with
  | [] => []
  | a :: row' => Qmax2 m a :: scan_max (Qmax2 m a) row'
  end.

Definition running_max (row : list Q) : list Q :=
  match row with
  | [] => []
  | a :: row' => a :: scan_max a row'
  end.

End PrettyPlot.

(** What one pass of the early-stop loop does to one row. *)
Definition row_pass (row : list Q) (t : nat) : list Q :=
  match PrettyPlot.np_max (take (S t) row) with
  | Some m => <[t := m]> row
  | None => row
  end.

(** Example inputs of the further properties. *)
Definition hall_region : RegionLevelInfoMeasure.annotated_region :=
  RegionLevelInfoMeasure.AnnotatedRegion "r0" unit_box "hallway".

Definition semantic_image : list (list Z) := [[3; 3]; [5; 0]].

Definition chair_goal : GoalObjectVisible.observations :=
  GoalObjectVisible.Observations (Some semantic_image) (Some [0]) None.

Definition chair_episode : ObjectGoalSensor.episode :=
  ObjectGoalSensor.Episode [ObjectGoalSensor.NavGoal true None]
    (Some "chair").

(** Goals without viewpoints: the default, and an empty list. *)
Definition unset_viewpoints : goal := Goal None.
Definition no_viewpoints : goal := Goal (Some []).

(** * Properties *)

(** ** Rationals and numpy floats *)

Lemma Qleb_le a b : Qleb a b = true <-> (a <= b)%Q.
Proof. apply Qle_bool_iff. Qed.

Lemma Qltb_lt a b : Qltb a b = true <-> (a < b)%Q.
Proof.
  unfold Qltb. rewrite negb_true_iff. split.
  - intros H. destruct (Qlt_le_dec a b) as [|Hle]; [assumption|].
    apply Qle_bool_iff in Hle. congruence.
  - intros H. destruct (Qle_bool b a) eqn:E; [|reflexivity].
    apply Qle_bool_iff in E. exfalso. exact (Qlt_not_le _ _ H E).
Qed.

Lemma Qltb_false a b : Qltb a b = false <-> (b <= a)%Q.
Proof.
  unfold Qltb. rewrite negb_false_iff. apply Qle_bool_iff.
Qed.

Section NpFloatFacts.

Lemma equiv_refl a : a ≈ a.
Proof. destruct a; simpl; auto. reflexivity. Qed.

Lemma equiv_sym a b : a ≈ b -> b ≈ a.
Proof. destruct a, b; simpl; auto. intros H. symmetry. exact H. Qed.

Lemma equiv_trans a b c : a ≈ b -> b ≈ c -> a ≈ c.
Proof.
  destruct a, b, c; simpl; try tauto. intros H1 H2.
  rewrite H1. exact H2.
Qed.

Lemma add_0_l a : add (Fin 0) a ≈ a.
Proof. destruct a; simpl; auto. apply Qplus_0_l. Qed.

Lemma sub_Fin_self (d : Q) : sub (Fin d) (Fin d) ≈ Fin 0.
Proof. simpl. apply Qplus_opp_r. Qed.

End NpFloatFacts.

(** ** Region containment *)

Section Containment.

Lemma axes_spec (P : nat -> bool) :
  forallb P axes = true <-> forall i, (i < 3)%nat -> P i = true.
Proof.
  unfold axes. simpl. rewrite !andb_true_iff. split.
  - intros (H0 & H1 & H2 & _) i Hi.
    destruct i as [|[|[|i]]]; [assumption..|lia].
  - intros H. repeat split; apply H; lia.
Qed.

Lemma vget_min b i :
  vget (aabb_min b) i = (vget (center b) i - half_extent b i)%Q.
Proof. destruct i as [|[|[|i]]]; reflexivity. Qed.

Lemma vget_max b i :
  vget (aabb_max b) i = (vget (center b) i + half_extent b i)%Q.
Proof. destruct i as [|[|[|i]]]; reflexivity. Qed.

(** [_is_in] is the strict test against the padded box. *)
Lemma _is_in_spec loc b :
  RegionLevelInfo._is_in loc b = true <->
  forall i, (i < 3)%nat ->
    (vget (center b) i - RegionLevelInfo.padded_sizes b i < vget loc i
     /\ vget loc i < vget (center b) i + RegionLevelInfo.padded_sizes b i)%Q.
Proof.
  unfold RegionLevelInfo._is_in. rewrite axes_spec.
  split; intros H i Hi; specialize (H i Hi).
  - apply andb_true_iff in H. destruct H as [H1 H2].
    split; apply Qltb_lt; assumption.
  - apply andb_true_iff. destruct H as [H1 H2].
    split; apply Qltb_lt; assumption.
Qed.

(** [aabb_contains] is the inclusive test against the box itself. *)
Lemma aabb_contains_spec position b :
  aabb_contains position b = true <->
  forall i, (i < 3)%nat ->
    (vget (center b) i - half_extent b i <= vget position i
     /\ vget position i <= vget (center b) i + half_extent b i)%Q.
Proof.
  unfold aabb_contains. cbv zeta. rewrite !andb_true_iff, !Qleb_le.
  rewrite !vget_min, !vget_max. split.
  - intros (((((H0 & H0') & H2) & H2') & H1) & H1') i Hi.
    destruct i as [|[|[|i]]]; split; assumption.
  - intros H.
    pose proof (H 0%nat ltac:(lia)) as [? ?].
    pose proof (H 1%nat ltac:(lia)) as [? ?].
    pose proof (H 2%nat ltac:(lia)) as [? ?].
    repeat split; assumption.
Qed.

End Containment.

(** C4, as stated, fails: at the padded upper edge the specification's
    convention answers true, [_is_in] answers false (its comparisons are
    strict) and [aabb_contains] answers false (it adds no padding). *)
Lemma containment_padded_edge_rejected :
  SpecContainment.contains padded_top unit_box = true
  /\ RegionLevelInfo._is_in padded_top unit_box = false
  /\ aabb_contains padded_top unit_box = false.
Proof. repeat split; vm_compute; reflexivity. Qed.

(** C4, amended: the two containment tests follow two conventions.
    [RegionLevelInfo._is_in] holds iff the point is strictly inside the box
    on every axis, the vertical half-extent being inflated by 0.1;
    [aabb_contains] (of [RoomVisitationMap] and [ExplorationMetrics]) holds
    iff the point is inside the unpadded box on every axis, boundary
    included. *)
Theorem containment_conventions (p : vec3) (b : aabb) :
  (RegionLevelInfo._is_in p b = true <->
   forall i, (i < 3)%nat ->
     (vget (center b) i
        - (half_extent b i + if Nat.eqb i 1 then 1 # 10 else 0) < vget p i
      /\ vget p i < vget (center b) i
        + (half_extent b i + if Nat.eqb i 1 then 1 # 10 else 0))%Q)
  /\ (aabb_contains p b = true <->
      forall i, (i < 3)%nat ->
        (vget (center b) i - half_extent b i <= vget p i
         /\ vget p i <= vget (center b) i + half_extent b i)%Q).
Proof.
  split; [|apply aabb_contains_spec].
  rewrite _is_in_spec.
  assert (Hpad : forall i,
    (RegionLevelInfo.padded_sizes b i
     == half_extent b i + if Nat.eqb i 1 then 1 # 10 else 0)%Q).
  { intros i. unfold RegionLevelInfo.padded_sizes.
    destruct (Nat.eqb i 1); [reflexivity|]. symmetry. apply Qplus_0_r. }
  split; intros H i Hi; specialize (H i Hi); specialize (Hpad i).
  - rewrite <- Hpad. exact H.
  - rewrite Hpad. exact H.
Qed.

(** ** CoverageEstimator: [get_coverage] and [get_visible_area] *)

Section Coverage.

Lemma row_sum_where_nonneg {A} (c : A -> bool) (row : list A) :
  0 <= fold_right Z.add 0 (map (fun a => if c a then 1 else 0) row).
Proof. induction row as [|a row IH]; simpl; [lia|]. destruct (c a); lia. Qed.

Lemma row_sum_where_le {A} (c d : A -> bool) (row : list A) :
  (forall a, c a = true -> d a = true) ->
  fold_right Z.add 0 (map (fun a => if c a then 1 else 0) row)
  <= fold_right Z.add 0 (map (fun a => if d a then 1 else 0) row).
Proof.
  intros Hcd. induction row as [|a row IH]; simpl; [lia|].
  destruct (c a) eqn:Ec; [rewrite (Hcd a Ec); lia|].
  destruct (d a); lia.
Qed.

Lemma np_sum_where_cons {A} (c : A -> bool) x y row (g : list (list A)) :
  np_sum (np_where c x y (row :: g))
  = fold_right Z.add 0 (map (fun a => if c a then x else y) row)
    + np_sum (np_where c x y g).
Proof. reflexivity. Qed.

(** Counting cells: [np.sum(np.where(c, 1, 0))] is not negative, and it
    grows with the condition. *)
Lemma count_where_nonneg {A} (c : A -> bool) (g : list (list A)) :
  0 <= np_sum (np_where c 1 0 g).
Proof.
  induction g as [|row g IH]; [simpl; lia|].
  rewrite np_sum_where_cons.
  pose proof (row_sum_where_nonneg c row). lia.
Qed.

Lemma count_where_le {A} (c d : A -> bool) (g : list (list A)) :
  (forall a, c a = true -> d a = true) ->
  np_sum (np_where c 1 0 g) <= np_sum (np_where d 1 0 g).
Proof.
  intros Hcd. induction g as [|row g IH]; [simpl; lia|].
  rewrite !np_sum_where_cons.
  pose proof (row_sum_where_le c d row Hcd). lia.
Qed.

Lemma np_where_swap {A} (c : A -> bool) (g : list (list A)) :
  np_where c 0 1 g = np_where (fun a => negb (c a)) 1 0 g.
Proof.
  unfold np_where. apply map_ext. intros row. apply map_ext. intros a.
  destruct (c a); reflexivity.
Qed.

Lemma mask_sum_nonneg (g : list (list bool)) : 0 <= mask_sum g.
Proof.
  unfold mask_sum. induction g as [|row g IH]; [simpl; lia|].
  change (0 <= fold_right Z.add 0 (map Z.b2z row)
               + np_sum (map (map Z.b2z) g)).
  assert (0 <= fold_right Z.add 0 (map Z.b2z row)).
  { clear. induction row as [|[] row IH]; simpl; lia. }
  lia.
Qed.

(** The visited cells are among the navigable ones. *)
Lemma visited_le_navigable (info : top_down_info) :
  0 <= np_sum (np_where (fun c => Z.leb c 9) 0 1 (tdm_map info))
    <= ExplorationMetrics.get_navigable_area info.
Proof.
  rewrite np_where_swap. split; [apply count_where_nonneg|].
  unfold ExplorationMetrics.get_navigable_area. apply count_where_le.
  intros c Hc. apply negb_true_iff, Z.leb_gt in Hc.
  apply orb_true_iff. right. apply Z.leb_le. lia.
Qed.

End Coverage.

(** C2, as stated, fails: on a map whose navigable area is 0 the two ratios
    are the quotient 0/0, a NaN, and not 0. *)
Lemma coverage_of_blank_map_is_nan :
  ExplorationMetrics.get_navigable_area blank_map = 0
  /\ ExplorationMetrics.get_coverage (Some blank_map) = NaN
  /\ ExplorationMetrics.get_visible_area (Some blank_map) = NaN
  /\ ~ (ExplorationMetrics.get_coverage (Some blank_map) ≈ Fin 0)
  /\ ~ (ExplorationMetrics.get_visible_area (Some blank_map) ≈ Fin 0).
Proof. repeat split; try reflexivity; vm_compute; tauto. Qed.

(** C2, amended: while the map is not available both ratios are 0.  On a map
    whose navigable area is 0 the division is carried out and no exception
    is raised (both functions return a value), but the result is not 0: the
    coverage ratio is NaN, and the visible-area ratio is NaN when no cell is
    visible and 1 (the clamped infinity) otherwise. *)
Theorem coverage_without_navigable_area :
  ExplorationMetrics.get_coverage None = Fin 0
  /\ ExplorationMetrics.get_visible_area None = Fin 0
  /\ forall info : top_down_info,
       ExplorationMetrics.get_navigable_area info = 0 ->
       ExplorationMetrics.get_coverage (Some info) = NaN
       /\ ExplorationMetrics.get_visible_area (Some info)
          = if Z.eqb (mask_sum (fog_of_war_mask info)) 0 then NaN else Fin 1.
Proof.
  split; [reflexivity|]. split; [reflexivity|].
  intros info Hnav. split.
  - unfold ExplorationMetrics.get_coverage. cbv zeta.
    pose proof (visited_le_navigable info) as Hv. rewrite Hnav in Hv |- *.
    replace (np_sum (np_where (fun c => Z.leb c 9) 0 1 (tdm_map info)))
      with 0 by lia.
    reflexivity.
  - unfold ExplorationMetrics.get_visible_area. cbv zeta. rewrite Hnav.
    pose proof (mask_sum_nonneg (fog_of_war_mask info)) as Hm.
    unfold true_divide. simpl Z.eqb. cbv iota.
    destruct (Z.eqb_spec (mask_sum (fog_of_war_mask info)) 0) as [E|E].
    + rewrite E. reflexivity.
    + destruct (Z.compare_spec (mask_sum (fog_of_war_mask info)) 0);
        try lia.
      reflexivity.
Qed.

Lemma coverage_without_navigable_area_witness :
  ExplorationMetrics.get_navigable_area blank_map = 0
  /\ ExplorationMetrics.get_coverage (Some blank_map) = NaN.
Proof.
  split; [reflexivity|].
  destruct coverage_without_navigable_area as (_ & _ & H).
  apply (H blank_map). reflexivity.
Defined.

(** ** RewardShaper: the mode dispatch *)

Lemma shaping_unrecognized cfg st m :
  ~ recognized_mode (ObjectNavReward.MODE cfg) ->
  ObjectNavReward.shaping cfg st m = None.
Proof.
  intros Hmode. unfold ObjectNavReward.shaping.
  repeat match goal with
  | |- context [String.eqb ?a ?b] =>
      destruct (String.eqb_spec a b) as [E|_];
      [exfalso; apply Hmode; unfold recognized_mode; tauto|]
  end.
  reflexivity.
Qed.

(** C1, as stated, fails: with an unrecognized mode the update returns,
    and the reward it stores is the success bonus alone. *)
Lemma unrecognized_mode_returns :
  ~ recognized_mode (ObjectNavReward.MODE typo_config)
  /\ ObjectNavReward.update_metric typo_config ObjectNavReward.init
       some_measures
     = Returns (ObjectNavReward.State (Fin (0 + 5 # 2)) 1 false (Fin 0) None).
Proof.
  split; [|reflexivity].
  unfold recognized_mode. simpl. intros [H|[H|H]]; discriminate H.
Qed.

(** C1, amended: for every mode that is not one of the three recognized
    shaping modes, [update_metric] raises nothing: it returns, the reward
    is the slack penalty (past 20 steps) plus the success bonus (on
    success) with no shaping term, and no baseline or flag changes. *)
Theorem unrecognized_mode_no_shaping
  (cfg : ObjectNavReward.config) (st : ObjectNavReward.state)
  (m : ObjectNavReward.measures) :
  ~ recognized_mode (ObjectNavReward.MODE cfg) ->
  ObjectNavReward.update_metric cfg st m
  = Returns
      (ObjectNavReward.State
         (fixed_terms cfg (ObjectNavReward.step_count st + 1)
                      (ObjectNavReward.success m))
         (ObjectNavReward.step_count st + 1)
         (ObjectNavReward._goal_was_seen st)
         (ObjectNavReward._previous_distance_to_target st)
         (ObjectNavReward._previous_exploration_ratio st)).
Proof.
  intros Hmode. unfold ObjectNavReward.update_metric. cbv zeta.
  rewrite shaping_unrecognized by assumption. reflexivity.
Qed.

Lemma unrecognized_mode_no_shaping_witness :
  ObjectNavReward.update_metric typo_config ObjectNavReward.init
    some_measures
  = Returns
      (ObjectNavReward.State
         (fixed_terms typo_config 1 true) 1 false (Fin 0) None).
Proof.
  apply (unrecognized_mode_no_shaping typo_config ObjectNavReward.init
           some_measures).
  unfold recognized_mode. simpl. intros [H|[H|H]]; discriminate H.
Defined.

(** ** DistanceToGoalReward against ObjectNavSparseReward *)

Section SparseRefinement.
Variable SUCCESS_REWARD : Q.

Lemma sparse_update st success :
  ObjectNavSparseReward._metric
    (ObjectNavSparseReward.update_metric SUCCESS_REWARD st success)
  ≈ sparse_value SUCCESS_REWARD success.
Proof.
  unfold sparse_value. destruct success; simpl; [|reflexivity].
  apply Qplus_0_l.
Qed.

(** Whatever the baseline was, the update overwrites it before it
    subtracts: at a finite distance the distance term cancels, at an
    infinite or NaN distance it is NaN and so is the metric. *)
Lemma d2g_update st d success :
  d2g_value SUCCESS_REWARD (d, success)
    (DistanceToGoalReward._metric
       (DistanceToGoalReward.update_metric SUCCESS_REWARD st d success)).
Proof.
  unfold d2g_value, sparse_value. cbn [fst snd].
  destruct d as [q| | |], success; simpl; try reflexivity; ring.
Qed.

Lemma d2g_metrics_values st_d steps :
  Forall2 (d2g_value SUCCESS_REWARD) steps
          (d2g_metrics SUCCESS_REWARD st_d steps).
Proof.
  revert st_d. induction steps as [|[d s] steps IH]; intros st_d.
  - constructor.
  - simpl. constructor; [apply (d2g_update st_d)|apply IH].
Qed.

Lemma sparse_metrics_values st_s steps :
  Forall2 (fun x r => r ≈ sparse_value SUCCESS_REWARD (snd x)) steps
          (sparse_metrics SUCCESS_REWARD st_s steps).
Proof.
  revert st_s. induction steps as [|[d s] steps IH]; intros st_s.
  - constructor.
  - simpl. constructor; [apply (sparse_update st_s)|apply IH].
Qed.

Lemma d2g_values_sparse steps rs ss :
  Forall (fun x => isfinite (fst x) = true) steps ->
  Forall2 (d2g_value SUCCESS_REWARD) steps rs ->
  Forall2 (fun x r => r ≈ sparse_value SUCCESS_REWARD (snd x)) steps ss ->
  Forall2 NpFloat.equiv rs ss.
Proof.
  intros Hfin Hr. revert ss.
  induction Hr as [|x r steps rs Hx Hr IH]; intros ss Hs.
  - inversion Hs. constructor.
  - inversion Hs as [|? s ? ss' Hxs Hss]; subst.
    inversion Hfin as [|? ? Hf Hfin']; subst.
    constructor; [|apply IH; assumption].
    unfold d2g_value in Hx. rewrite Hf in Hx.
    eapply equiv_trans; [exact Hx|apply equiv_sym, Hxs].
Qed.

End SparseRefinement.

(** C10, as stated, fails: at the reset of an episode whose goal cannot be
    reached the distance measure reports inf, the distance term is
    inf - inf, and [DistanceToGoalReward] exports NaN where
    [ObjectNavSparseReward] exports 0; on success it exports NaN again, not
    [SUCCESS_REWARD]. *)
Lemma d2g_reward_nan_at_infinite_distance :
  DistanceToGoalReward._metric
    (DistanceToGoalReward.reset_metric 1 DistanceToGoalReward.init
       PInf false) = NaN
  /\ ObjectNavSparseReward._metric
       (ObjectNavSparseReward.reset_metric 1
          (ObjectNavSparseReward.State (Fin 0)) false) = Fin 0
  /\ ~ NaN ≈ Fin 0
  /\ DistanceToGoalReward._metric
       (DistanceToGoalReward.update_metric 1 DistanceToGoalReward.init
          PInf true) = NaN
  /\ ~ NaN ≈ sparse_value 1 true.
Proof.
  split; [reflexivity|]. split; [reflexivity|].
  split; [intros []|]. split; [reflexivity|intros []].
Qed.

(** C10, amended: on every episode (a reset and any number of steps) the
    metric [ObjectNavSparseReward] exports after the reset and after each
    step is [SUCCESS_REWARD] on success and 0 otherwise, and the metric
    [DistanceToGoalReward] exports there is the same at every step whose
    distance is finite, and NaN at every step whose distance is infinite or
    NaN.  The distance term is [d - d], the baseline being the current
    distance when it is used: 0 for a finite [d], NaN otherwise.  On an
    episode with finite distances only, the two measures export the same
    metrics throughout. *)
Theorem d2g_reward_is_sparse_reward
  (SUCCESS_REWARD : Q) (st_d : DistanceToGoalReward.state)
  (st_s : ObjectNavSparseReward.state)
  (first : npfloat * bool) (steps : list (npfloat * bool)) :
  Forall2 (fun (x : npfloat * bool) r =>
             if isfinite (fst x)
             then r ≈ Fin (if snd x then SUCCESS_REWARD else 0)
             else r = NaN)
    (first :: steps) (d2g_episode SUCCESS_REWARD st_d first steps)
  /\ Forall2 (fun (x : npfloat * bool) r =>
                r ≈ Fin (if snd x then SUCCESS_REWARD else 0))
       (first :: steps) (sparse_episode SUCCESS_REWARD st_s first steps)
  /\ (Forall (fun x : npfloat * bool => isfinite (fst x) = true)
        (first :: steps) ->
      Forall2 NpFloat.equiv
        (d2g_episode SUCCESS_REWARD st_d first steps)
        (sparse_episode SUCCESS_REWARD st_s first steps))
  /\ (forall d : npfloat,
        if isfinite d then sub d d ≈ Fin 0 else sub d d = NaN).
Proof.
  assert (Hd : Forall2 (d2g_value SUCCESS_REWARD) (first :: steps)
                 (d2g_episode SUCCESS_REWARD st_d first steps)).
  { unfold d2g_episode, DistanceToGoalReward.reset_metric.
    destruct first as [d s].
    constructor;
      [apply (d2g_update SUCCESS_REWARD
                (DistanceToGoalReward.State d (Fin 0)))|].
    apply d2g_metrics_values. }
  assert (Hs : Forall2 (fun x r => r ≈ sparse_value SUCCESS_REWARD (snd x))
                 (first :: steps)
                 (sparse_episode SUCCESS_REWARD st_s first steps)).
  { unfold sparse_episode, ObjectNavSparseReward.reset_metric.
    constructor; [apply (sparse_update SUCCESS_REWARD st_s)|].
    apply sparse_metrics_values. }
  split; [exact Hd|]. split; [exact Hs|]. split.
  - intros Hfin.
    exact (d2g_values_sparse SUCCESS_REWARD _ _ _ Hfin Hd Hs).
  - intros [q| | |]; cbn [isfinite]; try reflexivity. apply sub_Fin_self.
Qed.

Lemma d2g_reward_is_sparse_reward_witness :
  Forall2 NpFloat.equiv
    (d2g_episode 1 DistanceToGoalReward.init (Fin 3, false)
       [(Fin 2, false); (Fin 0, true)])
    (sparse_episode 1 (ObjectNavSparseReward.State (Fin 0)) (Fin 3, false)
       [(Fin 2, false); (Fin 0, true)])
  /\ Forall2
       (fun (x : npfloat * bool) r =>
          if isfinite (fst x) then r ≈ Fin (if snd x then 1 else 0)
          else r = NaN)
       (fst unreachable_then_near :: snd unreachable_then_near)
       (d2g_episode 1 DistanceToGoalReward.init
          (fst unreachable_then_near) (snd unreachable_then_near)).
Proof.
  split.
  - apply (d2g_reward_is_sparse_reward 1 DistanceToGoalReward.init
             (ObjectNavSparseReward.State (Fin 0)) (Fin 3, false)
             [(Fin 2, false); (Fin 0, true)]).
    repeat constructor.
  - apply (d2g_reward_is_sparse_reward 1 DistanceToGoalReward.init
             (ObjectNavSparseReward.State (Fin 0))
             (fst unreachable_then_near) (snd unreachable_then_near)).
Defined.

(** ** VisitationTracker: [RoomVisitationMap] *)

Section Counters.

Lemma count_incr m k k' :
  count (incr m k) k' = if String.eqb k k' then count m k + 1 else count m k'.
Proof.
  unfold incr, count at 1. destruct (String.eqb_spec k k') as [->|Hne].
  - rewrite lookup_insert_eq. reflexivity.
  - rewrite lookup_insert_ne by assumption. reflexivity.
Qed.

Lemma count_incr_le m k k' : count m k' <= count (incr m k) k'.
Proof.
  rewrite count_incr. destruct (String.eqb_spec k k') as [->|_]; lia.
Qed.

Lemma sum_values_insert_fresh m k v :
  m !! k = None -> sum_values (<[k := v]> m) = v + sum_values m.
Proof.
  intros Hk. unfold sum_values.
  rewrite map_fold_insert_L; [reflexivity| |assumption].
  intros. lia.
Qed.

Lemma sum_values_incr m k : sum_values (incr m k) = sum_values m + 1.
Proof.
  unfold incr, count. destruct (m !! k) as [v|] eqn:Hk; simpl.
  - rewrite <- insert_delete_eq.
    rewrite sum_values_insert_fresh by apply lookup_delete_eq.
    rewrite <- (insert_delete_id m k v Hk) at 2.
    rewrite sum_values_insert_fresh by apply lookup_delete_eq. lia.
  - rewrite sum_values_insert_fresh by assumption. lia.
Qed.

End Counters.

Section Visits.
Variable agent_position : vec3.

Lemma grows_refl m : grows m m.
Proof. split; intros; lia. Qed.

Lemma grows_trans m1 m2 m3 : grows m1 m2 -> grows m2 m3 -> grows m1 m3.
Proof.
  intros [H1 S1] [H2 S2]. split; [|lia].
  intros r. specialize (H1 r). specialize (H2 r). lia.
Qed.

Lemma grows_incr m k : grows m (incr m k).
Proof.
  split; [intros r; apply count_incr_le|]. rewrite sum_values_incr. lia.
Qed.

Lemma count_boxes_grows region boxes counts :
  grows counts
    (fold_left
       (fun counts b =>
          if aabb_contains agent_position b then incr counts region
          else counts)
       boxes counts).
Proof.
  revert counts. induction boxes as [|b boxes IH]; intros counts; simpl.
  - apply grows_refl.
  - eapply grows_trans; [|apply IH].
    destruct (aabb_contains agent_position b);
      [apply grows_incr|apply grows_refl].
Qed.

Lemma count_visits_grows rooms counts :
  grows counts (RoomVisitationMap.count_visits agent_position rooms counts).
Proof.
  unfold RoomVisitationMap.count_visits. revert counts.
  induction rooms as [|[region boxes] rooms IH]; intros counts; simpl.
  - apply grows_refl.
  - eapply grows_trans; [apply count_boxes_grows|apply IH].
Qed.

End Visits.

Lemma update_metric_grows st agent_position :
  grows (RoomVisitationMap.room_visitation_map st)
        (RoomVisitationMap.room_visitation_map
           (RoomVisitationMap.update_metric st agent_position))
  /\ grows (RoomVisitationMap.goal_room_visitation_map st)
           (RoomVisitationMap.goal_room_visitation_map
              (RoomVisitationMap.update_metric st agent_position)).
Proof. split; apply count_visits_grows. Qed.

Lemma updates_grow positions st :
  grows (RoomVisitationMap.room_visitation_map st)
        (RoomVisitationMap.room_visitation_map
           (RoomVisitationMap.updates st positions))
  /\ grows (RoomVisitationMap.goal_room_visitation_map st)
           (RoomVisitationMap.goal_room_visitation_map
              (RoomVisitationMap.updates st positions)).
Proof.
  unfold RoomVisitationMap.updates. revert st.
  induction positions as [|p positions IH]; intros st; simpl.
  - split; apply grows_refl.
  - destruct (update_metric_grows st p) as [H1 H2].
    destruct (IH (RoomVisitationMap.update_metric st p)) as [H3 H4].
    split; eapply grows_trans; eassumption.
Qed.

(** C5: along the updates of an episode, from any state and for any
    sequence of agent positions, the visitation count of every region and
    the goal-room visitation count of every region never decrease from one
    step to any later one, and neither does the exported sum of the
    goal-room counts. *)
Theorem visitation_counts_monotone
  (st : RoomVisitationMap.state) (before after : list vec3) (r : string) :
  count (RoomVisitationMap.room_visitation_map
           (RoomVisitationMap.updates st before)) r
  <= count (RoomVisitationMap.room_visitation_map
              (RoomVisitationMap.updates st (before ++ after))) r
  /\ count (RoomVisitationMap.goal_room_visitation_map
              (RoomVisitationMap.updates st before)) r
     <= count (RoomVisitationMap.goal_room_visitation_map
                 (RoomVisitationMap.updates st (before ++ after))) r
  /\ sum_values (RoomVisitationMap.goal_room_visitation_map
                   (RoomVisitationMap.updates st before))
     <= sum_values (RoomVisitationMap.goal_room_visitation_map
                      (RoomVisitationMap.updates st (before ++ after))).
Proof.
  assert (Happ : RoomVisitationMap.updates st (before ++ after)
                 = RoomVisitationMap.updates
                     (RoomVisitationMap.updates st before) after).
  { unfold RoomVisitationMap.updates. apply fold_left_app. }
  rewrite Happ.
  destruct (updates_grow after (RoomVisitationMap.updates st before))
    as [[H1 _] [H2 H3]].
  auto.
Qed.

Section GoalRegions.

Lemma dict_get_append d name b name' :
  dict_get (dict_append d name b) name'
  = if String.eqb name name' then (dict_get d name' ++ [b])%list
    else dict_get d name'.
Proof.
  induction d as [|[k bs] d IH]; simpl.
  - destruct (String.eqb_spec name name'); reflexivity.
  - destruct (String.eqb_spec k name) as [->|Hk]; simpl.
    + destruct (String.eqb_spec name name'); reflexivity.
    + destruct (String.eqb_spec k name') as [->|Hk'].
      * destruct (String.eqb_spec name name'); [congruence|reflexivity].
      * exact IH.
Qed.

(** The flag the loop over the goals computes when every goal has a
    viewpoint. *)
Lemma contains_goal_returns goals b contains :
  (forall g, In g goals -> has_viewpoint g) ->
  exists c,
    RoomVisitationMap.contains_goal goals b contains = Returns c
    /\ (c = true <-> contains = true \/ first_viewpoint_inside goals b).
Proof.
  revert contains. induction goals as [|g goals IH]; intros contains Hvp.
  - exists contains. split; [reflexivity|]. split; [tauto|].
    intros [H|(g & p & ps & [] & _)]. exact H.
  - simpl. destruct (Hvp g) as (p & ps & Eg); [left; reflexivity|].
    rewrite Eg.
    destruct (IH (if aabb_contains p b then true else contains))
      as (c & Hc & Hiff).
    { intros g' Hg'. apply Hvp. right. exact Hg'. }
    exists c. split; [exact Hc|]. rewrite Hiff. split.
    + intros [H|(g' & p' & ps' & Hin & Hhd & Hp')].
      * destruct (aabb_contains p b) eqn:Ep; [|tauto].
        right. exists g, p, ps.
        split; [left; reflexivity|]. split; [exact Eg|exact Ep].
      * right. exists g', p', ps'.
        split; [right; exact Hin|]. split; assumption.
    + intros [H|(g' & p' & ps' & [<-|Hin] & Hhd & Hp')].
      * left. rewrite H. destruct (aabb_contains p b); reflexivity.
      * rewrite Eg in Hhd. injection Hhd as <- <-. left. rewrite Hp'.
        reflexivity.
      * right. exists g', p', ps'. split; [exact Hin|]. split; assumption.
Qed.

Lemma scan_regions_returns regions goals acc :
  (forall g, In g goals -> has_viewpoint g) ->
  exists dicts,
    RoomVisitationMap.scan_regions regions goals acc = Returns dicts
    /\ forall name b,
         In b (dict_get (snd dicts) name) <->
         In b (dict_get (snd acc) name)
         \/ exists r, In r regions /\ category_name r = name
                      /\ region_aabb r = b
                      /\ first_viewpoint_inside goals b.
Proof.
  intros Hvp. revert acc.
  induction regions as [|r regions IH]; intros acc.
  - exists acc. split; [reflexivity|]. intros name b. split; [tauto|].
    intros [H|(r & [] & _)]. exact H.
  - simpl.
    destruct (contains_goal_returns goals (region_aabb r) false Hvp)
      as (c & Hc & Hiff).
    rewrite Hc. simpl.
    match goal with
    | |- context [RoomVisitationMap.scan_regions regions goals ?a] =>
        destruct (IH a) as (dicts & Hd & Hdicts)
    end.
    exists dicts. split; [exact Hd|]. intros name b.
    rewrite Hdicts. simpl snd. split.
    + intros [H|(r' & Hin & Hn & Hb & Hg)].
      * destruct c.
        -- rewrite dict_get_append in H.
           destruct (String.eqb_spec (category_name r) name) as [En|_];
             [|left; exact H].
           apply in_app_or in H. destruct H as [H|[<-|[]]];
             [left; exact H|].
           right. exists r. split; [left; reflexivity|].
           split; [exact En|]. split; [reflexivity|].
           destruct Hiff as [Hiff _].
           destruct (Hiff eq_refl) as [?|?]; [discriminate|assumption].
        -- left. exact H.
      * right. exists r'. split; [right; exact Hin|].
        split; [exact Hn|]. split; assumption.
    + intros [H|(r' & [<-|Hin] & Hn & Hb & Hg)].
      * left. destruct c; [|exact H]. rewrite dict_get_append.
        destruct (String.eqb (category_name r) name); [|exact H].
        apply in_or_app. left. exact H.
      * left. subst b. assert (c = true) as -> by (apply Hiff; right; exact Hg).
        rewrite dict_get_append, Hn, String.eqb_refl.
        apply in_or_app. right. left. reflexivity.
      * right. exists r'. split; [exact Hin|].
        split; [exact Hn|]. split; assumption.
Qed.

End GoalRegions.

(** C6, as stated, fails: the kitchen contains the second viewpoint of the
    goal, and the reset leaves [goal_rooms] empty. *)
Lemma second_viewpoint_not_marked :
  some_viewpoint_inside [two_viewpoints] (region_aabb kitchen)
  /\ RoomVisitationMap.reset_metric RoomVisitationMap.init origin
       [kitchen] [two_viewpoints]
     = Returns
         (RoomVisitationMap.State [] [("kitchen", [unit_box])] ∅ ∅ None)
  /\ ~ goal_region (RoomVisitationMap.State [] [("kitchen", [unit_box])]
                      ∅ ∅ None)
         "kitchen" (region_aabb kitchen).
Proof.
  split; [|split].
  - exists two_viewpoints, [far_away; origin], origin.
    split; [left; reflexivity|]. split; [reflexivity|].
    split; [right; left; reflexivity|reflexivity].
  - reflexivity.
  - intros [].
Qed.

(** C6, amended: when every episode goal has at least one viewpoint, the
    reset returns, and it marks a region as a goal region iff the region
    contains the first viewpoint position of some episode goal (the other
    viewpoints are not looked at). *)
Theorem goal_regions_by_first_viewpoint
  (st : RoomVisitationMap.state) (agent_position : vec3)
  (regions : list region) (goals : list goal) :
  (forall g, In g goals -> has_viewpoint g) ->
  exists st',
    RoomVisitationMap.reset_metric st agent_position regions goals
    = Returns st'
    /\ forall name b,
         goal_region st' name b <->
         exists r, In r regions /\ category_name r = name
                   /\ region_aabb r = b
                   /\ first_viewpoint_inside goals b.
Proof.
  intros Hvp. unfold RoomVisitationMap.reset_metric. cbv zeta.
  destruct (scan_regions_returns regions goals ([], []) Hvp)
    as (dicts & Hd & Hdicts).
  rewrite Hd. simpl. eexists. split; [reflexivity|].
  intros name b. unfold goal_region. simpl. rewrite Hdicts. simpl.
  tauto.
Qed.

Lemma goal_regions_by_first_viewpoint_witness :
  exists st',
    RoomVisitationMap.reset_metric RoomVisitationMap.init origin
      [kitchen] [two_viewpoints; one_viewpoint]
    = Returns st'
    /\ forall name b,
         goal_region st' name b <->
         exists r, In r [kitchen] /\ category_name r = name
                   /\ region_aabb r = b
                   /\ first_viewpoint_inside [two_viewpoints; one_viewpoint] b.
Proof.
  apply (goal_regions_by_first_viewpoint RoomVisitationMap.init origin
           [kitchen] [two_viewpoints; one_viewpoint]).
  intros g [<-|[<-|[]]]; do 2 eexists; reflexivity.
Defined.

(** ** RewardShaper: what a reset leaves behind *)

(** C3 fails on the code: [reset_metric] does not assign
    [_previous_exploration_ratio], which [reward_exploration] initializes
    only while the attribute is missing.  After an episode that ended with
    everything seen, the reset of the next episode on a dark map stores the
    reward (0 - 1) * coefficient, where the same reset of a new object
    stores 0. *)
Theorem reset_keeps_exploration_baseline :
  exists st1 st2 fresh,
    ObjectNavReward.episode exploration_config ObjectNavReward.init
      dark [lit] = Returns st1
    /\ ObjectNavReward._previous_exploration_ratio st1 = Some (Fin (2 # 2))
    /\ ObjectNavReward.reset_metric exploration_config st1 dark
       = Returns st2
    /\ ObjectNavReward.reset_metric exploration_config ObjectNavReward.init
         dark = Returns fresh
    /\ ObjectNavReward._metric fresh ≈ Fin 0
    /\ ObjectNavReward._metric st2 ≈ Fin (-1).
Proof.
  do 3 eexists.
  split; [vm_compute; reflexivity|].
  split; [vm_compute; reflexivity|].
  split; [vm_compute; reflexivity|].
  split; [vm_compute; reflexivity|].
  split; vm_compute; reflexivity.
Qed.

(** The room history of [ExplorationMetrics] survives a reset as well. *)
Lemma reset_keeps_room_stack st levels agent_position :
  ExplorationMetrics.previous_room_stack
    (ExplorationMetrics.reset_metric st levels agent_position)
  = ExplorationMetrics.previous_room_stack st.
Proof.
  unfold ExplorationMetrics.reset_metric.
  destruct (fold_left _ levels _) as [[rooms current_room] i]. reflexivity.
Qed.

(** ** RewardShaper: the hybrid mode *)

Section Hybrid.
Variable cfg : ObjectNavReward.config.

Lemma reward_exploration_fst st m :
  fst (ObjectNavReward.reward_exploration cfg st m)
  ≈ mul (sub (exploration_ratio m)
             (default (exploration_ratio m)
                (ObjectNavReward._previous_exploration_ratio st)))
        (Fin (ObjectNavReward.EXP_REWARD_COEF cfg)).
Proof.
  unfold ObjectNavReward.reward_exploration, exploration_ratio. cbn [fst].
  destruct (ObjectNavReward._previous_exploration_ratio st); apply add_0_l.
Qed.

(** Not seen before, not visible now: the step is an exploration step. *)
Lemma hybrid_step_unseen st m :
  ObjectNavReward._goal_was_seen st = false ->
  (ObjectNavReward.goal_vis m <= ObjectNavReward.GOAL_SEEN_THRESHOLD cfg)%Q ->
  ObjectNavReward.reward_expl_dt_when_visible cfg st m
  = (add (Fin 0) (fst (ObjectNavReward.reward_exploration cfg st m)),
     snd (ObjectNavReward.reward_exploration cfg st m)).
Proof.
  intros Hseen Hvis. unfold ObjectNavReward.reward_expl_dt_when_visible.
  cbv zeta. apply Qltb_false in Hvis. rewrite Hvis. cbn [andb].
  rewrite Hseen. reflexivity.
Qed.

(** Not seen before, visible now: the bonus, and the distance term on the
    baseline just reset. *)
Lemma hybrid_step_crossing st m :
  ObjectNavReward._goal_was_seen st = false ->
  (ObjectNavReward.GOAL_SEEN_THRESHOLD cfg < ObjectNavReward.goal_vis m)%Q ->
  ObjectNavReward.reward_expl_dt_when_visible cfg st m
  = (add (add (Fin 0) (Fin (ObjectNavReward.GOAL_SEEN_REWARD cfg)))
         (add (Fin 0) (sub (Fin (ObjectNavReward.distance_to_goal m))
                           (Fin (ObjectNavReward.distance_to_goal m)))),
     ObjectNavReward.State
       (ObjectNavReward._metric st) (ObjectNavReward.step_count st) true
       (Fin (ObjectNavReward.distance_to_goal m))
       (ObjectNavReward._previous_exploration_ratio st)).
Proof.
  intros Hseen Hvis. unfold ObjectNavReward.reward_expl_dt_when_visible.
  cbv zeta. apply Qltb_lt in Hvis. rewrite Hvis, Hseen. reflexivity.
Qed.

(** Seen before: the step is a distance step, whatever is visible. *)
Lemma hybrid_step_seen st m :
  ObjectNavReward._goal_was_seen st = true ->
  ObjectNavReward.reward_expl_dt_when_visible cfg st m
  = (add (Fin 0)
         (add (Fin 0) (sub (ObjectNavReward._previous_distance_to_target st)
                           (Fin (ObjectNavReward.distance_to_goal m)))),
     ObjectNavReward.State
       (ObjectNavReward._metric st) (ObjectNavReward.step_count st) true
       (Fin (ObjectNavReward.distance_to_goal m))
       (ObjectNavReward._previous_exploration_ratio st)).
Proof.
  intros Hseen. unfold ObjectNavReward.reward_expl_dt_when_visible.
  cbv zeta. rewrite Hseen, andb_false_r. rewrite Hseen.
  unfold ObjectNavReward.reward_distance_to_goal. cbv zeta.
  rewrite Hseen. reflexivity.
Qed.

Lemma hybrid_run_seen steps st (d : Q) :
  ObjectNavReward._goal_was_seen st = true ->
  ObjectNavReward._previous_distance_to_target st = Fin d ->
  Forall2 NpFloat.equiv (fst (hybrid_run cfg st steps))
          (distance_deltas d steps)
  /\ ObjectNavReward._goal_was_seen (snd (hybrid_run cfg st steps)) = true.
Proof.
  revert st d. induction steps as [|m steps IH]; intros st d Hseen Hprev.
  - split; [constructor|exact Hseen].
  - cbn [hybrid_run distance_deltas].
    rewrite (hybrid_step_seen st m Hseen), Hprev.
    match goal with
    | |- context [hybrid_run cfg ?s steps] =>
        destruct (IH s (ObjectNavReward.distance_to_goal m)
                    eq_refl eq_refl) as [IH1 IH2];
        destruct (hybrid_run cfg s steps) as [rs st'']
    end.
    split; [|exact IH2]. constructor; [|exact IH1].
    simpl. ring.
Qed.

Lemma hybrid_run_app steps1 steps2 st :
  hybrid_run cfg st (steps1 ++ steps2)
  = let '(rs1, st1) := hybrid_run cfg st steps1 in
    let '(rs2, st2) := hybrid_run cfg st1 steps2 in
    ((rs1 ++ rs2)%list, st2).
Proof.
  revert st. induction steps1 as [|m steps1 IH]; intros st.
  - simpl. destruct (hybrid_run cfg st steps2). reflexivity.
  - cbn [hybrid_run app].
    destruct (ObjectNavReward.reward_expl_dt_when_visible cfg st m)
      as [r st'].
    rewrite IH. destruct (hybrid_run cfg st' steps1) as [rs1 st1].
    destruct (hybrid_run cfg st1 steps2) as [rs2 st2]. reflexivity.
Qed.

Lemma hybrid_run_unseen steps st :
  ObjectNavReward._goal_was_seen st = false ->
  Forall (fun m => (ObjectNavReward.goal_vis m
                    <= ObjectNavReward.GOAL_SEEN_THRESHOLD cfg)%Q) steps ->
  Forall2 NpFloat.equiv (fst (hybrid_run cfg st steps))
    (exploration_deltas (ObjectNavReward.EXP_REWARD_COEF cfg)
       (ObjectNavReward._previous_exploration_ratio st) steps)
  /\ ObjectNavReward._goal_was_seen (snd (hybrid_run cfg st steps)) = false
  /\ ObjectNavReward._previous_distance_to_target
       (snd (hybrid_run cfg st steps))
     = ObjectNavReward._previous_distance_to_target st.
Proof.
  revert st. induction steps as [|m steps IH]; intros st Hseen Hvis.
  - split; [constructor|]. split; [exact Hseen|reflexivity].
  - inversion Hvis as [|? ? Hm Hrest]; subst.
    cbn [hybrid_run exploration_deltas].
    rewrite (hybrid_step_unseen st m Hseen Hm).
    pose proof (reward_exploration_fst st m) as Hr.
    match goal with
    | |- context [hybrid_run cfg ?s steps] =>
        destruct (IH s) as (IH1 & IH2 & IH3);
        [exact Hseen|exact Hrest|];
        destruct (hybrid_run cfg s steps) as [rs st'']
    end.
    cbn [fst snd] in *. split; [|split; [exact IH2|exact IH3]].
    constructor; [|exact IH1].
    eapply equiv_trans; [apply add_0_l|exact Hr].
Qed.

End Hybrid.

(** In hybrid mode [update_metric] wraps the hybrid policy: it stores the
    slack penalty plus the shaping reward plus the success bonus, and the
    flag and the baselines are those the policy leaves. *)
Lemma update_metric_hybrid cfg st m :
  ObjectNavReward.MODE cfg
  = "DISTANCE_TO_GOAL_WHEN_VISIBLE_OTHERWISE_EXPLORE" ->
  let '(r, st') := ObjectNavReward.reward_expl_dt_when_visible cfg st m in
  let slack :=
    if Z.ltb 20 (ObjectNavReward.step_count st + 1)
    then Fin (ObjectNavReward.SLACK_REWARD cfg) else Fin 0 in
  ObjectNavReward.update_metric cfg st m
  = Returns
      (ObjectNavReward.State
         (if ObjectNavReward.success m
          then add (add slack r) (Fin (ObjectNavReward.SUCCESS_REWARD cfg))
          else add slack r)
         (ObjectNavReward.step_count st + 1)
         (ObjectNavReward._goal_was_seen st')
         (ObjectNavReward._previous_distance_to_target st')
         (ObjectNavReward._previous_exploration_ratio st')).
Proof.
  intros Hmode. unfold ObjectNavReward.update_metric, ObjectNavReward.shaping.
  rewrite Hmode. cbn [String.eqb Ascii.eqb Bool.eqb andb].
  unfold ObjectNavReward.reward_expl_dt_when_visible,
    ObjectNavReward.reward_distance_to_goal,
    ObjectNavReward.reward_exploration.
  cbn -[Z.add Z.ltb add sub mul Qltb true_divide].
  destruct (Qltb _ _ && negb _);
    cbn -[Z.add Z.ltb add sub mul Qltb true_divide]; [reflexivity|].
  destruct (ObjectNavReward._goal_was_seen st); reflexivity.
Qed.

(** The hybrid policy reads the flag and the baselines only. *)
Lemma hybrid_step_same cfg s1 s2 m :
  same_shaping_state s1 s2 ->
  fst (ObjectNavReward.reward_expl_dt_when_visible cfg s1 m)
  = fst (ObjectNavReward.reward_expl_dt_when_visible cfg s2 m)
  /\ same_shaping_state
       (snd (ObjectNavReward.reward_expl_dt_when_visible cfg s1 m))
       (snd (ObjectNavReward.reward_expl_dt_when_visible cfg s2 m)).
Proof.
  intros (Hseen & Hd & He).
  unfold ObjectNavReward.reward_expl_dt_when_visible,
    ObjectNavReward.reward_distance_to_goal,
    ObjectNavReward.reward_exploration, same_shaping_state.
  cbv zeta. rewrite Hseen.
  destruct (Qltb _ _ && negb _); cbv beta iota zeta;
    cbn [ObjectNavReward._goal_was_seen
           ObjectNavReward._previous_distance_to_target
           ObjectNavReward._previous_exploration_ratio].
  - cbn [fst snd ObjectNavReward._goal_was_seen
           ObjectNavReward._previous_distance_to_target
           ObjectNavReward._previous_exploration_ratio].
    rewrite He. repeat split.
  - rewrite Hseen. destruct (ObjectNavReward._goal_was_seen s2);
      cbn [fst snd ObjectNavReward._goal_was_seen
             ObjectNavReward._previous_distance_to_target
             ObjectNavReward._previous_exploration_ratio];
      rewrite ?Hd, ?He; repeat split; assumption.
Qed.

(** The updates of an episode in hybrid mode always return, and thread the
    flag and the baselines exactly as the hybrid policy run on its own. *)
Lemma updates_follow_hybrid_run cfg steps st s :
  ObjectNavReward.MODE cfg
  = "DISTANCE_TO_GOAL_WHEN_VISIBLE_OTHERWISE_EXPLORE" ->
  same_shaping_state s st ->
  exists st',
    ObjectNavReward.updates cfg st steps = Returns st'
    /\ same_shaping_state (snd (hybrid_run cfg s steps)) st'.
Proof.
  intros Hmode. revert st s.
  induction steps as [|m steps IH]; intros st s Hsame.
  - exists st. split; [reflexivity|exact Hsame].
  - cbn [ObjectNavReward.updates hybrid_run].
    pose proof (update_metric_hybrid cfg st m Hmode) as Hup.
    destruct (hybrid_step_same cfg s st m Hsame) as [_ Hnext].
    destruct (ObjectNavReward.reward_expl_dt_when_visible cfg s m)
      as [r1 s1].
    destruct (ObjectNavReward.reward_expl_dt_when_visible cfg st m)
      as [r2 st2].
    cbv zeta in Hup. rewrite Hup. cbn [bind].
    match goal with
    | |- context [ObjectNavReward.updates cfg ?u steps] =>
        destruct (IH u s1) as (st' & Hrun & Hst')
    end.
    { exact Hnext. }
    exists st'. split; [exact Hrun|].
    destruct (hybrid_run cfg s1 steps) as [rs s']. exact Hst'.
Qed.

(** C8: the hybrid policy over an episode whose steps [pre] all have the
    goal visibility at or below the threshold, followed by a step [x] whose
    visibility exceeds it, followed by any steps [post].  The rewards of
    [pre] are the exploration delta terms; the reward of [x] is the
    goal-seen bonus (the distance term on the baseline reset to the current
    distance is 0) and [x] leaves the flag set and the baseline at its
    distance; the rewards of [post] are previous distance minus current
    distance, and the flag stays set. *)
Theorem hybrid_mode_phases
  (cfg : ObjectNavReward.config) (st : ObjectNavReward.state)
  (pre : list ObjectNavReward.measures) (x : ObjectNavReward.measures)
  (post : list ObjectNavReward.measures) :
  ObjectNavReward._goal_was_seen st = false ->
  Forall (fun m => (ObjectNavReward.goal_vis m
                    <= ObjectNavReward.GOAL_SEEN_THRESHOLD cfg)%Q) pre ->
  (ObjectNavReward.GOAL_SEEN_THRESHOLD cfg < ObjectNavReward.goal_vis x)%Q ->
  Forall2 NpFloat.equiv
    (fst (hybrid_run cfg st (pre ++ x :: post)))
    (exploration_deltas (ObjectNavReward.EXP_REWARD_COEF cfg)
       (ObjectNavReward._previous_exploration_ratio st) pre
     ++ Fin (ObjectNavReward.GOAL_SEEN_REWARD cfg)
        :: distance_deltas (ObjectNavReward.distance_to_goal x) post)
  /\ ObjectNavReward._goal_was_seen (snd (hybrid_run cfg st pre)) = false
  /\ ObjectNavReward._goal_was_seen
       (snd (hybrid_run cfg st (pre ++ [x]))) = true
  /\ ObjectNavReward._previous_distance_to_target
       (snd (hybrid_run cfg st (pre ++ [x])))
     = Fin (ObjectNavReward.distance_to_goal x)
  /\ ObjectNavReward._goal_was_seen
       (snd (hybrid_run cfg st (pre ++ x :: post))) = true.
Proof.
  intros Hseen Hpre Hx.
  destruct (hybrid_run_unseen cfg pre st Hseen Hpre) as (Hrs & Hflag & _).
  rewrite !hybrid_run_app.
  destruct (hybrid_run cfg st pre) as [rs1 st1]. cbn [fst snd] in Hrs, Hflag.
  cbn [hybrid_run]. rewrite (hybrid_step_crossing cfg st1 x Hflag Hx).
  match goal with
  | |- context [hybrid_run cfg ?s post] =>
      destruct (hybrid_run_seen cfg post s
                  (ObjectNavReward.distance_to_goal x) eq_refl eq_refl)
        as [Hpost Hsticky];
      destruct (hybrid_run cfg s post) as [rs2 st2]
  end.
  cbn [fst snd] in *.
  split; [|repeat split; assumption].
  apply Forall2_app; [exact Hrs|]. constructor; [|exact Hpost].
  simpl. ring.
Qed.

Lemma hybrid_mode_phases_witness :
  Forall2 NpFloat.equiv
    (fst (hybrid_run hybrid_config ObjectNavReward.init
            ([glimpse 5 (5 # 100)] ++ glimpse 4 (15 # 100)
                                   :: [glimpse 3 (2 # 10)])))
    (exploration_deltas 1 None [glimpse 5 (5 # 100)]
     ++ Fin 1 :: distance_deltas 4 [glimpse 3 (2 # 10)])
  /\ ObjectNavReward._goal_was_seen
       (snd (hybrid_run hybrid_config ObjectNavReward.init
               ([glimpse 5 (5 # 100)] ++ glimpse 4 (15 # 100)
                                      :: [glimpse 3 (2 # 10)]))) = true.
Proof.
  destruct (hybrid_mode_phases hybrid_config ObjectNavReward.init
              [glimpse 5 (5 # 100)] (glimpse 4 (15 # 100))
              [glimpse 3 (2 # 10)]) as (H & _ & _ & _ & Hflag).
  - reflexivity.
  - constructor; [|constructor]. vm_compute. discriminate.
  - vm_compute. reflexivity.
  - split; [exact H|exact Hflag].
Defined.

(** The example of the specification, evaluated: no reward while the goal
    is not visible (the map does not change), the bonus 1 on the crossing
    step, then the distance gained, 4 - 3. *)
Example hybrid_example_rewards :
  Forall2 NpFloat.equiv
    (fst (hybrid_run hybrid_config ObjectNavReward.init
            [glimpse 5 (5 # 100); glimpse 4 (15 # 100); glimpse 3 (2 # 10)]))
    [Fin 0; Fin 1; Fin 1].
Proof. repeat constructor; vm_compute; reflexivity. Qed.

(** ** PanoramicTurnDetector: the turn counters of [ExplorationMetrics] *)

Section Turns.

Lemma update_turn_fields st x :
  let st' := ExplorationMetrics.update st x in
  (ExplorationMetrics.total_left_turns st',
   ExplorationMetrics.total_right_turns st')
  = turn_step (action_name x)
      (ExplorationMetrics.total_left_turns st,
       ExplorationMetrics.total_right_turns st)
  /\ ExplorationMetrics.panoramic_turns st'
     = (if ExplorationMetrics.sweep_turns
             (ExplorationMetrics.total_left_turns st')
             (ExplorationMetrics.total_right_turns st')
           && gtb (ExplorationMetrics.delta_sight_coverage st')
                  (Fin (15 # 1000))
        then ExplorationMetrics.panoramic_turns st + 1
        else ExplorationMetrics.panoramic_turns st)
  /\ ExplorationMetrics.panoramic_turns_strict st'
     = (if ExplorationMetrics.sweep_turns
             (ExplorationMetrics.total_left_turns st')
             (ExplorationMetrics.total_right_turns st')
           && gtb (ExplorationMetrics.delta_sight_coverage st')
                  (Fin (1 # 100))
        then ExplorationMetrics.panoramic_turns_strict st + 1
        else ExplorationMetrics.panoramic_turns_strict st).
Proof.
  destruct x as [[info pos] name].
  unfold ExplorationMetrics.update, ExplorationMetrics.update_metric,
    action_name, turn_step.
  destruct (ExplorationMetrics.locate _ _ _) as [[rvm cur] rooms].
  destruct (ExplorationMetrics.enter_room _ _ _) as [stack steps].
  cbv beta iota zeta. cbn [snd fst].
  destruct (negb (str_in "TURN" name));
    [|destruct (String.eqb name "TURN_LEFT");
      [|destruct (String.eqb name "TURN_RIGHT")]];
    cbv beta iota zeta;
    match goal with
    | |- context [if ?c then (_, _) else _] => destruct c eqn:E
    end;
    cbv beta iota zeta;
    cbn [ExplorationMetrics.total_left_turns
           ExplorationMetrics.total_right_turns
           ExplorationMetrics.panoramic_turns
           ExplorationMetrics.panoramic_turns_strict
           ExplorationMetrics.delta_sight_coverage];
    rewrite ?E; repeat split.
Qed.

End Turns.

Section Sweeps.

Lemma updates_cons st x xs :
  ExplorationMetrics.updates st (x :: xs)
  = ExplorationMetrics.updates (ExplorationMetrics.update st x) xs.
Proof. reflexivity. Qed.

Lemma updates_snoc st xs x :
  ExplorationMetrics.updates st (xs ++ [x])
  = ExplorationMetrics.update (ExplorationMetrics.updates st xs) x.
Proof. unfold ExplorationMetrics.updates. apply fold_left_app. Qed.

Lemma update_turns st x :
  turns_of (ExplorationMetrics.update st x)
  = turn_step (action_name x) (turns_of st).
Proof. apply update_turn_fields. Qed.

Lemma updates_turns xs st :
  turns_of (ExplorationMetrics.updates st xs)
  = turn_counts (map action_name xs) (turns_of st).
Proof.
  revert st. induction xs as [|x xs IH]; intros st; [reflexivity|].
  rewrite updates_cons, IH, update_turns. reflexivity.
Qed.

(** A step after which the turn counts do not make a sweep leaves both
    sweep counters as they were. *)
Lemma update_no_sweep st x :
  sweeping (turn_step (action_name x) (turns_of st)) = false ->
  ExplorationMetrics.panoramic_turns (ExplorationMetrics.update st x)
  = ExplorationMetrics.panoramic_turns st
  /\ ExplorationMetrics.panoramic_turns_strict (ExplorationMetrics.update st x)
     = ExplorationMetrics.panoramic_turns_strict st.
Proof.
  intros Hno. rewrite <- update_turns in Hno. unfold sweeping in Hno.
  cbn [turns_of fst snd] in Hno.
  destruct (update_turn_fields st x) as (_ & Hp & Hs).
  rewrite Hp, Hs, Hno. split; reflexivity.
Qed.

Lemma no_sweep_prefixes xs st :
  (forall i, (1 <= i <= length xs)%nat ->
     sweeping (turn_counts (take i (map action_name xs)) (turns_of st))
     = false) ->
  forall j,
    ExplorationMetrics.panoramic_turns
      (ExplorationMetrics.updates st (take j xs))
    = ExplorationMetrics.panoramic_turns st
    /\ ExplorationMetrics.panoramic_turns_strict
         (ExplorationMetrics.updates st (take j xs))
       = ExplorationMetrics.panoramic_turns_strict st.
Proof.
  revert st. induction xs as [|x xs IH]; intros st Hno j.
  - destruct j; split; reflexivity.
  - destruct j as [|j]; [split; reflexivity|].
    cbn [take]. rewrite updates_cons.
    destruct (update_no_sweep st x) as [Hp Hs].
    { apply (Hno 1%nat). simpl. lia. }
    rewrite <- Hp, <- Hs. apply IH. intros i Hi.
    rewrite update_turns. apply (Hno (S i)). simpl. lia.
Qed.

Lemma reset_turn_counters st levels agent_position :
  let st' := ExplorationMetrics.reset_metric st levels agent_position in
  turns_of st' = (0, 0)
  /\ ExplorationMetrics.panoramic_turns st' = 0
  /\ ExplorationMetrics.panoramic_turns_strict st' = 0.
Proof.
  unfold ExplorationMetrics.reset_metric.
  destruct (fold_left _ levels _) as [[rooms current_room] i].
  repeat split.
Qed.

Lemma turn_step_left lr :
  turn_step "TURN_LEFT" lr = (fst lr + 1, snd lr).
Proof. reflexivity. Qed.

Lemma turn_step_right lr :
  turn_step "TURN_RIGHT" lr = (fst lr, snd lr + 1).
Proof. reflexivity. Qed.

Lemma turn_step_other name lr :
  str_in "TURN" name = false -> turn_step name lr = (0, 0).
Proof. intros H. unfold turn_step. rewrite H. reflexivity. Qed.

(** One step registers a sweep exactly when the counts and the coverage
    delta it leaves pass the test. *)
Lemma update_sweep_iff st x (threshold : Q) p p' :
  p' = (if sweeping (turns_of (ExplorationMetrics.update st x))
           && gtb (ExplorationMetrics.delta_sight_coverage
                     (ExplorationMetrics.update st x)) (Fin threshold)
        then p + 1 else p) ->
  (p' = p + 1 \/ p' = p)
  /\ (p' = p + 1 <->
      3 <= ExplorationMetrics.total_left_turns (ExplorationMetrics.update st x)
      /\ 3 <= ExplorationMetrics.total_right_turns
                (ExplorationMetrics.update st x)
      /\ 8 <= ExplorationMetrics.total_right_turns
                (ExplorationMetrics.update st x)
              + ExplorationMetrics.total_left_turns
                  (ExplorationMetrics.update st x)
      /\ gtb (ExplorationMetrics.delta_sight_coverage
                (ExplorationMetrics.update st x)) (Fin threshold) = true).
Proof.
  intros ->. unfold sweeping, ExplorationMetrics.sweep_turns.
  cbn [turns_of fst snd].
  set (l := ExplorationMetrics.total_left_turns _).
  set (r := ExplorationMetrics.total_right_turns _).
  set (d := gtb _ _).
  destruct (Z.leb_spec 3 l), (Z.leb_spec 3 r), (Z.leb_spec 8 (r + l)),
    d; cbn [andb]; split; try tauto; try (right; reflexivity);
    split; try lia; try tauto; intros; try lia;
    try (repeat split; assumption); intuition (try lia; try discriminate).
Qed.

(** The coverage delta a step leaves: the change of the visible-area ratio
    since the step before on a turn, 0 on any other action. *)
Lemma update_delta st x :
  ExplorationMetrics.prev_sight_coverage (ExplorationMetrics.update st x)
  = sight_of x
  /\ ExplorationMetrics.delta_sight_coverage (ExplorationMetrics.update st x)
     = (if str_in "TURN" (action_name x)
        then sub (sight_of x) (ExplorationMetrics.prev_sight_coverage st)
        else Fin 0).
Proof.
  destruct x as [[info pos] name].
  unfold ExplorationMetrics.update, ExplorationMetrics.update_metric,
    action_name, sight_of.
  destruct (ExplorationMetrics.locate _ _ _) as [[rvm cur] rooms].
  destruct (ExplorationMetrics.enter_room _ _ _) as [stack steps].
  cbv beta iota zeta. cbn [snd fst].
  destruct (str_in "TURN" name); cbn [negb];
    [destruct (String.eqb name "TURN_LEFT");
      [|destruct (String.eqb name "TURN_RIGHT")]|];
    cbv beta iota zeta;
    match goal with
    | |- context [if ?c then (_, _) else _] => destruct c
    end;
    cbv beta iota zeta;
    cbn [ExplorationMetrics.prev_sight_coverage
           ExplorationMetrics.delta_sight_coverage];
    split; reflexivity.
Qed.

End Sweeps.

(** The eight steps of a synthetic sweep, one by one. *)
Lemma sweep_steps_inv (xs : list ExplorationMetrics.step) :
  map action_name xs = four_left_four_right ->
  exists x1 x2 x3 x4 x5 x6 x7 x8,
    xs = [x1; x2; x3; x4; x5; x6; x7; x8]
    /\ action_name x1 = "TURN_LEFT" /\ action_name x2 = "TURN_LEFT"
    /\ action_name x3 = "TURN_LEFT" /\ action_name x4 = "TURN_LEFT"
    /\ action_name x5 = "TURN_RIGHT" /\ action_name x6 = "TURN_RIGHT"
    /\ action_name x7 = "TURN_RIGHT" /\ action_name x8 = "TURN_RIGHT".
Proof.
  intros H. unfold four_left_four_right in H.
  do 8 (destruct xs as [|? xs]; [discriminate H|]).
  destruct xs; [|discriminate H].
  cbn [map] in H. injection H as H1 H2 H3 H4 H5 H6 H7 H8.
  do 8 eexists. split; [reflexivity|]. repeat split; assumption.
Qed.

Ltac eval_turns :=
  cbn [take firstn map turn_counts fold_left app];
  repeat match goal with
  | H : action_name _ = _ |- _ => rewrite H
  end;
  repeat first
    [ rewrite turn_step_left
    | rewrite turn_step_right
    | rewrite turn_step_other by assumption ];
  cbn [fst snd]; try reflexivity.

Lemma sweep_prefix_counts st x1 x2 x3 x4 x5 x6 x7 :
  turns_of st = (0, 0) ->
  action_name x1 = "TURN_LEFT" -> action_name x2 = "TURN_LEFT" ->
  action_name x3 = "TURN_LEFT" -> action_name x4 = "TURN_LEFT" ->
  action_name x5 = "TURN_RIGHT" -> action_name x6 = "TURN_RIGHT" ->
  action_name x7 = "TURN_RIGHT" ->
  (forall j,
     ExplorationMetrics.panoramic_turns
       (ExplorationMetrics.updates st (take j [x1; x2; x3; x4; x5; x6; x7]))
     = ExplorationMetrics.panoramic_turns st
     /\ ExplorationMetrics.panoramic_turns_strict
          (ExplorationMetrics.updates st
             (take j [x1; x2; x3; x4; x5; x6; x7]))
        = ExplorationMetrics.panoramic_turns_strict st)
  /\ turns_of (ExplorationMetrics.updates st [x1; x2; x3; x4; x5; x6; x7])
     = (4, 3).
Proof.
  intros Hst H1 H2 H3 H4 H5 H6 H7. split.
  - apply no_sweep_prefixes. intros i Hi. rewrite Hst.
    cbn [length] in Hi.
    do 8 (destruct i as [|i]; [try lia; eval_turns|]). lia.
  - rewrite updates_turns, Hst. eval_turns.
Qed.

(** From zero turn counters, 4 left turns and 4 right turns move no sweep
    counter before the last turn, and the last turn moves each counter
    whose threshold the coverage delta of that step exceeds. *)
Lemma sweep_completes st (xs : list ExplorationMetrics.step) :
  turns_of st = (0, 0) ->
  map action_name xs = four_left_four_right ->
  (forall k, (k < 8)%nat ->
     ExplorationMetrics.panoramic_turns
       (ExplorationMetrics.updates st (take k xs))
     = ExplorationMetrics.panoramic_turns st
     /\ ExplorationMetrics.panoramic_turns_strict
          (ExplorationMetrics.updates st (take k xs))
        = ExplorationMetrics.panoramic_turns_strict st)
  /\ (gtb (ExplorationMetrics.delta_sight_coverage
             (ExplorationMetrics.updates st xs)) (Fin (15 # 1000)) = true ->
      ExplorationMetrics.panoramic_turns (ExplorationMetrics.updates st xs)
      = ExplorationMetrics.panoramic_turns st + 1)
  /\ (gtb (ExplorationMetrics.delta_sight_coverage
             (ExplorationMetrics.updates st xs)) (Fin (1 # 100)) = true ->
      ExplorationMetrics.panoramic_turns_strict
        (ExplorationMetrics.updates st xs)
      = ExplorationMetrics.panoramic_turns_strict st + 1).
Proof.
  intros Ht0 Hxs.
  destruct (sweep_steps_inv xs Hxs)
    as (x1 & x2 & x3 & x4 & x5 & x6 & x7 & x8 & -> & H1 & H2 & H3 & H4
        & H5 & H6 & H7 & H8).
  destruct (sweep_prefix_counts st x1 x2 x3 x4 x5 x6 x7
              Ht0 H1 H2 H3 H4 H5 H6 H7) as [Hpre Ht7].
  split.
  - intros k Hk.
    replace (take k [x1; x2; x3; x4; x5; x6; x7; x8])
      with (take k [x1; x2; x3; x4; x5; x6; x7])
      by (do 8 (destruct k as [|k]; [reflexivity|]); lia).
    apply Hpre.
  - change [x1; x2; x3; x4; x5; x6; x7; x8]
      with ([x1; x2; x3; x4; x5; x6; x7] ++ [x8])%list.
    rewrite updates_snoc.
    set (s7 := ExplorationMetrics.updates st _) in *.
    destruct (update_turn_fields s7 x8) as (Ht & Hp & Hs).
    fold (turns_of s7) in Ht. rewrite Ht7, H8, turn_step_right in Ht.
    cbn [fst snd] in Ht.
    injection Ht as Hl Hr. rewrite Hl, Hr in Hp, Hs.
    destruct (Hpre 7%nat) as [Hp7 Hs7]. cbn [take firstn] in Hp7, Hs7.
    fold s7 in Hp7, Hs7.
    split; intros Hd.
    + rewrite Hp, Hd, Hp7. reflexivity.
    + rewrite Hs, Hd, Hs7. reflexivity.
Qed.

(** C7, as stated, fails: a non-turn action inserted before the first turn
    of the sweep (so before its 8th turn) finds the turn counters at zero
    and leaves them there, and the eight turns that follow still register
    the sweep in both counters. *)
Lemma non_turn_before_first_turn_still_sweeps :
  map action_name sweep_steps = four_left_four_right
  /\ str_in "TURN" (action_name (walking origin)) = false
  /\ preceded_sweep = (walking origin :: sweep_steps)%list
  /\ turns_of
       (ExplorationMetrics.updates
          (ExplorationMetrics.reset_metric ExplorationMetrics.init [] origin)
          [walking origin]) = (0, 0)
  /\ ExplorationMetrics.panoramic_turns
       (ExplorationMetrics.updates
          (ExplorationMetrics.reset_metric ExplorationMetrics.init [] origin)
          preceded_sweep) = 1
  /\ ExplorationMetrics.panoramic_turns_strict
       (ExplorationMetrics.updates
          (ExplorationMetrics.reset_metric ExplorationMetrics.init [] origin)
          preceded_sweep) = 1.
Proof. repeat split; vm_compute; reflexivity. Qed.

(** C7, amended.  (a) From a reset, along 4 left turns followed by 4 right
    turns, neither sweep counter moves before the last turn, and the last
    turn brings the counter to 1 when the coverage delta of that step
    exceeds its threshold (0.015 for [panoramic_turns], 0.01 for
    [panoramic_turns_strict]).  (b) A step increments a sweep counter, by
    one, exactly when after it the left-turn count is at least 3, the
    right-turn count at least 3, their sum at least 8, and the coverage delta
    of the step exceeds the threshold of the counter.  (c) A non-turn action
    inserted into the sweep, after its first turn and before its 8th, resets
    both turn counters to zero, and no step of the interrupted sweep
    increments a sweep counter.  (d) A non-turn action inserted before the
    first turn leaves the turn counters at zero and prevents nothing: the
    8th turn registers the sweep as in (a).  (e) The coverage delta of a
    step is the visible-area ratio of its map minus that of the step before
    (0 at the reset) on an action whose name contains TURN, and 0 on any
    other action. *)
Theorem panoramic_sweep_detection :
  (forall st0 levels agent_position (xs : list ExplorationMetrics.step),
     map action_name xs = four_left_four_right ->
     let st := ExplorationMetrics.reset_metric st0 levels agent_position in
     (forall k, (k < 8)%nat ->
        ExplorationMetrics.panoramic_turns
          (ExplorationMetrics.updates st (take k xs)) = 0
        /\ ExplorationMetrics.panoramic_turns_strict
             (ExplorationMetrics.updates st (take k xs)) = 0)
     /\ (gtb (ExplorationMetrics.delta_sight_coverage
                (ExplorationMetrics.updates st xs)) (Fin (15 # 1000)) = true ->
         ExplorationMetrics.panoramic_turns
           (ExplorationMetrics.updates st xs) = 1)
     /\ (gtb (ExplorationMetrics.delta_sight_coverage
                (ExplorationMetrics.updates st xs)) (Fin (1 # 100)) = true ->
         ExplorationMetrics.panoramic_turns_strict
           (ExplorationMetrics.updates st xs) = 1))
  /\ (forall st x,
        let st' := ExplorationMetrics.update st x in
        let swept (threshold : Q) :=
          3 <= ExplorationMetrics.total_left_turns st'
          /\ 3 <= ExplorationMetrics.total_right_turns st'
          /\ 8 <= ExplorationMetrics.total_right_turns st'
                  + ExplorationMetrics.total_left_turns st'
          /\ gtb (ExplorationMetrics.delta_sight_coverage st')
                 (Fin threshold) = true in
        (ExplorationMetrics.panoramic_turns st'
         = ExplorationMetrics.panoramic_turns st + 1
         \/ ExplorationMetrics.panoramic_turns st'
            = ExplorationMetrics.panoramic_turns st)
        /\ (ExplorationMetrics.panoramic_turns st'
            = ExplorationMetrics.panoramic_turns st + 1
            <-> swept (15 # 1000))
        /\ (ExplorationMetrics.panoramic_turns_strict st'
            = ExplorationMetrics.panoramic_turns_strict st + 1
            \/ ExplorationMetrics.panoramic_turns_strict st'
               = ExplorationMetrics.panoramic_turns_strict st)
        /\ (ExplorationMetrics.panoramic_turns_strict st'
            = ExplorationMetrics.panoramic_turns_strict st + 1
            <-> swept (1 # 100)))
  /\ (forall st0 levels agent_position (xs : list ExplorationMetrics.step)
        (k : nat) (y : ExplorationMetrics.step),
        map action_name xs = four_left_four_right ->
        (1 <= k <= 7)%nat ->
        str_in "TURN" (action_name y) = false ->
        let st := ExplorationMetrics.reset_metric st0 levels agent_position in
        turns_of (ExplorationMetrics.updates st (take k xs ++ [y])) = (0, 0)
        /\ forall j,
             ExplorationMetrics.panoramic_turns
               (ExplorationMetrics.updates st
                  (take j (take k xs ++ y :: drop k xs))) = 0
             /\ ExplorationMetrics.panoramic_turns_strict
                  (ExplorationMetrics.updates st
                     (take j (take k xs ++ y :: drop k xs))) = 0)
  /\ (forall st0 levels agent_position (xs : list ExplorationMetrics.step)
        (y : ExplorationMetrics.step),
        map action_name xs = four_left_four_right ->
        str_in "TURN" (action_name y) = false ->
        let st := ExplorationMetrics.reset_metric st0 levels agent_position in
        let st' :=
          ExplorationMetrics.updates st (take 0 xs ++ y :: drop 0 xs) in
        turns_of (ExplorationMetrics.updates st (take 0 xs ++ [y])) = (0, 0)
        /\ (gtb (ExplorationMetrics.delta_sight_coverage st')
                (Fin (15 # 1000)) = true ->
            ExplorationMetrics.panoramic_turns st' = 1)
        /\ (gtb (ExplorationMetrics.delta_sight_coverage st')
                (Fin (1 # 100)) = true ->
            ExplorationMetrics.panoramic_turns_strict st' = 1))
  /\ (forall st0 levels agent_position,
        ExplorationMetrics.prev_sight_coverage
          (ExplorationMetrics.reset_metric st0 levels agent_position)
        = Fin 0)
  /\ (forall st x,
        let st' := ExplorationMetrics.update st x in
        ExplorationMetrics.prev_sight_coverage st' = sight_of x
        /\ ExplorationMetrics.delta_sight_coverage st'
           = (if str_in "TURN" (action_name x)
              then sub (sight_of x)
                       (ExplorationMetrics.prev_sight_coverage st)
              else Fin 0)).
Proof.
  split; [|split; [|split; [|split; [|split]]]].
  - intros st0 levels pos xs Hxs st.
    destruct (reset_turn_counters st0 levels pos) as (Ht0 & Hp0 & Hs0).
    fold st in Ht0, Hp0, Hs0.
    destruct (sweep_completes st xs Ht0 Hxs) as (Hpre & Hp & Hs).
    split; [|split].
    + intros k Hk. destruct (Hpre k Hk) as [Hpk Hsk].
      rewrite Hpk, Hsk. split; assumption.
    + intros Hd. rewrite (Hp Hd), Hp0. reflexivity.
    + intros Hd. rewrite (Hs Hd), Hs0. reflexivity.
  - intros st x st' swept. subst swept. cbv beta.
    destruct (update_turn_fields st x) as (_ & Hp & Hs). fold st' in Hp, Hs.
    destruct (update_sweep_iff st x (15 # 1000) _ _ Hp) as [Hp1 Hp2].
    destruct (update_sweep_iff st x (1 # 100) _ _ Hs) as [Hs1 Hs2].
    split; [exact Hp1|]. split; [exact Hp2|]. split; [exact Hs1|exact Hs2].
  - intros st0 levels pos xs k y Hxs Hk Hy st.
    destruct (reset_turn_counters st0 levels pos) as (Ht0 & Hp0 & Hs0).
    fold st in Ht0, Hp0, Hs0.
    destruct (sweep_steps_inv xs Hxs)
      as (x1 & x2 & x3 & x4 & x5 & x6 & x7 & x8 & -> & H1 & H2 & H3 & H4
          & H5 & H6 & H7 & H8).
    destruct k as [|[|[|[|[|[|[|[|k]]]]]]]]; try lia;
      cbn [take drop firstn skipn app];
      (split;
       [ rewrite updates_turns, Ht0; eval_turns
       | intros j;
         match goal with
         | |- context [take j ?ys] =>
             destruct (no_sweep_prefixes ys st) with (j := j) as [Hpj Hsj];
             [|rewrite Hpj, Hsj; split; assumption]
         end;
         intros i Hi; rewrite Ht0; cbn [length] in Hi;
         do 10 (destruct i as [|i]; [try lia; eval_turns|]); lia ]).
  - intros st0 levels pos xs y Hxs Hy st.
    destruct (reset_turn_counters st0 levels pos) as (Ht0 & Hp0 & Hs0).
    fold st in Ht0, Hp0, Hs0.
    cbv zeta. change (take 0 xs) with (@nil ExplorationMetrics.step).
    change (drop 0 xs) with xs. cbn [app]. rewrite (updates_cons st y xs).
    assert (Hty : turns_of (ExplorationMetrics.update st y) = (0, 0)).
    { rewrite update_turns. apply turn_step_other, Hy. }
    destruct (update_no_sweep st y) as [Hpy Hsy].
    { rewrite turn_step_other by exact Hy. reflexivity. }
    destruct (sweep_completes (ExplorationMetrics.update st y) xs Hty Hxs)
      as (_ & Hp & Hs).
    split; [exact Hty|]. split; intros Hd.
    + rewrite (Hp Hd), Hpy, Hp0. reflexivity.
    + rewrite (Hs Hd), Hsy, Hs0. reflexivity.
  - intros st0 levels pos. unfold ExplorationMetrics.reset_metric.
    destruct (fold_left _ levels _) as [[rooms current_room] i].
    reflexivity.
  - intros st x. apply update_delta.
Qed.

Lemma panoramic_sweep_detection_witness :
  ExplorationMetrics.panoramic_turns
    (ExplorationMetrics.updates
       (ExplorationMetrics.reset_metric ExplorationMetrics.init [] origin)
       sweep_steps) = 1
  /\ ExplorationMetrics.panoramic_turns
       (ExplorationMetrics.updates
          (ExplorationMetrics.reset_metric ExplorationMetrics.init [] origin)
          interrupted_sweep) = 0
  /\ ExplorationMetrics.panoramic_turns_strict
       (ExplorationMetrics.updates
          (ExplorationMetrics.reset_metric ExplorationMetrics.init [] origin)
          (take 0 sweep_steps ++ walking origin :: drop 0 sweep_steps))
     = 1.
Proof.
  destruct panoramic_sweep_detection as (Ha & _ & Hc & Hd & _).
  split; [|split].
  - destruct (Ha ExplorationMetrics.init [] origin sweep_steps eq_refl)
      as (_ & Hp & _).
    apply Hp. vm_compute. reflexivity.
  - destruct (Hc ExplorationMetrics.init [] origin sweep_steps 3%nat
                (walking origin) eq_refl) as [_ Hj].
    + lia.
    + reflexivity.
    + apply (Hj 9%nat).
  - destruct (Hd ExplorationMetrics.init [] origin sweep_steps
                (walking origin) eq_refl eq_refl) as (_ & _ & Hs).
    apply Hs. vm_compute. reflexivity.
Defined.

(** ** Room peeking: the revisitation counters of [ExplorationMetrics] *)

Section Peeking.

Lemma count_count_revisit m room r :
  count (ExplorationMetrics.count_revisit m room) r
  = if String.eqb room r then revisited (count m room) else count m r.
Proof.
  unfold ExplorationMetrics.count_revisit, revisited.
  destruct (Z.eqb_spec (count m room) 0) as [E|E].
  - rewrite !count_incr, String.eqb_refl.
    destruct (String.eqb room r); [lia|reflexivity].
  - rewrite count_incr. reflexivity.
Qed.

Lemma count_revisit_step guard current_room m r :
  count (ExplorationMetrics.revisit guard current_room m) r
  = if room_eqb (if guard then current_room else None) (Some r)
    then revisited (count m r) else count m r.
Proof.
  unfold ExplorationMetrics.revisit.
  destruct current_room as [room|]; [|destruct guard; reflexivity].
  destruct guard; [|reflexivity].
  rewrite count_count_revisit. cbn [room_eqb].
  destruct (String.eqb_spec room r) as [->|_]; reflexivity.
Qed.

(** One step on the lenient counter of a room: a detected peek into the
    room takes it from 0 to 2 or up by one; any other step leaves it. *)
Lemma update_revisitation st x r :
  count (ExplorationMetrics.room_revisitation_map
           (ExplorationMetrics.update st x)) r
  = if room_eqb (peeked st x) (Some r)
    then revisited (count (ExplorationMetrics.room_revisitation_map st) r)
    else count (ExplorationMetrics.room_revisitation_map st) r.
Proof.
  destruct x as [[info pos] name].
  unfold ExplorationMetrics.update, ExplorationMetrics.update_metric, peeked.
  destruct (ExplorationMetrics.locate _ _ _) as [[rvm cur] rooms].
  destruct (ExplorationMetrics.enter_room _ _ _) as [stack steps].
  cbv beta iota zeta.
  destruct (negb (str_in "TURN" name));
    [|destruct (String.eqb name "TURN_LEFT");
      [|destruct (String.eqb name "TURN_RIGHT")]];
    cbv beta iota zeta;
    match goal with
    | |- context [if ?c then (_, _) else _] => destruct c
    end;
    cbv beta iota zeta; cbn [ExplorationMetrics.room_revisitation_map];
    apply count_revisit_step.
Qed.

Lemma update_revisitation_strict st x r :
  count (ExplorationMetrics.room_revisitation_map_strict
           (ExplorationMetrics.update st x)) r
  = if room_eqb (peeked_strict st x) (Some r)
    then revisited
           (count (ExplorationMetrics.room_revisitation_map_strict st) r)
    else count (ExplorationMetrics.room_revisitation_map_strict st) r.
Proof.
  destruct x as [[info pos] name].
  unfold ExplorationMetrics.update, ExplorationMetrics.update_metric,
    peeked_strict.
  destruct (ExplorationMetrics.locate _ _ _) as [[rvm cur] rooms].
  destruct (ExplorationMetrics.enter_room _ _ _) as [stack steps].
  cbv beta iota zeta.
  destruct (negb (str_in "TURN" name));
    [|destruct (String.eqb name "TURN_LEFT");
      [|destruct (String.eqb name "TURN_RIGHT")]];
    cbv beta iota zeta;
    match goal with
    | |- context [if ?c then (_, _) else _] => destruct c
    end;
    cbv beta iota zeta;
    cbn [ExplorationMetrics.room_revisitation_map_strict];
    apply count_revisit_step.
Qed.

Lemma revisited_after n : revisited (revisits_after n) = revisits_after (S n).
Proof.
  unfold revisited. destruct n as [|n]; [reflexivity|].
  cbn [revisits_after].
  destruct (Z.eqb_spec (Z.of_nat n + 2) 0); lia.
Qed.

(** A counter that follows the step equation counts detections. *)
Lemma revisitation_run
  (detect : ExplorationMetrics.state -> ExplorationMetrics.step
            -> option string)
  (counter : ExplorationMetrics.state -> gmap string Z) (r : string) :
  (forall st x,
     count (counter (ExplorationMetrics.update st x)) r
     = if room_eqb (detect st x) (Some r)
       then revisited (count (counter st) r) else count (counter st) r) ->
  forall xs st n,
    count (counter st) r = revisits_after n ->
    count (counter (ExplorationMetrics.updates st xs)) r
    = revisits_after (n + peeks detect st xs r).
Proof.
  intros Hstep xs. induction xs as [|x xs IH]; intros st n Hn.
  - cbn [peeks]. rewrite Nat.add_0_r. exact Hn.
  - rewrite updates_cons. cbn [peeks].
    specialize (Hstep st x).
    destruct (room_eqb (detect st x) (Some r)).
    + rewrite (IH _ (S n)).
      * f_equal. lia.
      * rewrite Hstep, Hn. apply revisited_after.
    + rewrite (IH _ n); [f_equal; lia|]. rewrite Hstep. exact Hn.
Qed.

Lemma reset_revisitation st levels agent_position r :
  let st' := ExplorationMetrics.reset_metric st levels agent_position in
  count (ExplorationMetrics.room_revisitation_map st') r = 0
  /\ count (ExplorationMetrics.room_revisitation_map_strict st') r = 0.
Proof.
  unfold ExplorationMetrics.reset_metric.
  destruct (fold_left _ levels _) as [[rooms current_room] i].
  split; reflexivity.
Qed.

End Peeking.

(** C9: in an episode (a reset, then any steps), the revisitation counter of
    every room is 0 as long as no step has detected a peek into the room,
    2 after the first detection and one more after every further one: the
    first detection counts twice.  The strict counter follows the strict
    detections in the same way.  Step by step: a detection takes the counter
    from 0 to 2, or from a non-zero value up by one, and a step without a
    detection for the room leaves its counter unchanged. *)
Theorem room_peeking_counts
  (st0 : ExplorationMetrics.state) (levels : list (list region))
  (agent_position : vec3) (room : string) :
  let st := ExplorationMetrics.reset_metric st0 levels agent_position in
  (forall xs,
     count (ExplorationMetrics.room_revisitation_map
              (ExplorationMetrics.updates st xs)) room
     = revisits_after (peeks peeked st xs room)
     /\ count (ExplorationMetrics.room_revisitation_map_strict
                 (ExplorationMetrics.updates st xs)) room
        = revisits_after (peeks peeked_strict st xs room))
  /\ (forall s x,
        count (ExplorationMetrics.room_revisitation_map
                 (ExplorationMetrics.update s x)) room
        = (if room_eqb (peeked s x) (Some room)
           then if Z.eqb (count (ExplorationMetrics.room_revisitation_map s)
                            room) 0
                then 2
                else count (ExplorationMetrics.room_revisitation_map s) room
                     + 1
           else count (ExplorationMetrics.room_revisitation_map s) room)
        /\ count (ExplorationMetrics.room_revisitation_map_strict
                    (ExplorationMetrics.update s x)) room
           = (if room_eqb (peeked_strict s x) (Some room)
              then if Z.eqb
                        (count (ExplorationMetrics.room_revisitation_map_strict
                                  s) room) 0
                   then 2
                   else count (ExplorationMetrics.room_revisitation_map_strict
                                 s) room + 1
              else count (ExplorationMetrics.room_revisitation_map_strict s)
                         room)).
Proof.
  intros st.
  destruct (reset_revisitation st0 levels agent_position room) as [H0 H0s].
  fold st in H0, H0s. split.
  - intros xs. split.
    + apply (revisitation_run peeked ExplorationMetrics.room_revisitation_map
               room (fun s x => update_revisitation s x room) xs st 0%nat).
      exact H0.
    + apply (revisitation_run peeked_strict
               ExplorationMetrics.room_revisitation_map_strict
               room (fun s x => update_revisitation_strict s x room)
               xs st 0%nat).
      exact H0s.
  - intros s x. split.
    + apply update_revisitation.
    + apply update_revisitation_strict.
Qed.

(** A walk from the hall into the study and back after 8 steps is a peek
    into the hall under both tests: both counters of the hall are 2. *)
Example peek_into_hall :
  let st :=
    ExplorationMetrics.updates
      (ExplorationMetrics.reset_metric ExplorationMetrics.init
         [[hall; study]] origin)
      (peek_walk 8) in
  count (ExplorationMetrics.room_revisitation_map st) "hallway" = 2
  /\ count (ExplorationMetrics.room_revisitation_map_strict st) "hallway" = 2
  /\ count (ExplorationMetrics.room_revisitation_map st) "office" = 0.
Proof. vm_compute. repeat split. Qed.

(** * Further properties *)

(** ** [RoomVisitationMap]: what the counters count *)

Section VisitCounts.

Lemma hits_app position bs1 bs2 :
  hits position (bs1 ++ bs2) = hits position bs1 + hits position bs2.
Proof. induction bs1 as [|b bs1 IH]; simpl; [reflexivity|]. lia. Qed.

Lemma hits_nonneg position bs : 0 <= hits position bs.
Proof.
  induction bs as [|b bs IH]; simpl; [lia|].
  destruct (aabb_contains position b); lia.
Qed.

Lemma dict_append_keys d name b :
  NoDup (map fst d) -> NoDup (map fst (dict_append d name b)).
Proof.
  induction d as [|[k bs] d IH]; intros Hd; simpl.
  - constructor; [apply not_elem_of_nil|constructor].
  - destruct (String.eqb_spec k name) as [->|Hne]; [exact Hd|].
    simpl in *. apply NoDup_cons in Hd as [Hk Hd].
    apply NoDup_cons. split; [|apply IH, Hd].
    intros Hin. apply Hk. clear IH Hd Hk.
    induction d as [|[k' bs'] d IH]; simpl in *.
    + apply list_elem_of_singleton in Hin. congruence.
    + destruct (String.eqb_spec k' name) as [->|Hne'];
        [exact Hin|].
      simpl in Hin. apply elem_of_cons in Hin as [->|Hin];
        [left|right; apply IH, Hin].
Qed.

Lemma dict_get_fresh d name :
  name ∉ map fst d -> dict_get d name = [].
Proof.
  induction d as [|[k bs] d IH]; intros Hn; simpl; [reflexivity|].
  simpl in Hn. apply not_elem_of_cons in Hn as [Hne Hn].
  destruct (String.eqb_spec k name); [congruence|]. apply IH, Hn.
Qed.

Lemma count_boxes_exact position region boxes counts r :
  count
    (fold_left
       (fun counts b =>
          if aabb_contains position b then incr counts region else counts)
       boxes counts) r
  = count counts r + if String.eqb region r then hits position boxes else 0.
Proof.
  revert counts. induction boxes as [|b boxes IH]; intros counts;
    cbn [fold_left hits].
  - destruct (String.eqb region r); lia.
  - rewrite IH.
    destruct (aabb_contains position b); rewrite ?count_incr;
      destruct (String.eqb_spec region r) as [->|_]; lia.
Qed.

(** One run of the counting loops adds, for every region name, the number
    of its boxes that contain the position. *)
Lemma count_visits_exact position rooms counts r :
  NoDup (map fst rooms) ->
  count (RoomVisitationMap.count_visits position rooms counts) r
  = count counts r + hits position (dict_get rooms r).
Proof.
  unfold RoomVisitationMap.count_visits. revert counts.
  induction rooms as [|[region boxes] rooms IH]; intros counts Hd; simpl.
  - lia.
  - simpl in Hd. apply NoDup_cons in Hd as [Hk Hd].
    rewrite IH by exact Hd. rewrite count_boxes_exact.
    destruct (String.eqb_spec region r) as [->|Hne]; [|lia].
    rewrite (dict_get_fresh rooms r Hk). simpl. lia.
Qed.

End VisitCounts.

Section ResetScan.

Lemma contains_goal_total goals b contains :
  Forall has_viewpoint goals ->
  RoomVisitationMap.contains_goal goals b contains
  = Returns
      (contains
       || existsb (fun g => match view_points g with
                            | Some (p :: _) => aabb_contains p b
                            | _ => false
                            end) goals).
Proof.
  revert contains. induction goals as [|g goals IH]; intros contains Hvp.
  - simpl. rewrite orb_false_r. reflexivity.
  - apply Forall_cons in Hvp as [(p & ps & Hg) Hvp]. simpl. rewrite Hg.
    rewrite IH by exact Hvp.
    destruct (aabb_contains p b), contains; reflexivity.
Qed.

(** The loop over the goals stops at the first goal, in order, that has no
    viewpoint, with the exception of the index on it. *)
Lemma contains_goal_raises before g after b contains e :
  Forall has_viewpoint before ->
  (view_points g = None /\ e = TypeError
   \/ view_points g = Some [] /\ e = IndexError) ->
  RoomVisitationMap.contains_goal (before ++ g :: after) b contains
  = Raises e.
Proof.
  intros Hvp Hg. revert contains.
  induction before as [|g' before IH]; intros contains; simpl.
  - destruct Hg as [[-> ->]|[-> ->]]; reflexivity.
  - apply Forall_cons in Hvp as [(p & ps & Hg') Hvp]. rewrite Hg'.
    apply IH, Hvp.
Qed.

Lemma scan_regions_raises r regions before g after acc e :
  Forall has_viewpoint before ->
  (view_points g = None /\ e = TypeError
   \/ view_points g = Some [] /\ e = IndexError) ->
  RoomVisitationMap.scan_regions (r :: regions) (before ++ g :: after) acc
  = Raises e.
Proof.
  intros Hvp Hg. simpl.
  rewrite (contains_goal_raises before g after _ _ e Hvp Hg). reflexivity.
Qed.

(** Either every goal has a viewpoint, or there is a first one without. *)
Lemma first_without_viewpoint goals :
  Forall has_viewpoint goals
  \/ exists before g after e,
       goals = (before ++ g :: after)%list
       /\ Forall has_viewpoint before
       /\ (view_points g = None /\ e = TypeError
           \/ view_points g = Some [] /\ e = IndexError).
Proof.
  induction goals as [|g goals IH]; [left; constructor|].
  destruct (view_points g) as [[|p ps]|] eqn:Eg.
  - right. exists [], g, goals, IndexError.
    split; [reflexivity|]. split; [constructor|].
    right. split; [exact Eg|reflexivity].
  - destruct IH as [IH|(before & g' & after & e & -> & Hvp & Hg')].
    + left. constructor; [exists p, ps; exact Eg|exact IH].
    + right. exists (g :: before), g', after, e.
      split; [reflexivity|]. split; [|exact Hg'].
      constructor; [exists p, ps; exact Eg|exact Hvp].
  - right. exists [], g, goals, TypeError.
    split; [reflexivity|]. split; [constructor|].
    left. split; [exact Eg|reflexivity].
Qed.

(** The two dictionaries the scan builds: under every name, the boxes
    found so far followed by the boxes of the scanned regions of that name,
    respectively those of them that hold a first viewpoint. *)
Lemma scan_regions_total regions goals acc :
  Forall has_viewpoint goals ->
  NoDup (map fst (fst acc)) -> NoDup (map fst (snd acc)) ->
  exists dicts,
    RoomVisitationMap.scan_regions regions goals acc = Returns dicts
    /\ NoDup (map fst (fst dicts)) /\ NoDup (map fst (snd dicts))
    /\ forall name,
         dict_get (fst dicts) name
         = (dict_get (fst acc) name ++ boxes_named regions name)%list
         /\ dict_get (snd dicts) name
            = (dict_get (snd acc) name
               ++ goal_boxes_named goals regions name)%list.
Proof.
  intros Hvp. revert acc.
  induction regions as [|r regions IH]; intros acc Hk1 Hk2.
  - exists acc. split; [reflexivity|]. split; [exact Hk1|].
    split; [exact Hk2|]. intros name. simpl. rewrite !app_nil_r.
    split; reflexivity.
  - cbn [RoomVisitationMap.scan_regions].
    rewrite contains_goal_total by exact Hvp. cbn [bind orb].
    match goal with
    | |- context [RoomVisitationMap.scan_regions regions goals ?a] =>
        destruct (IH a) as (dicts & Hd & Hn1 & Hn2 & Hget)
    end.
    { cbn [fst]. apply dict_append_keys, Hk1. }
    { cbn [snd]. destruct (existsb _ goals);
        [apply dict_append_keys, Hk2|exact Hk2]. }
    exists dicts. split; [exact Hd|]. split; [exact Hn1|].
    split; [exact Hn2|]. intros name.
    destruct (Hget name) as [Hg1 Hg2]. rewrite Hg1, Hg2.
    cbn [fst snd boxes_named goal_boxes_named].
    rewrite dict_get_append.
    destruct (existsb _ goals); rewrite ?dict_get_append;
      destruct (String.eqb (category_name r) name); cbn [andb];
      rewrite <- ?app_assoc; split; reflexivity.
Qed.

End ResetScan.

(** X1: [RoomVisitationMap.reset_metric] raises exactly when the scene has
    at least one region and some episode goal has no viewpoint, its
    [view_points] being [None] (the default) or an empty list.  The
    exception is that of [view_points[0]] on the first such goal of the
    episode: [TypeError] on [None], [IndexError] on the empty list.  With no
    region the goals are never indexed and the reset returns. *)
Theorem reset_metric_raises_iff
  (st : RoomVisitationMap.state) (agent_position : vec3)
  (regions : list region) (goals : list goal) :
  ((exists e,
      RoomVisitationMap.reset_metric st agent_position regions goals
      = Raises e)
   <-> regions <> []
       /\ exists g, In g goals
                    /\ (view_points g = None \/ view_points g = Some []))
  /\ (forall e,
        RoomVisitationMap.reset_metric st agent_position regions goals
        = Raises e
        <-> regions <> []
            /\ exists before g after,
                 goals = (before ++ g :: after)%list
                 /\ Forall has_viewpoint before
                 /\ (view_points g = None /\ e = TypeError
                     \/ view_points g = Some [] /\ e = IndexError))
  /\ (regions = [] ->
      exists st',
        RoomVisitationMap.reset_metric st agent_position regions goals
        = Returns st').
Proof.
  unfold RoomVisitationMap.reset_metric. cbv zeta.
  assert (Hbad : forall g, has_viewpoint g ->
                   view_points g = None \/ view_points g = Some [] -> False).
  { intros g (p & ps & Hg) [H|H]; congruence. }
  destruct regions as [|r regions].
  { simpl. split; [|split].
    - split; [intros [e He]; discriminate He|intros [H _]; congruence].
    - intros e. split; [intros He; discriminate He|intros [H _]; congruence].
    - intros _. eexists. reflexivity. }
  destruct (first_without_viewpoint goals)
    as [Hvp|(before & g & after & e0 & -> & Hvp & Hg)].
  - destruct (scan_regions_total (r :: regions) goals ([], []) Hvp)
      as (dicts & Hd & _); [constructor..|].
    rewrite Hd. simpl. split; [|split].
    + split; [intros [e He]; discriminate He|].
      intros (_ & g & Hin & Hg). exfalso.
      exact (Hbad g (proj1 (List.Forall_forall _ _) Hvp g Hin) Hg).
    + intros e. split; [intros He; discriminate He|].
      intros (_ & before & g & after & -> & _ & Hg). exfalso.
      apply (Hbad g).
      * apply (proj1 (List.Forall_forall _ _) Hvp g).
        apply in_or_app. right. left. reflexivity.
      * destruct Hg as [[Hg _]|[Hg _]]; [left|right]; exact Hg.
    + intros H. discriminate H.
  - rewrite (scan_regions_raises r regions before g after _ e0 Hvp Hg).
    simpl. split; [|split].
    + split; [|intros _; eexists; reflexivity].
      intros _. split; [discriminate|]. exists g.
      split; [apply in_or_app; right; left; reflexivity|].
      destruct Hg as [[Hg _]|[Hg _]]; [left|right]; exact Hg.
    + intros e. split.
      * intros He. injection He as <-. split; [discriminate|].
        exists before, g, after. split; [reflexivity|].
        split; [exact Hvp|exact Hg].
      * intros (_ & before' & g' & after' & Heq & Hvp' & Hg').
        pose proof (scan_regions_raises r regions before' g' after'
                      ([], []) e Hvp' Hg') as Hr.
        rewrite <- Heq in Hr.
        rewrite (scan_regions_raises r regions before g after _ e0 Hvp Hg)
          in Hr.
        injection Hr as <-. reflexivity.
    + intros H. discriminate H.
Qed.

Lemma reset_metric_raises_iff_witness :
  RoomVisitationMap.reset_metric RoomVisitationMap.init origin [kitchen]
    [one_viewpoint; unset_viewpoints; no_viewpoints]
  = Raises TypeError
  /\ RoomVisitationMap.reset_metric RoomVisitationMap.init origin [kitchen]
       [one_viewpoint; no_viewpoints; unset_viewpoints]
     = Raises IndexError.
Proof.
  split.
  - apply (reset_metric_raises_iff RoomVisitationMap.init origin [kitchen]
             [one_viewpoint; unset_viewpoints; no_viewpoints]).
    split; [discriminate|].
    exists [one_viewpoint], unset_viewpoints, [no_viewpoints].
    split; [reflexivity|]. split.
    + constructor; [|constructor]. exists origin, []. reflexivity.
    + left. split; reflexivity.
  - apply (reset_metric_raises_iff RoomVisitationMap.init origin [kitchen]
             [one_viewpoint; no_viewpoints; unset_viewpoints]).
    split; [discriminate|].
    exists [one_viewpoint], no_viewpoints, [unset_viewpoints].
    split; [reflexivity|]. split.
    + constructor; [|constructor]. exists origin, []. reflexivity.
    + right. split; reflexivity.
Defined.

Section EpisodeCounts.

Lemma reset_metric_returns st agent_position regions goals st0 :
  RoomVisitationMap.reset_metric st agent_position regions goals
  = Returns st0 ->
  RoomVisitationMap.room_visitation_map st0 = ∅
  /\ RoomVisitationMap.goal_room_visitation_map st0 = ∅
  /\ NoDup (map fst (RoomVisitationMap.room_aabbs st0))
  /\ NoDup (map fst (RoomVisitationMap.goal_rooms st0))
  /\ forall name,
       dict_get (RoomVisitationMap.room_aabbs st0) name
       = boxes_named regions name
       /\ dict_get (RoomVisitationMap.goal_rooms st0) name
          = goal_boxes_named goals regions name.
Proof.
  unfold RoomVisitationMap.reset_metric. cbv zeta. intros Hret.
  destruct regions as [|r regions].
  - simpl in Hret. injection Hret as <-. simpl.
    repeat split; constructor.
  - destruct (first_without_viewpoint goals)
      as [Hvp|(before & g & after & e0 & -> & Hvp & Hg)].
    2:{ rewrite (scan_regions_raises r regions before g after _ e0 Hvp Hg)
          in Hret.
        discriminate Hret. }
    destruct (scan_regions_total (r :: regions) goals ([], []) Hvp)
      as (dicts & Hd & Hn1 & Hn2 & Hget); [constructor..|].
    rewrite Hd in Hret. simpl in Hret. injection Hret as <-.
    cbn [RoomVisitationMap.room_visitation_map
           RoomVisitationMap.goal_room_visitation_map
           RoomVisitationMap.room_aabbs RoomVisitationMap.goal_rooms].
    split; [reflexivity|]. split; [reflexivity|].
    split; [exact Hn1|]. split; [exact Hn2|exact Hget].
Qed.

Lemma updates_count_exact positions st r :
  NoDup (map fst (RoomVisitationMap.room_aabbs st)) ->
  NoDup (map fst (RoomVisitationMap.goal_rooms st)) ->
  count (RoomVisitationMap.room_visitation_map
           (RoomVisitationMap.updates st positions)) r
  = count (RoomVisitationMap.room_visitation_map st) r
    + visits (dict_get (RoomVisitationMap.room_aabbs st) r) positions
  /\ count (RoomVisitationMap.goal_room_visitation_map
              (RoomVisitationMap.updates st positions)) r
     = count (RoomVisitationMap.goal_room_visitation_map st) r
       + visits (dict_get (RoomVisitationMap.goal_rooms st) r) positions.
Proof.
  unfold RoomVisitationMap.updates. revert st.
  induction positions as [|p positions IH]; intros st Hn1 Hn2;
    cbn [fold_left visits]; [split; lia|].
  destruct (IH (RoomVisitationMap.update_metric st p) Hn1 Hn2) as [H1 H2].
  rewrite H1, H2.
  cbn [RoomVisitationMap.update_metric
         RoomVisitationMap.room_visitation_map
         RoomVisitationMap.goal_room_visitation_map
         RoomVisitationMap.room_aabbs RoomVisitationMap.goal_rooms].
  rewrite !count_visits_exact by assumption. split; lia.
Qed.

Lemma hits_goal_boxes_le position goals regions name :
  hits position (goal_boxes_named goals regions name)
  <= hits position (boxes_named regions name).
Proof.
  induction regions as [|r regions IH]; cbn [goal_boxes_named boxes_named];
    [lia|].
  destruct (String.eqb (category_name r) name); cbn [andb]; [|exact IH].
  destruct (existsb _ goals); cbn [hits];
    destruct (aabb_contains position (region_aabb r));
    pose proof (hits_nonneg position (boxes_named regions name)); lia.
Qed.

Lemma visits_goal_boxes_le positions goals regions name :
  visits (goal_boxes_named goals regions name) positions
  <= visits (boxes_named regions name) positions.
Proof.
  induction positions as [|p positions IH]; cbn [visits]; [lia|].
  pose proof (hits_goal_boxes_le p goals regions name). lia.
Qed.

Lemma visits_nonneg boxes positions : 0 <= visits boxes positions.
Proof.
  induction positions as [|p positions IH]; cbn [visits]; [lia|].
  pose proof (hits_nonneg p boxes). lia.
Qed.

Lemma counts_after_reset st st0 agent_position regions goals positions
  name :
  RoomVisitationMap.reset_metric st agent_position regions goals
  = Returns st0 ->
  count (RoomVisitationMap.room_visitation_map
           (RoomVisitationMap.updates st0 positions)) name
  = visits (boxes_named regions name) positions
  /\ count (RoomVisitationMap.goal_room_visitation_map
              (RoomVisitationMap.updates st0 positions)) name
     = visits (goal_boxes_named goals regions name) positions.
Proof.
  intros Hret.
  destruct (reset_metric_returns _ _ _ _ _ Hret)
    as (Hm1 & Hm2 & Hn1 & Hn2 & Hget).
  destruct (updates_count_exact positions st0 name Hn1 Hn2) as [H1 H2].
  destruct (Hget name) as [Hg1 Hg2].
  rewrite H1, H2, Hm1, Hm2, Hg1, Hg2. unfold count.
  rewrite lookup_empty. simpl. split; lia.
Qed.

End EpisodeCounts.

(** X2: after a reset that returns, and any walk, the visitation count of
    a region name is the number of (step, region) pairs in which a region
    of that name contains the agent position of the step; the goal-room
    count is the same number over the regions that hold the first viewpoint
    of some goal.  In particular both start from 0 at the reset, whatever
    the state of the episode before. *)
Theorem visitation_counts_exact
  (st st0 : RoomVisitationMap.state) (agent_position : vec3)
  (regions : list region) (goals : list goal)
  (positions : list vec3) (name : string) :
  RoomVisitationMap.reset_metric st agent_position regions goals
  = Returns st0 ->
  count (RoomVisitationMap.room_visitation_map
           (RoomVisitationMap.updates st0 positions)) name
  = visits (boxes_named regions name) positions
  /\ count (RoomVisitationMap.goal_room_visitation_map
              (RoomVisitationMap.updates st0 positions)) name
     = visits (goal_boxes_named goals regions name) positions.
Proof.
  intros Hret.
  destruct (reset_metric_returns _ _ _ _ _ Hret)
    as (Hm1 & Hm2 & Hn1 & Hn2 & Hget).
  destruct (updates_count_exact positions st0 name Hn1 Hn2) as [H1 H2].
  destruct (Hget name) as [Hg1 Hg2].
  rewrite H1, H2, Hm1, Hm2, Hg1, Hg2. unfold count.
  rewrite lookup_empty. simpl. split; lia.
Qed.

Lemma visitation_counts_exact_witness :
  count (RoomVisitationMap.room_visitation_map
           (RoomVisitationMap.updates
              (RoomVisitationMap.State [("kitchen", [unit_box])]
                 [("kitchen", [unit_box])] ∅ ∅ None)
              [origin; far_away; origin])) "kitchen"
  = visits (boxes_named [kitchen] "kitchen") [origin; far_away; origin].
Proof.
  apply (visitation_counts_exact RoomVisitationMap.init _ origin [kitchen]
           [two_viewpoints; one_viewpoint]).
  reflexivity.
Defined.

(** X3: after a reset that returns, at every step of the episode and for
    every region name, the goal-room visitation count is between 0 and the
    visitation count of that name: the steps counted for a goal room are
    among the steps counted for the room. *)
Theorem goal_room_count_bounded
  (st st0 : RoomVisitationMap.state) (agent_position : vec3)
  (regions : list region) (goals : list goal)
  (positions : list vec3) (name : string) :
  RoomVisitationMap.reset_metric st agent_position regions goals
  = Returns st0 ->
  0 <= count (RoomVisitationMap.goal_room_visitation_map
                (RoomVisitationMap.updates st0 positions)) name
    <= count (RoomVisitationMap.room_visitation_map
                (RoomVisitationMap.updates st0 positions)) name.
Proof.
  intros Hret.
  destruct (counts_after_reset st st0 agent_position regions goals
              positions name Hret) as [H1 H2].
  rewrite H1, H2.
  pose proof (visits_goal_boxes_le positions goals regions name).
  pose proof (visits_nonneg (goal_boxes_named goals regions name) positions).
  lia.
Qed.

Lemma goal_room_count_bounded_witness :
  0 <= count (RoomVisitationMap.goal_room_visitation_map
                (RoomVisitationMap.updates
                   (RoomVisitationMap.State [("kitchen", [unit_box])]
                      [("kitchen", [unit_box])] ∅ ∅ None)
                   [origin; far_away; origin])) "kitchen"
    <= count (RoomVisitationMap.room_visitation_map
                (RoomVisitationMap.updates
                   (RoomVisitationMap.State [("kitchen", [unit_box])]
                      [("kitchen", [unit_box])] ∅ ∅ None)
                   [origin; far_away; origin])) "kitchen".
Proof.
  apply (goal_room_count_bounded RoomVisitationMap.init _ origin [kitchen]
           [two_viewpoints; one_viewpoint]).
  reflexivity.
Defined.

(** ** [ExplorationMetrics]: the action window *)

Section ActionWindow.

Lemma update_last_20_actions st x :
  ExplorationMetrics.last_20_actions (ExplorationMetrics.update st x)
  = let actions :=
      (ExplorationMetrics.last_20_actions st ++ [action_name x])%list in
    if Nat.ltb 20 (length actions) then tl actions else actions.
Proof.
  destruct x as [[info pos] name].
  unfold ExplorationMetrics.update, ExplorationMetrics.update_metric,
    action_name.
  destruct (ExplorationMetrics.locate _ _ _) as [[rvm cur] rooms].
  destruct (ExplorationMetrics.enter_room _ _ _) as [stack steps].
  cbv beta iota zeta. cbn [snd].
  destruct (negb (str_in "TURN" name));
    [|destruct (String.eqb name "TURN_LEFT");
      [|destruct (String.eqb name "TURN_RIGHT")]];
    cbv beta iota zeta;
    match goal with
    | |- context [if ?c then (_, _) else _] => destruct c
    end;
    reflexivity.
Qed.

Lemma tl_drop {A} (l : list A) : tl l = drop 1 l.
Proof. destruct l; reflexivity. Qed.

(** Appending to the last 20 of a list and trimming gives the last 20 of
    the longer list. *)
Lemma window_snoc (names : list string) a :
  (let actions := (drop (length names - 20) names ++ [a])%list in
   if Nat.ltb 20 (length actions) then tl actions else actions)
  = drop (length (names ++ [a]) - 20) (names ++ [a]).
Proof.
  cbv zeta. rewrite !length_app, length_drop. cbn [length].
  destruct (Nat.ltb_spec 20 (length names - (length names - 20) + 1)).
  - rewrite tl_drop.
    replace (length names + 1 - 20)%nat
      with ((length names - 20) + 1)%nat by lia.
    rewrite <- drop_drop.
    rewrite (drop_app_le names [a]) by lia. reflexivity.
  - replace (length names - 20)%nat with 0%nat by lia.
    replace (length names + 1 - 20)%nat with 0%nat by lia.
    reflexivity.
Qed.

Lemma updates_last_20_actions xs st :
  ExplorationMetrics.last_20_actions st = [] ->
  ExplorationMetrics.last_20_actions (ExplorationMetrics.updates st xs)
  = drop (length (map action_name xs) - 20) (map action_name xs).
Proof.
  intros Hst. induction xs as [|x xs IH] using rev_ind.
  - exact Hst.
  - rewrite updates_snoc, update_last_20_actions, IH, map_app.
    apply window_snoc.
Qed.

End ActionWindow.

(** X4: at every step of an episode [last_20_actions] is the window of the
    most recent actions: after [n] updates since the reset it holds the
    names of the last [min n 20] actions, oldest first. *)
Theorem last_20_actions_window
  (st0 : ExplorationMetrics.state) (levels : list (list region))
  (agent_position : vec3) (xs : list ExplorationMetrics.step) :
  let st :=
    ExplorationMetrics.updates
      (ExplorationMetrics.reset_metric st0 levels agent_position) xs in
  ExplorationMetrics.last_20_actions st
  = drop (length xs - 20) (map action_name xs)
  /\ length (ExplorationMetrics.last_20_actions st) = Nat.min (length xs) 20.
Proof.
  cbv zeta.
  assert (H : ExplorationMetrics.last_20_actions
                (ExplorationMetrics.updates
                   (ExplorationMetrics.reset_metric st0 levels agent_position)
                   xs)
              = drop (length xs - 20) (map action_name xs)).
  { rewrite updates_last_20_actions, length_map; [reflexivity|].
    unfold ExplorationMetrics.reset_metric.
    destruct (fold_left _ levels _) as [[rooms current_room] i].
    reflexivity. }
  split; [exact H|]. rewrite H, length_drop, length_map. lia.
Qed.

(** ** [ExplorationMetrics]: the two sweep counters *)

Section SweepCounters.

Lemma gtb_threshold_mono d :
  gtb d (Fin (15 # 1000)) = true -> gtb d (Fin (1 # 100)) = true.
Proof.
  destruct d as [q| | |]; simpl; try (intros H; exact H).
  rewrite !Qltb_lt. intros H.
  eapply Qlt_trans; [|exact H]. reflexivity.
Qed.

Lemma update_counters_ordered st x :
  0 <= ExplorationMetrics.panoramic_turns st
    <= ExplorationMetrics.panoramic_turns_strict st ->
  0 <= ExplorationMetrics.panoramic_turns (ExplorationMetrics.update st x)
    <= ExplorationMetrics.panoramic_turns_strict
         (ExplorationMetrics.update st x).
Proof.
  intros H. destruct (update_turn_fields st x) as (_ & Hp & Hs).
  rewrite Hp, Hs.
  destruct (ExplorationMetrics.sweep_turns _ _); cbn [andb]; [|exact H].
  destruct (gtb _ (Fin (15 # 1000))) eqn:E.
  - rewrite (gtb_threshold_mono _ E). lia.
  - destruct (gtb _ (Fin (1 # 100))); lia.
Qed.

Lemma turn_step_bounds name lr :
  0 <= fst lr -> 0 <= snd lr ->
  0 <= fst (turn_step name lr) /\ 0 <= snd (turn_step name lr)
  /\ fst (turn_step name lr) + snd (turn_step name lr)
     <= fst lr + snd lr + 1.
Proof.
  intros Hl Hr. unfold turn_step.
  destruct (negb (str_in "TURN" name)); [simpl; lia|].
  destruct (String.eqb name "TURN_LEFT"); [simpl; lia|].
  destruct (String.eqb name "TURN_RIGHT"); simpl; lia.
Qed.

Lemma turn_counts_bounds names lr :
  0 <= fst lr -> 0 <= snd lr ->
  0 <= fst (turn_counts names lr) /\ 0 <= snd (turn_counts names lr)
  /\ fst (turn_counts names lr) + snd (turn_counts names lr)
     <= fst lr + snd lr + Z.of_nat (length names).
Proof.
  unfold turn_counts. revert lr.
  induction names as [|name names IH]; intros lr Hl Hr; cbn [fold_left].
  - cbn [length]. lia.
  - destruct (turn_step_bounds name lr Hl Hr) as (H1 & H2 & H3).
    destruct (IH _ H1 H2) as (H4 & H5 & H6).
    cbn [length]. lia.
Qed.

End SweepCounters.

(** X5: throughout an episode the counter named strict is the larger one:
    0 <= [panoramic_turns] <= [panoramic_turns_strict] after the reset and
    after every update (the threshold 0.01 of the strict counter is below
    the threshold 0.015 of the other). *)
Theorem panoramic_counters_ordered
  (st0 : ExplorationMetrics.state) (levels : list (list region))
  (agent_position : vec3) (xs : list ExplorationMetrics.step) :
  let st :=
    ExplorationMetrics.updates
      (ExplorationMetrics.reset_metric st0 levels agent_position) xs in
  0 <= ExplorationMetrics.panoramic_turns st
    <= ExplorationMetrics.panoramic_turns_strict st.
Proof.
  cbv zeta. induction xs as [|x xs IH] using rev_ind.
  - destruct (reset_turn_counters st0 levels agent_position)
      as (_ & Hp & Hs).
    cbv zeta in Hp, Hs. cbn [ExplorationMetrics.updates fold_left].
    rewrite Hp, Hs. lia.
  - rewrite updates_snoc. apply update_counters_ordered, IH.
Qed.

(** X6: a sweep takes at least 8 steps: from a state whose turn counters
    are zero (after a reset, or after any action that is not a turn), no
    run of at most 7 steps, whatever the actions and the maps, changes
    either sweep counter. *)
Theorem no_sweep_within_seven_steps
  (st : ExplorationMetrics.state) (xs : list ExplorationMetrics.step) :
  turns_of st = (0, 0) ->
  (length xs <= 7)%nat ->
  ExplorationMetrics.panoramic_turns (ExplorationMetrics.updates st xs)
  = ExplorationMetrics.panoramic_turns st
  /\ ExplorationMetrics.panoramic_turns_strict
       (ExplorationMetrics.updates st xs)
     = ExplorationMetrics.panoramic_turns_strict st.
Proof.
  intros Hst Hlen.
  pose proof (no_sweep_prefixes xs st) as Hno.
  rewrite <- (firstn_all xs).
  apply Hno. intros i Hi. rewrite Hst.
  destruct (turn_counts_bounds (take i (map action_name xs)) (0, 0))
    as (H1 & H2 & H3); [simpl; lia..|].
  cbn [fst snd] in H3. rewrite length_take, length_map in H3.
  unfold sweeping, ExplorationMetrics.sweep_turns.
  apply andb_false_iff. right. apply Z.leb_gt. lia.
Qed.

Lemma no_sweep_within_seven_steps_witness :
  ExplorationMetrics.panoramic_turns
    (ExplorationMetrics.updates
       (ExplorationMetrics.reset_metric ExplorationMetrics.init [] origin)
       (take 7 sweep_steps))
  = ExplorationMetrics.panoramic_turns
      (ExplorationMetrics.reset_metric ExplorationMetrics.init [] origin).
Proof.
  apply (no_sweep_within_seven_steps
           (ExplorationMetrics.reset_metric ExplorationMetrics.init [] origin)
           (take 7 sweep_steps)).
  - reflexivity.
  - simpl. lia.
Defined.

(** ** [ExplorationMetrics]: the room history *)

Section RoomHistory.

Lemma adjacent_distinct_snoc l x :
  adjacent_distinct l ->
  (forall y, from_back l 1 = Some y -> y <> x) ->
  adjacent_distinct (l ++ [x]).
Proof.
  unfold from_back. cbn [Nat.sub].
  induction l as [|a l IH]; intros Hl Hlast; [exact I|].
  destruct l as [|b l].
  - cbn. split; [|exact I]. apply Hlast. reflexivity.
  - destruct Hl as [Hab Hl]. cbn [app adjacent_distinct].
    split; [exact Hab|]. apply IH; [exact Hl|].
    intros y Hy. apply Hlast.
    change (rev (a :: b :: l)) with (rev (b :: l) ++ [a])%list.
    rewrite nth_error_app1; [exact Hy|].
    apply nth_error_Some. congruence.
Qed.

Lemma enter_room_stack stack steps current_room :
  fst (ExplorationMetrics.enter_room stack steps current_room) = stack
  \/ exists room,
       fst (ExplorationMetrics.enter_room stack steps current_room)
       = (stack ++ [room])%list
       /\ forall y, from_back stack 1 = Some y -> y <> room.
Proof.
  unfold ExplorationMetrics.enter_room.
  destruct current_room as [room|]; [|left; reflexivity].
  destruct (Nat.eqb_spec (length stack) 0) as [Hlen|Hlen]; cbn [orb].
  - right. exists room. split; [reflexivity|].
    destruct stack; [|discriminate Hlen]. intros y Hy. discriminate Hy.
  - destruct (room_eqb (from_back stack 1) (Some room)) eqn:E;
      cbn [negb]; [left; reflexivity|].
    right. exists room. split; [reflexivity|].
    intros y Hy ->. rewrite Hy in E. cbn in E.
    rewrite String.eqb_refl in E. discriminate E.
Qed.

Lemma update_previous_room_stack st x :
  exists steps current_room,
    ExplorationMetrics.previous_room_stack (ExplorationMetrics.update st x)
    = fst (ExplorationMetrics.enter_room
             (ExplorationMetrics.previous_room_stack st) steps current_room).
Proof.
  destruct x as [[info pos] name].
  unfold ExplorationMetrics.update, ExplorationMetrics.update_metric.
  destruct (ExplorationMetrics.locate _ _ _) as [[rvm cur] rooms].
  exists (ExplorationMetrics.steps_between_rooms st), cur.
  destruct (ExplorationMetrics.enter_room _ _ _) as [stack steps].
  cbv beta iota zeta.
  destruct (negb (str_in "TURN" name));
    [|destruct (String.eqb name "TURN_LEFT");
      [|destruct (String.eqb name "TURN_RIGHT")]];
    cbv beta iota zeta;
    match goal with
    | |- context [if ?c then (_, _) else _] => destruct c
    end;
    reflexivity.
Qed.

Lemma exploration_run_app st calls1 calls2 :
  exploration_run st (calls1 ++ calls2)
  = exploration_run (exploration_run st calls1) calls2.
Proof. unfold exploration_run. apply fold_left_app. Qed.

Lemma call_previous_room_stack st call :
  let st' := exploration_run st [call] in
  ExplorationMetrics.previous_room_stack st'
  = ExplorationMetrics.previous_room_stack st
  \/ exists room,
       ExplorationMetrics.previous_room_stack st'
       = (ExplorationMetrics.previous_room_stack st ++ [room])%list
       /\ forall y,
            from_back (ExplorationMetrics.previous_room_stack st) 1 = Some y ->
            y <> room.
Proof.
  cbv zeta. unfold exploration_run. cbn [fold_left].
  destruct call as [levels pos|x].
  - left. apply reset_keeps_room_stack.
  - destruct (update_previous_room_stack st x) as (steps & cur & ->).
    apply enter_room_stack.
Qed.

End RoomHistory.

(** X7: over the whole life of an [ExplorationMetrics] object (any sequence
    of resets and updates after construction) the room history
    [previous_room_stack] never holds the same room twice in a row, and no
    call removes an entry from it: the history before a run of calls is a
    prefix of the history after it, resets included. *)
Theorem room_history_grows_without_repeats
  (calls : list exploration_call) :
  adjacent_distinct
    (ExplorationMetrics.previous_room_stack
       (exploration_run ExplorationMetrics.init calls))
  /\ forall st,
       ExplorationMetrics.previous_room_stack st
       `prefix_of` ExplorationMetrics.previous_room_stack
                     (exploration_run st calls).
Proof.
  split.
  - induction calls as [|call calls IH] using rev_ind; [exact I|].
    rewrite exploration_run_app.
    destruct (call_previous_room_stack
                (exploration_run ExplorationMetrics.init calls) call)
      as [H|(room & H & Hlast)]; rewrite H.
    + exact IH.
    + apply adjacent_distinct_snoc; assumption.
  - intros st. revert st.
    induction calls as [|call calls IH]; intros st; [reflexivity|].
    change (call :: calls) with ([call] ++ calls)%list.
    rewrite (exploration_run_app st [call] calls).
    etransitivity; [|apply IH].
    destruct (call_previous_room_stack st call) as [->|(room & -> & _)];
      [reflexivity|].
    apply prefix_app_r. reflexivity.
Qed.

(** ** [ExplorationMetrics]: the coverage ratios on a navigable map *)

Section Ratios.

Lemma quotient_unit (a b : Z) :
  0 <= a <= b -> 0 < b -> unit_ratio (true_divide a b).
Proof.
  intros Ha Hb. unfold true_divide.
  destruct (Z.eqb_spec b 0) as [E|_]; [lia|].
  eexists. split; [reflexivity|].
  assert (Hq : (0 < inject_Z b)%Q).
  { change 0%Q with (inject_Z 0). rewrite <- Zlt_Qlt. exact Hb. }
  split.
  - apply Qle_shift_div_l; [exact Hq|]. rewrite Qmult_0_l.
    change 0%Q with (inject_Z 0). rewrite <- Zle_Qle. lia.
  - apply Qle_shift_div_r; [exact Hq|]. rewrite Qmult_1_l.
    rewrite <- Zle_Qle. lia.
Qed.

Lemma quotient_self (a : Z) : 0 < a -> true_divide a a ≈ Fin 1.
Proof.
  intros Ha. unfold true_divide.
  destruct (Z.eqb_spec a 0) as [E|_]; [lia|].
  simpl. apply Qmult_inv_r. intros H.
  unfold Qeq in H. simpl in H. lia.
Qed.

Lemma count_where_ext {A} (c d : A -> bool) (g : list (list A)) :
  (forall row a, In row g -> In a row -> c a = d a) ->
  np_sum (np_where c 1 0 g) = np_sum (np_where d 1 0 g).
Proof.
  induction g as [|row g IH]; intros H; [reflexivity|].
  rewrite !np_sum_where_cons. rewrite IH.
  - f_equal. f_equal. apply map_ext_in. intros a Ha.
    rewrite (H row a); [reflexivity|left; reflexivity|exact Ha].
  - intros row' a Hrow Ha. apply (H row' a); [right; exact Hrow|exact Ha].
Qed.

End Ratios.

(** X8: on a map with at least one navigable cell both ratios are numbers
    between 0 and 1 (the visible-area ratio by its clamp, the coverage
    ratio because every visited cell is navigable); and when no navigable
    cell is left unvisited (no cell has the label 1) the coverage ratio
    is 1. *)
Theorem coverage_ratios_on_navigable_map (info : top_down_info) :
  0 < ExplorationMetrics.get_navigable_area info ->
  unit_ratio (ExplorationMetrics.get_coverage (Some info))
  /\ unit_ratio (ExplorationMetrics.get_visible_area (Some info))
  /\ ((forall row c, In row (tdm_map info) -> In c row -> c <> 1) ->
      ExplorationMetrics.get_coverage (Some info) ≈ Fin 1).
Proof.
  intros Hnav. split; [|split].
  - unfold ExplorationMetrics.get_coverage. cbv zeta.
    apply quotient_unit; [apply visited_le_navigable|exact Hnav].
  - unfold ExplorationMetrics.get_visible_area. cbv zeta.
    pose proof (mask_sum_nonneg (fog_of_war_mask info)) as Hm.
    unfold true_divide.
    destruct (Z.eqb_spec (ExplorationMetrics.get_navigable_area info) 0)
      as [E|_]; [lia|].
    set (q := (inject_Z _ / inject_Z _)%Q).
    assert (Hq : (0 <= q)%Q).
    { subst q. apply Qle_shift_div_l.
      - change 0%Q with (inject_Z 0). rewrite <- Zlt_Qlt. exact Hnav.
      - rewrite Qmult_0_l. change 0%Q with (inject_Z 0).
        rewrite <- Zle_Qle. exact Hm. }
    cbn [gtb]. destruct (Qltb 1 q) eqn:E.
    + exists 1%Q. split; [reflexivity|]. split; discriminate.
    + exists q. split; [reflexivity|]. split; [exact Hq|].
      apply Qltb_false. exact E.
  - intros Hfull. unfold ExplorationMetrics.get_coverage. cbv zeta.
    rewrite np_where_swap.
    rewrite (count_where_ext _ (fun c => Z.eqb c 1 || Z.leb 10 c)).
    + apply quotient_self. exact Hnav.
    + intros row c Hrow Hc. specialize (Hfull row c Hrow Hc).
      destruct (Z.eqb_spec c 1) as [->|_]; [congruence|]. cbn [orb].
      destruct (Z.leb_spec c 9), (Z.leb_spec 10 c); simpl; lia || reflexivity.
Qed.

Lemma coverage_ratios_on_navigable_map_witness :
  unit_ratio (ExplorationMetrics.get_coverage (Some glimpsed_map))
  /\ unit_ratio (ExplorationMetrics.get_visible_area (Some glimpsed_map)).
Proof.
  destruct (coverage_ratios_on_navigable_map glimpsed_map) as (H1 & H2 & _).
  - reflexivity.
  - split; assumption.
Defined.

(** ** [ExplorationMetrics]: the room the agent is in *)

Section Locate.

Lemma locate_box_loop position region boxes counts current_room all_rooms :
  exists counts',
    fold_left
      (fun '(counts, current_room, all_rooms) b =>
         if aabb_contains position b
         then (incr counts region, Some region,
               (all_rooms ++ [region])%list)
         else (counts, current_room, all_rooms))
      boxes (counts, current_room, all_rooms)
    = (counts',
       (if existsb (fun b => aabb_contains position b) boxes
        then Some region else current_room),
       (all_rooms
        ++ map (fun _ => region)
               (filter (fun b => aabb_contains position b = true) boxes))
       %list).
Proof.
  revert counts current_room all_rooms.
  induction boxes as [|b boxes IH]; intros counts current_room all_rooms.
  - exists counts. cbn. rewrite app_nil_r. reflexivity.
  - cbn [fold_left existsb]. rewrite filter_cons.
    destruct (aabb_contains position b) eqn:E.
    + destruct (IH (incr counts region) (Some region)
                  (all_rooms ++ [region])%list) as [counts' ->].
      exists counts'. rewrite decide_True by reflexivity.
      cbn [orb map]. rewrite <- app_assoc.
      destruct (existsb _ boxes); reflexivity.
    + destruct (IH counts current_room all_rooms) as [counts' ->].
      exists counts'. rewrite decide_False by discriminate.
      reflexivity.
Qed.

Lemma locate_matches position rooms counts current_room all_rooms :
  exists counts',
    ExplorationMetrics.locate position rooms
      (counts, current_room, all_rooms)
    = (counts',
       match last (matches position rooms) with
       | Some region => Some region
       | None => current_room
       end,
       (all_rooms ++ matches position rooms)%list).
Proof.
  unfold ExplorationMetrics.locate.
  revert counts current_room all_rooms.
  induction rooms as [|[region boxes] rooms IH];
    intros counts current_room all_rooms.
  - exists counts. cbn. rewrite app_nil_r. reflexivity.
  - cbn [fold_left matches].
    destruct (locate_box_loop position region boxes counts current_room
                all_rooms) as [counts1 ->].
    match goal with
    | |- context [fold_left _ rooms (counts1, ?c, ?a)] =>
        destruct (IH counts1 c a) as [counts' ->]
    end.
    exists counts'. rewrite <- app_assoc. f_equal. f_equal.
    rewrite last_app.
    destruct (last (matches position rooms)); [reflexivity|].
    induction boxes as [|b boxes IHb]; [reflexivity|].
    cbn [existsb]. rewrite filter_cons.
    destruct (aabb_contains position b) eqn:E.
    + rewrite decide_True by reflexivity. cbn [orb map].
      rewrite last_cons.
      destruct (last (map _ (filter _ boxes))) eqn:El; [|reflexivity].
      apply last_Some_elem_of, list_elem_of_fmap in El
        as (? & -> & _). reflexivity.
    + rewrite decide_False by discriminate. exact IHb.
Qed.

End Locate.

(** X9: the first loop of [ExplorationMetrics.update_metric] records one
    entry per box that contains the agent position, in the iteration order
    of the room dictionary, and takes the last of them as the current
    room: with overlapping boxes the last match wins, and the current room
    is [None] exactly when no box contains the position. *)
Theorem current_room_is_last_match
  (position : vec3) (rooms : room_dict) (counts : gmap string Z) :
  exists counts',
    ExplorationMetrics.locate position rooms (counts, None, [])
    = (counts', last (matches position rooms), matches position rooms).
Proof.
  destruct (locate_matches position rooms counts None []) as [counts' H].
  exists counts'. rewrite H. f_equal. f_equal.
  destruct (last (matches position rooms)); reflexivity.
Qed.

(** ** [ObjectNavReward]: the rewards of an episode *)

Section RewardAccounting.
Variable cfg : ObjectNavReward.config.

Lemma add_compat a a' b b' : a ≈ a' -> b ≈ b' -> add a b ≈ add a' b'.
Proof.
  destruct a, a', b, b'; simpl; try tauto. intros H1 H2.
  rewrite H1, H2. reflexivity.
Qed.

(** One update in distance mode, from a finite baseline. *)
Lemma distance_mode_update st m (p : Q) :
  ObjectNavReward.MODE cfg = "DISTANCE_TO_GOAL" ->
  ObjectNavReward._previous_distance_to_target st = Fin p ->
  exists st',
    ObjectNavReward.update_metric cfg st m = Returns st'
    /\ ObjectNavReward._metric st'
       ≈ Fin ((if Z.ltb 20 (ObjectNavReward.step_count st + 1)
               then ObjectNavReward.SLACK_REWARD cfg else 0)
              + (p - ObjectNavReward.distance_to_goal m)
              + (if ObjectNavReward.success m
                 then ObjectNavReward.SUCCESS_REWARD cfg else 0))
    /\ ObjectNavReward._previous_distance_to_target st'
       = Fin (ObjectNavReward.distance_to_goal m)
    /\ ObjectNavReward.step_count st' = ObjectNavReward.step_count st + 1.
Proof.
  intros Hmode Hp.
  unfold ObjectNavReward.update_metric, ObjectNavReward.shaping.
  rewrite Hmode. cbn [String.eqb Ascii.eqb Bool.eqb andb].
  unfold ObjectNavReward.reward_distance_to_goal. cbv zeta.
  cbn [ObjectNavReward._previous_distance_to_target
         ObjectNavReward.step_count ObjectNavReward._goal_was_seen
         ObjectNavReward._previous_exploration_ratio
         ObjectNavReward._metric].
  rewrite Hp. eexists. split; [reflexivity|].
  cbn [ObjectNavReward._previous_distance_to_target
         ObjectNavReward.step_count ObjectNavReward._metric].
  split; [|split; reflexivity].
  destruct (Z.ltb 20 _), (ObjectNavReward.success m); simpl; ring.
Qed.

Lemma distance_mode_trace steps st (p : Q) :
  ObjectNavReward.MODE cfg = "DISTANCE_TO_GOAL" ->
  ObjectNavReward._previous_distance_to_target st = Fin p ->
  length (reward_trace cfg st steps) = length steps
  /\ total (reward_trace cfg st steps)
     ≈ Fin ((p - last_distance p steps)
            + ObjectNavReward.SLACK_REWARD cfg
              * inject_Z (slack_count (ObjectNavReward.step_count st) steps)
            + ObjectNavReward.SUCCESS_REWARD cfg
              * inject_Z (successes steps)).
Proof.
  intros Hmode. revert st p.
  induction steps as [|m steps IH]; intros st p Hp.
  - split; [reflexivity|]. simpl. ring.
  - cbn [reward_trace].
    destruct (distance_mode_update st m p Hmode Hp)
      as (st' & -> & Hr & Hp' & Hc).
    destruct (IH st' _ Hp') as [Hlen Hsum].
    split; [cbn [length]; rewrite Hlen; reflexivity|].
    cbn [total fold_right]. fold (total (reward_trace cfg st' steps)).
    eapply equiv_trans; [apply add_compat; [exact Hr|exact Hsum]|].
    rewrite Hc. cbn [add NpFloat.equiv last_distance slack_count successes].
    rewrite !inject_Z_plus.
    destruct (Z.ltb 20 _), (ObjectNavReward.success m);
      change (inject_Z 1) with 1%Q; change (inject_Z 0) with 0%Q; ring.
Qed.

Lemma slack_count_closed steps c :
  slack_count c steps
  = Z.max 0 (Z.min (Z.of_nat (length steps))
                   (c + Z.of_nat (length steps) - 20)).
Proof.
  revert c. induction steps as [|m steps IH]; intros c.
  - simpl. lia.
  - cbn [slack_count length]. rewrite IH.
    destruct (Z.ltb_spec 20 (c + 1)); lia.
Qed.

End RewardAccounting.

(** X10: in [DISTANCE_TO_GOAL] mode the rewards stored over an episode (by
    the reset and by each of [n] updates) add up to the distance gained,
    initial distance minus final distance, plus the slack penalty for every
    update from the 20th on (the reset counts as a step), plus the success
    bonus for every step on which success holds. *)
Theorem distance_mode_rewards_telescope
  (cfg : ObjectNavReward.config) (st : ObjectNavReward.state)
  (m0 : ObjectNavReward.measures) (steps : list ObjectNavReward.measures) :
  ObjectNavReward.MODE cfg = "DISTANCE_TO_GOAL" ->
  length (episode_rewards cfg st m0 steps) = S (length steps)
  /\ total (episode_rewards cfg st m0 steps)
     ≈ Fin ((ObjectNavReward.distance_to_goal m0
             - last_distance (ObjectNavReward.distance_to_goal m0) steps)
            + ObjectNavReward.SLACK_REWARD cfg
              * inject_Z (Z.max 0 (Z.of_nat (length steps) - 19))
            + ObjectNavReward.SUCCESS_REWARD cfg
              * inject_Z (successes (m0 :: steps))).
Proof.
  intros Hmode. unfold episode_rewards, ObjectNavReward.reset_metric.
  destruct (distance_mode_update cfg
              (ObjectNavReward.State (Fin 0) 0 false
                 (Fin (ObjectNavReward.distance_to_goal m0))
                 (ObjectNavReward._previous_exploration_ratio st))
              m0 (ObjectNavReward.distance_to_goal m0) Hmode eq_refl)
    as (st' & -> & Hr & Hp' & Hc).
  destruct (distance_mode_trace cfg steps st' _ Hmode Hp') as [Hlen Hsum].
  split; [cbn [length]; rewrite Hlen; reflexivity|].
  cbn [total fold_right]. fold (total (reward_trace cfg st' steps)).
  eapply equiv_trans; [apply add_compat; [exact Hr|exact Hsum]|].
  rewrite Hc, slack_count_closed.
  cbn [ObjectNavReward.step_count].
  replace (Z.max 0 (Z.min (Z.of_nat (length steps))
                          (0 + 1 + Z.of_nat (length steps) - 20)))
    with (Z.max 0 (Z.of_nat (length steps) - 19)) by lia.
  cbn [add NpFloat.equiv successes]. rewrite !inject_Z_plus.
  change (Z.ltb 20 (0 + 1)) with false. cbv iota.
  destruct (ObjectNavReward.success m0);
    change (inject_Z 1) with 1%Q; change (inject_Z 0) with 0%Q; ring.
Qed.

Lemma distance_mode_rewards_telescope_witness :
  total (episode_rewards distance_config ObjectNavReward.init
           (approach 5 false) [approach 4 false; approach 2 true])
  ≈ Fin ((5 - 2) + (-1 # 100) * inject_Z (Z.max 0 (2 - 19))
         + (5 # 2) * inject_Z 1).
Proof.
  apply (distance_mode_rewards_telescope distance_config
           ObjectNavReward.init (approach 5 false)
           [approach 4 false; approach 2 true]).
  reflexivity.
Defined.

Section StepCount.
Variable cfg : ObjectNavReward.config.

Lemma update_metric_counts st m :
  exists st',
    ObjectNavReward.update_metric cfg st m = Returns st'
    /\ ObjectNavReward.step_count st' = ObjectNavReward.step_count st + 1
    /\ (ObjectNavReward.MODE cfg
        <> "DISTANCE_TO_GOAL_WHEN_VISIBLE_OTHERWISE_EXPLORE" ->
        ObjectNavReward._goal_was_seen st'
        = ObjectNavReward._goal_was_seen st).
Proof.
  unfold ObjectNavReward.update_metric, ObjectNavReward.shaping.
  destruct (String.eqb_spec (ObjectNavReward.MODE cfg)
              "DISTANCE_TO_GOAL_WHEN_VISIBLE_OTHERWISE_EXPLORE")
    as [Hmode|Hmode].
  - cbv zeta.
    destruct (ObjectNavReward.reward_expl_dt_when_visible cfg _ m)
      as [r st1] eqn:E.
    eexists. split; [reflexivity|]. split; [|congruence].
    cbn [ObjectNavReward.step_count].
    pose proof (f_equal (fun p => ObjectNavReward.step_count (snd p)) E)
      as Hc.
    cbn [snd] in Hc. rewrite <- Hc. clear E Hc.
    unfold ObjectNavReward.reward_expl_dt_when_visible,
      ObjectNavReward.reward_distance_to_goal,
      ObjectNavReward.reward_exploration.
    cbv zeta. destruct (Qltb _ _ && negb _); cbv beta iota zeta;
      cbn [ObjectNavReward._goal_was_seen];
      [reflexivity|].
    destruct (ObjectNavReward._goal_was_seen st); reflexivity.
  - destruct (String.eqb (ObjectNavReward.MODE cfg) "DISTANCE_TO_GOAL");
      [|destruct (String.eqb (ObjectNavReward.MODE cfg) "EXPLORATION")];
      cbv beta iota zeta;
      unfold ObjectNavReward.reward_distance_to_goal,
        ObjectNavReward.reward_exploration;
      cbv beta iota zeta;
      eexists; (split; [reflexivity|]); split; reflexivity.
Qed.

Lemma updates_counts steps st :
  exists st',
    ObjectNavReward.updates cfg st steps = Returns st'
    /\ ObjectNavReward.step_count st'
       = ObjectNavReward.step_count st + Z.of_nat (length steps)
    /\ (ObjectNavReward.MODE cfg
        <> "DISTANCE_TO_GOAL_WHEN_VISIBLE_OTHERWISE_EXPLORE" ->
        ObjectNavReward._goal_was_seen st'
        = ObjectNavReward._goal_was_seen st).
Proof.
  revert st. induction steps as [|m steps IH]; intros st.
  - exists st. split; [reflexivity|]. split; [simpl; lia|reflexivity].
  - cbn [ObjectNavReward.updates].
    destruct (update_metric_counts st m) as (st1 & -> & Hc1 & Hs1).
    cbn [bind]. destruct (IH st1) as (st' & -> & Hc & Hs).
    exists st'. split; [reflexivity|]. split.
    + rewrite Hc, Hc1. cbn [length]. lia.
    + intros Hmode. rewrite Hs, Hs1 by exact Hmode. reflexivity.
Qed.

End StepCount.

(** X11: in every mode an episode of [n] updates ends with [step_count]
    at [n + 1], the reset counting as the first step; and in every mode but
    the hybrid one the goal-seen flag is never set: it is false at the end
    of the episode, whatever the goal visibility was. *)
Theorem step_count_and_flag
  (cfg : ObjectNavReward.config) (st : ObjectNavReward.state)
  (m0 : ObjectNavReward.measures) (steps : list ObjectNavReward.measures) :
  exists st',
    ObjectNavReward.episode cfg st m0 steps = Returns st'
    /\ ObjectNavReward.step_count st' = Z.of_nat (length steps) + 1
    /\ (ObjectNavReward.MODE cfg
        <> "DISTANCE_TO_GOAL_WHEN_VISIBLE_OTHERWISE_EXPLORE" ->
        ObjectNavReward._goal_was_seen st' = false).
Proof.
  unfold ObjectNavReward.episode, ObjectNavReward.reset_metric.
  match goal with
  | |- context [ObjectNavReward.update_metric cfg ?s m0] =>
      destruct (update_metric_counts cfg s m0) as (st1 & -> & Hc1 & Hs1)
  end.
  cbn [bind]. destruct (updates_counts cfg steps st1) as (st' & -> & Hc & Hs).
  exists st'. split; [reflexivity|]. split.
  - rewrite Hc, Hc1. cbn [ObjectNavReward.step_count]. lia.
  - intros Hmode. rewrite Hs, Hs1 by exact Hmode. reflexivity.
Qed.

(** ** [RegionLevelInfo]: the room category *)

Section RoomCategory.

Lemma region_codes name code :
  dict_lookup REGION_ANNOTATIONS name = Some code -> 0 <= code <= 30.
Proof.
  unfold REGION_ANNOTATIONS. cbn [dict_lookup].
  repeat match goal with
  | |- context [String.eqb ?k name] =>
      destruct (String.eqb k name); [intros H; injection H as <-; lia|]
  end.
  discriminate.
Qed.

Lemma find_room_codes position rs code :
  RegionLevelInfoMeasure.find_room position rs = Py.Ok (Some code) ->
  0 <= code <= 30.
Proof.
  induction rs as [|[r_id [box category]] rs IH];
    cbn [RegionLevelInfoMeasure.find_room]; [discriminate|].
  destruct (RegionLevelInfo._is_in position box); [|exact IH].
  destruct (dict_lookup REGION_ANNOTATIONS category) eqn:E;
    [|discriminate].
  intros H. injection H as <-. exact (region_codes _ _ E).
Qed.

Lemma find_room_no_hit position rs :
  existsb (fun e => RegionLevelInfo._is_in position (fst (snd e))) rs = false ->
  RegionLevelInfoMeasure.find_room position rs = Py.Ok None.
Proof.
  induction rs as [|[r_id [box category]] rs IH];
    cbn [RegionLevelInfoMeasure.find_room existsb fst snd]; [reflexivity|].
  destruct (RegionLevelInfo._is_in position box); [discriminate|exact IH].
Qed.

Lemma find_room_app position rs extra :
  RegionLevelInfoMeasure.find_room position (rs ++ extra)
  = if existsb (fun e => RegionLevelInfo._is_in position (fst (snd e))) rs
    then RegionLevelInfoMeasure.find_room position rs
    else RegionLevelInfoMeasure.find_room position extra.
Proof.
  induction rs as [|[r_id [box category]] rs IH];
    cbn [RegionLevelInfoMeasure.find_room existsb fst snd app];
    [reflexivity|].
  destruct (RegionLevelInfo._is_in position box); [reflexivity|exact IH].
Qed.

End RoomCategory.

(** X12: whenever [RegionLevelInfo.update_metric] returns, the room
    category it stores is a code between 0 and 30; it is 30, the code of
    'no label', when no stored region strictly contains the agent position
    (in particular when there is no region at all), and [_found_any] is
    then left as it was. *)
Theorem room_category_range
  (st st' : RegionLevelInfoMeasure.state) (agent_position : vec3) :
  RegionLevelInfoMeasure.update_metric st agent_position = Py.Ok st' ->
  (exists code,
     RegionLevelInfoMeasure.room_cat st' = Some code /\ 0 <= code <= 30)
  /\ (forall rs,
        RegionLevelInfoMeasure.regions st = Some rs ->
        existsb (fun e => RegionLevelInfo._is_in agent_position (fst (snd e)))
                rs = false ->
        RegionLevelInfoMeasure.room_cat st' = Some 30
        /\ RegionLevelInfoMeasure._found_any st'
           = RegionLevelInfoMeasure._found_any st).
Proof.
  unfold RegionLevelInfoMeasure.update_metric.
  change (dict_lookup REGION_ANNOTATIONS "no label") with (Some 30).
  cbv iota beta.
  destruct (RegionLevelInfoMeasure.regions st) as [rs|]; [|discriminate].
  destruct (RegionLevelInfoMeasure.find_room agent_position rs)
    as [[code|]|e] eqn:E; [| |discriminate].
  - intros H. injection H as <-. split.
    + exists code. split; [reflexivity|exact (find_room_codes _ _ _ E)].
    + intros rs' Hrs Hno. injection Hrs as <-.
      rewrite (find_room_no_hit _ _ Hno) in E. discriminate E.
  - intros H. injection H as <-. split.
    + exists 30. split; [reflexivity|lia].
    + intros _ _ _. split; reflexivity.
Qed.

Lemma room_category_range_witness :
  exists code,
    RegionLevelInfoMeasure.room_cat
      (RegionLevelInfoMeasure.State
         (Some [("r0", (unit_box, "hallway"))]) true (Some 7))
    = Some code /\ 0 <= code <= 30.
Proof.
  apply (room_category_range
           (RegionLevelInfoMeasure.State
              (Some [("r0", (unit_box, "hallway"))]) false (Some 30))
           _ origin).
  reflexivity.
Defined.

(** X13: the loop of [RegionLevelInfo.update_metric] stops at the first
    stored region that strictly contains the agent position: when one of
    the regions [rs] does, whatever follows [rs] in the dictionary changes
    nothing (neither the category found nor a [KeyError] for a category
    that is not in [REGION_ANNOTATIONS]); when none does, the result is
    that of the regions that follow. *)
Theorem room_category_first_match
  (agent_position : vec3) (rs extra : list (string * (aabb * string))) :
  (existsb (fun e => RegionLevelInfo._is_in agent_position (fst (snd e))) rs
   = true ->
   RegionLevelInfoMeasure.find_room agent_position (rs ++ extra)
   = RegionLevelInfoMeasure.find_room agent_position rs)
  /\ (existsb (fun e => RegionLevelInfo._is_in agent_position (fst (snd e)))
              rs = false ->
      RegionLevelInfoMeasure.find_room agent_position (rs ++ extra)
      = RegionLevelInfoMeasure.find_room agent_position extra).
Proof.
  rewrite find_room_app. split; intros ->; reflexivity.
Qed.

Lemma room_category_first_match_witness :
  RegionLevelInfoMeasure.find_room origin
    ([("r0", (unit_box, "hallway"))] ++ [("r1", (unit_box, "cellar"))])
  = RegionLevelInfoMeasure.find_room origin [("r0", (unit_box, "hallway"))].
Proof.
  apply (room_category_first_match origin
           [("r0", (unit_box, "hallway"))] [("r1", (unit_box, "cellar"))]).
  reflexivity.
Defined.

(** ** [GoalObjectVisible]: the visible goal area *)

Section VisibleArea.

Lemma row_count_le_length {A} (c : A -> bool) (row : list A) :
  fold_right Z.add 0 (map (fun a => if c a then 1 else 0) row)
  <= Z.of_nat (length row).
Proof.
  induction row as [|a row IH]; cbn [map fold_right length]; [lia|].
  destruct (c a); lia.
Qed.

Lemma count_where_le_size {A} (c : A -> bool) (g : list (list A)) :
  np_sum (np_where c 1 0 g) <= np_size g.
Proof.
  induction g as [|row g IH]; [simpl; lia|].
  rewrite np_sum_where_cons. cbn [np_size fold_right].
  fold (np_size g). pose proof (row_count_le_length c row). lia.
Qed.

Lemma np_size_nonneg {A} (g : list (list A)) : 0 <= np_size g.
Proof.
  induction g as [|row g IH]; [simpl; lia|].
  cbn [np_size fold_right]. fold (np_size g). lia.
Qed.

(** The visible area of a label is a ratio, or NaN on an empty image. *)
Lemma visible_area_range semantic_obs idx :
  (0 < np_size semantic_obs ->
   unit_ratio (GoalObjectVisible.visible_area semantic_obs idx))
  /\ (np_size semantic_obs = 0 ->
      GoalObjectVisible.visible_area semantic_obs idx = NaN).
Proof.
  unfold GoalObjectVisible.visible_area. cbv zeta.
  pose proof (count_where_le_size (fun c => Z.eqb c idx) semantic_obs) as Hle.
  pose proof (count_where_nonneg (fun c => Z.eqb c idx) semantic_obs) as Hge.
  split.
  - intros Hpos. apply quotient_unit; lia.
  - intros Hz. rewrite Hz in *.
    replace (np_sum _) with 0 by lia. reflexivity.
Qed.

Lemma update_metric_area flag ids obs v :
  GoalObjectVisible.update_metric flag ids obs = Py.Ok v ->
  match GoalObjectVisible.semantic obs with
  | None => v = Fin 0
  | Some g => exists idx, v = GoalObjectVisible.visible_area g idx
  end.
Proof.
  unfold GoalObjectVisible.update_metric.
  destruct (GoalObjectVisible.semantic obs) as [g|];
    [|intros H; injection H as <-; reflexivity].
  destruct flag.
  - destruct (GoalObjectVisible.semantic_id_of ids 0) as [id0|];
      [|discriminate].
    destruct (GoalObjectVisible.gripped_object_id obs) as [gripped|];
      [|discriminate].
    destruct (negb (Z.eqb gripped (-1))).
    + destruct (GoalObjectVisible.semantic_id_of ids 1) as [id1|];
        [|discriminate].
      intros H. injection H as <-. eexists. reflexivity.
    + intros H. injection H as <-. eexists. reflexivity.
  - destruct (GoalObjectVisible.goal_label obs) as [idx|]; [|discriminate].
    intros H. injection H as <-. eexists. reflexivity.
Qed.

Lemma list_index_error {A} (l : list A) (i : Z) :
  list_index l i = Py.Error Py.IndexError
  <-> i < - Z.of_nat (length l) \/ Z.of_nat (length l) <= i.
Proof.
  unfold list_index. cbv zeta.
  destruct (Z.ltb_spec i 0) as [Hneg|Hpos].
  - destruct (Z.ltb_spec (i + Z.of_nat (length l)) 0) as [H1|H1];
      cbn [orb]; [split; [lia|reflexivity]|].
    destruct (Z.leb_spec (Z.of_nat (length l)) (i + Z.of_nat (length l)));
      [lia|].
    destruct (nth_error l (Z.to_nat (i + Z.of_nat (length l)))) eqn:E.
    + split; [discriminate|lia].
    + apply nth_error_None in E. lia.
  - destruct (Z.ltb_spec i 0) as [H1|H1]; [lia|]. cbn [orb].
    destruct (Z.leb_spec (Z.of_nat (length l)) i) as [H2|H2];
      [split; [lia|reflexivity]|].
    destruct (nth_error l (Z.to_nat i)) eqn:E.
    + split; [discriminate|lia].
    + apply nth_error_None in E. lia.
Qed.

End VisibleArea.

(** X14: whenever [GoalObjectVisible.update_metric] (the class registered
    last, [goal_vis_pixels]) returns, with or without inserted objects, the
    metric is 0 when the observations have no semantic image, a ratio
    between 0 and 1 when the image has pixels, and NaN when the image is
    empty. *)
Theorem goal_visible_area_range
  (INSERTED_OBJECTS : bool) (ids : gmap Z Z)
  (obs : GoalObjectVisible.observations) (v : npfloat) :
  GoalObjectVisible.update_metric INSERTED_OBJECTS ids obs = Py.Ok v ->
  match GoalObjectVisible.semantic obs with
  | None => v = Fin 0
  | Some g =>
      (0 < np_size g -> unit_ratio v) /\ (np_size g = 0 -> v = NaN)
  end.
Proof.
  intros H. apply update_metric_area in H.
  destruct (GoalObjectVisible.semantic obs) as [g|]; [|exact H].
  destruct H as [idx ->]. apply visible_area_range.
Qed.

Lemma goal_visible_area_range_witness :
  (0 < np_size semantic_image -> unit_ratio (Fin (2 # 4)))
  /\ (np_size semantic_image = 0 -> Fin (2 # 4) = NaN).
Proof.
  apply (goal_visible_area_range false ∅ chair_goal (Fin (2 # 4))).
  reflexivity.
Defined.

(** X15: without inserted objects and with a semantic image, the goal
    category id [k] of the observation is used as a Python list index into
    the 28 entries of [task_cat2mpcat40]: the update raises [IndexError]
    exactly when [k < -28] or [k >= 28] (an id from -28 to -1 counts from
    the end of the table), and otherwise returns the visible area of the
    label found. *)
Theorem goal_category_index
  (ids : gmap Z Z) (g : list (list Z)) (k : Z) (rest : list Z)
  (gripped : option Z) :
  let obs :=
    GoalObjectVisible.Observations (Some g) (Some (k :: rest)) gripped in
  (GoalObjectVisible.update_metric false ids obs = Py.Error Py.IndexError
   <-> k < -28 \/ 28 <= k)
  /\ (-28 <= k < 28 ->
      exists idx,
        list_index task_cat2mpcat40 k = Py.Ok idx
        /\ GoalObjectVisible.update_metric false ids obs
           = Py.Ok (GoalObjectVisible.visible_area g idx)).
Proof.
  cbv zeta. unfold GoalObjectVisible.update_metric,
    GoalObjectVisible.goal_label.
  cbn [GoalObjectVisible.semantic GoalObjectVisible.objectgoal].
  pose proof (list_index_error task_cat2mpcat40 k) as Herr.
  change (Z.of_nat (length task_cat2mpcat40)) with 28 in Herr.
  destruct (list_index task_cat2mpcat40 k) as [idx|e] eqn:E.
  - split.
    + split; [discriminate|]. intros H. apply Herr in H. discriminate H.
    + intros _. exists idx. split; reflexivity.
  - assert (He : e = Py.IndexError).
    { clear Herr. unfold list_index in E. cbv zeta in E.
      destruct (_ || _) in E; [congruence|].
      destruct (nth_error _ _) in E; congruence. }
    subst e. split.
    + split; [intros _; apply Herr; reflexivity|reflexivity].
    + intros Hk. destruct Herr as [Herr _]. specialize (Herr eq_refl). lia.
Qed.

Lemma goal_category_index_witness :
  exists idx,
    list_index task_cat2mpcat40 (-1) = Py.Ok idx
    /\ GoalObjectVisible.update_metric false ∅
         (GoalObjectVisible.Observations (Some semantic_image)
            (Some [-1]) None)
       = Py.Ok (GoalObjectVisible.visible_area semantic_image idx).
Proof.
  apply (goal_category_index ∅ semantic_image (-1) [] None). lia.
Defined.

(** X16: the two classes named [GoalObjectVisible] agree when the
    observations hold an ["objectgoal"] entry (and objects are not
    inserted): they store the same metric or raise the same error.  They
    differ when the entry is missing and a semantic image is present: the
    first class stores 0, the second raises [KeyError]. *)
Theorem goal_visible_classes
  (ids : gmap Z Z) (obs : GoalObjectVisible.observations) :
  (GoalObjectVisible.objectgoal obs <> None ->
   GoalObjectVisible.update_metric false ids obs
   = GoalObjectVisible.update_metric_goal_vis obs)
  /\ (GoalObjectVisible.objectgoal obs = None ->
      GoalObjectVisible.semantic obs <> None ->
      GoalObjectVisible.update_metric_goal_vis obs = Py.Ok (Fin 0)
      /\ GoalObjectVisible.update_metric false ids obs
         = Py.Error (Py.KeyError "objectgoal")).
Proof.
  unfold GoalObjectVisible.update_metric,
    GoalObjectVisible.update_metric_goal_vis, GoalObjectVisible.goal_label.
  destruct (GoalObjectVisible.semantic obs) as [g|],
    (GoalObjectVisible.objectgoal obs) as [[|k ks]|];
    split; try congruence; try reflexivity; intros; try congruence;
    try (split; reflexivity).
  all: destruct (list_index task_cat2mpcat40 k); reflexivity.
Qed.

Lemma goal_visible_classes_witness :
  GoalObjectVisible.update_metric false ∅ chair_goal
  = GoalObjectVisible.update_metric_goal_vis chair_goal.
Proof.
  apply (goal_visible_classes ∅ chair_goal). discriminate.
Defined.

(** ** [ObjectGoalSensor]: the observation and its errors *)

Lemma int64_array_range v obs :
  ObjectGoalSensor.int64_array v = Py.Ok (Some obs) ->
  obs = [v] /\ - 2 ^ 63 <= v < 2 ^ 63.
Proof.
  unfold ObjectGoalSensor.int64_array.
  destruct (Z.leb_spec (- 2 ^ 63) v) as [Hlo|_]; [|discriminate].
  destruct (Z.ltb_spec v (2 ^ 63)) as [Hhi|_]; [|discriminate].
  cbn [andb]. intros Hobs. injection Hobs as <-.
  split; [reflexivity|lia].
Qed.

(** X17: [get_observation] raises [RuntimeError] exactly for a [GOAL_SPEC]
    other than the two it knows.  An episode without goals gives the
    observation [None] under [TASK_CATEGORY_ID], but an [IndexError] under
    [OBJECT_ID]; and under [TASK_CATEGORY_ID], when the first goal is an
    [ObjectGoal], the observation is the dataset's id of the episode's
    object category when that id is a 64-bit signed integer, an
    [OverflowError] when it is not, and a [KeyError] when the dataset has no
    id for the category.  Every observation returned is [None] or a single
    64-bit signed integer. *)
Theorem get_observation_errors
  (GOAL_SPEC : string) (ids : gmap string Z) (ep : ObjectGoalSensor.episode) :
  ((exists msg,
      ObjectGoalSensor.get_observation GOAL_SPEC ids ep
      = Py.Error (Py.RuntimeError msg))
   <-> GOAL_SPEC <> "TASK_CATEGORY_ID" /\ GOAL_SPEC <> "OBJECT_ID")
  /\ (ObjectGoalSensor.goals ep = [] ->
      ObjectGoalSensor.get_observation "TASK_CATEGORY_ID" ids ep
      = Py.Ok None
      /\ ObjectGoalSensor.get_observation "OBJECT_ID" ids ep
         = Py.Error Py.IndexError)
  /\ (forall g rest category,
        ObjectGoalSensor.goals ep = g :: rest ->
        ObjectGoalSensor.is_object_goal g = true ->
        ObjectGoalSensor.object_category ep = Some category ->
        ObjectGoalSensor.get_observation "TASK_CATEGORY_ID" ids ep
        = match ids !! category with
          | Some id =>
              if Z.leb (- 2 ^ 63) id && Z.ltb id (2 ^ 63)
              then Py.Ok (Some [id])
              else Py.Error Py.OverflowError
          | None => Py.Error (Py.KeyError category)
          end)
  /\ (forall obs,
        ObjectGoalSensor.get_observation GOAL_SPEC ids ep
        = Py.Ok (Some obs) ->
        exists id, obs = [id] /\ - 2 ^ 63 <= id < 2 ^ 63).
Proof.
  split; [|split; [|split]].
  - unfold ObjectGoalSensor.get_observation, ObjectGoalSensor.int64_array.
    destruct (String.eqb_spec GOAL_SPEC "TASK_CATEGORY_ID") as [->|H1].
    + split; [|intros [H _]; congruence]. intros [msg H].
      destruct (ObjectGoalSensor.goals ep) as [|g gs]; [discriminate|].
      destruct (negb _); [discriminate|].
      destruct (ObjectGoalSensor.object_category ep) as [c|];
        [|discriminate].
      destruct (ids !! c) as [id|]; [|discriminate].
      destruct (_ && _); discriminate.
    + destruct (String.eqb_spec GOAL_SPEC "OBJECT_ID") as [->|H2].
      * split; [|intros [_ H]; congruence]. intros [msg H].
        destruct (ObjectGoalSensor.goals ep) as [|g gs]; [discriminate|].
        destruct (ObjectGoalSensor.object_name_id g) as [id|];
          [|discriminate].
        destruct (_ && _); discriminate.
      * split; [intros _; split; assumption|].
        intros _. eexists. reflexivity.
  - intros Hg. unfold ObjectGoalSensor.get_observation. rewrite Hg.
    split; reflexivity.
  - intros g rest category Hg Hobj Hcat.
    unfold ObjectGoalSensor.get_observation. rewrite Hg, Hobj, Hcat.
    reflexivity.
  - intros obs. unfold ObjectGoalSensor.get_observation.
    destruct (String.eqb GOAL_SPEC "TASK_CATEGORY_ID").
    + destruct (ObjectGoalSensor.goals ep) as [|g gs]; [discriminate|].
      destruct (negb _); [discriminate|].
      destruct (ObjectGoalSensor.object_category ep) as [c|];
        [|discriminate].
      destruct (ids !! c) as [id|]; [|discriminate].
      intros H. exists id. exact (int64_array_range id obs H).
    + destruct (String.eqb GOAL_SPEC "OBJECT_ID"); [|discriminate].
      destruct (ObjectGoalSensor.goals ep) as [|g gs]; [discriminate|].
      destruct (ObjectGoalSensor.object_name_id g) as [id|];
        [|discriminate].
      intros H. exists id. exact (int64_array_range id obs H).
Qed.

Lemma get_observation_errors_witness :
  ObjectGoalSensor.get_observation "TASK_CATEGORY_ID"
    {["chair" := 2 ^ 63]} chair_episode
  = Py.Error Py.OverflowError
  /\ ObjectGoalSensor.get_observation "TASK_CATEGORY_ID"
       {["chair" := 3]} chair_episode
     = Py.Ok (Some [3])
  /\ exists id, [3] = [id] /\ - 2 ^ 63 <= id < 2 ^ 63.
Proof.
  split; [|split].
  - destruct (get_observation_errors "TASK_CATEGORY_ID"
                {["chair" := 2 ^ 63]} chair_episode) as (_ & _ & H & _).
    exact (H (ObjectGoalSensor.NavGoal true None) [] "chair"
             eq_refl eq_refl eq_refl).
  - destruct (get_observation_errors "TASK_CATEGORY_ID"
                {["chair" := 3]} chair_episode) as (_ & _ & H & _).
    exact (H (ObjectGoalSensor.NavGoal true None) [] "chair"
             eq_refl eq_refl eq_refl).
  - destruct (get_observation_errors "TASK_CATEGORY_ID"
                {["chair" := 3]} chair_episode) as (_ & _ & _ & H).
    apply (H [3]). vm_compute. reflexivity.
Defined.

(** ** Python strings: the last slash *)

Section LastSlash.
Variable c : Ascii.ascii.

Lemma rfind_from_absent s i last :
  occurs c s = false -> rfind_from c s i last = last.
Proof.
  revert i last. induction s as [|a s IH]; intros i last H; [reflexivity|].
  cbn [occurs] in H. apply orb_false_iff in H as [Ha Hs].
  cbn [rfind_from]. rewrite Ha. apply IH, Hs.
Qed.

Lemma rfind_from_app d s i last :
  rfind_from c (d ++ s) i last
  = rfind_from c s (i + Z.of_nat (String.length d)) (rfind_from c d i last).
Proof.
  revert i last. induction d as [|a d IH]; intros i last.
  - cbn. f_equal. lia.
  - change (String a d ++ s) with (String a (d ++ s)).
    cbn [rfind_from String.length]. rewrite IH. f_equal. lia.
Qed.

Lemma rfind_last d leaf :
  occurs c leaf = false ->
  rfind c (d ++ String c leaf) = Z.of_nat (String.length d).
Proof.
  intros H. unfold rfind. rewrite rfind_from_app. cbn [rfind_from].
  rewrite Ascii.eqb_refl. rewrite rfind_from_absent by exact H. lia.
Qed.

Lemma rfind_absent s : occurs c s = false -> rfind c s = -1.
Proof. apply rfind_from_absent. Qed.

End LastSlash.

Section Substrings.

Lemma length_append d s :
  String.length (d ++ s) = (String.length d + String.length s)%nat.
Proof. induction d as [|a d IH]; simpl; [reflexivity|]. rewrite IH. lia. Qed.

Lemma substring_zero s : substring 0 0 s = "".
Proof. destruct s; reflexivity. Qed.

Lemma substring_all s : substring 0 (String.length s) s = s.
Proof.
  induction s as [|a s IH]; simpl; [reflexivity|]. rewrite IH. reflexivity.
Qed.

Lemma substring_head d s : substring 0 (String.length d) (d ++ s) = d.
Proof.
  induction d as [|a d IH]; simpl; [apply substring_zero|].
  rewrite IH. reflexivity.
Qed.

Lemma substring_skip d s n :
  substring (String.length d) n (d ++ s) = substring 0 n s.
Proof. induction d as [|a d IH]; simpl; [reflexivity|exact IH]. Qed.

Lemma substring_tail d a leaf :
  substring (S (String.length d)) (String.length leaf) (d ++ String a leaf)
  = leaf.
Proof.
  induction d as [|b d IH]; simpl; [apply substring_all|exact IH].
Qed.

End Substrings.

(** X18: the stem [v[:v.rfind("/")]] that the plotting script takes of a
    variant name.  For a name with a slash it is the name up to its last
    slash; for a name without any, [rfind] is -1 and the stem is the name
    without its last character (empty for the empty name). *)
Theorem stem_of_variant :
  (forall d leaf,
     occurs slash leaf = false ->
     PrettyPlot.stem (d ++ "/" ++ leaf) = d)
  /\ (forall v,
        occurs slash v = false ->
        PrettyPlot.stem v = substring 0 (String.length v - 1) v).
Proof.
  split.
  - intros d leaf H. unfold PrettyPlot.stem, slice_to, slice_bound.
    change ("/" ++ leaf) with (String slash leaf).
    rewrite (rfind_last slash d leaf H). cbv zeta.
    rewrite length_append. cbn [String.length].
    destruct (Z.ltb_spec (Z.of_nat (String.length d)) 0); [lia|].
    rewrite Z.min_l by lia. rewrite Nat2Z.id. apply substring_head.
  - intros v H. unfold PrettyPlot.stem, slice_to, slice_bound.
    rewrite (rfind_absent slash v H). cbv zeta. cbn [Z.ltb Z.compare].
    f_equal. lia.
Qed.

Lemma stem_of_variant_witness :
  PrettyPlot.stem ("objectnav_il_35k" ++ "/" ++ "il") = "objectnav_il_35k"
  /\ PrettyPlot.stem "base"
     = substring 0 (String.length "base" - 1) "base".
Proof.
  destruct stem_of_variant as [H1 H2]. split.
  - apply (H1 "objectnav_il_35k" "il"). reflexivity.
  - apply (H2 "base"). reflexivity.
Defined.

(** X19: [goals_key] depends on the scene id only through what follows its
    last slash: for a file name without slash, under any directory or
    under none, the key is the file name, an underscore and the object
    category (the text [None] when the episode has no category). *)
Theorem goals_key_ignores_directory
  (d leaf : string) (object_category : option string) :
  occurs slash leaf = false ->
  ObjectGoalNavEpisode.goals_key (d ++ "/" ++ leaf) object_category
  = leaf ++ "_" ++ ObjectGoalNavEpisode.format_optional object_category
  /\ ObjectGoalNavEpisode.goals_key leaf object_category
     = leaf ++ "_" ++ ObjectGoalNavEpisode.format_optional object_category.
Proof.
  intros H. unfold ObjectGoalNavEpisode.goals_key,
    ObjectGoalNavEpisode.basename, slice_from, slice_bound.
  split; f_equal.
  - change ("/" ++ leaf) with (String slash leaf).
    rewrite (rfind_last slash d leaf H). cbv zeta.
    rewrite length_append. cbn [String.length].
    destruct (Z.ltb_spec (Z.of_nat (String.length d) + 1) 0); [lia|].
    rewrite Z.min_l by lia.
    replace (Z.to_nat (Z.of_nat (String.length d) + 1))
      with (S (String.length d)) by lia.
    replace (String.length d + S (String.length leaf) - S (String.length d))%nat
      with (String.length leaf) by lia.
    apply substring_tail.
  - rewrite (rfind_absent slash leaf H). cbv zeta.
    change (Z.ltb (-1 + 1) 0) with false. cbv iota.
    rewrite Z.min_l by lia. cbn [Z.to_nat]. rewrite Nat.sub_0_r.
    apply substring_all.
Qed.

Lemma goals_key_ignores_directory_witness :
  ObjectGoalNavEpisode.goals_key ("data/scenes" ++ "/" ++ "x.glb")
    (Some "chair")
  = "x.glb" ++ "_" ++ "chair".
Proof.
  apply (goals_key_ignores_directory "data/scenes" "x.glb" (Some "chair")).
  reflexivity.
Defined.

(** ** The plotting script: the early-stop curve *)

Section EarlyStop.

Lemma Qmax2_ge m x : Qle_bool m (PrettyPlot.Qmax2 m x) = true.
Proof.
  unfold PrettyPlot.Qmax2. destruct (Qle_bool m x) eqn:E; [exact E|].
  apply Qle_bool_iff, Qle_refl.
Qed.

Lemma Qmax2_ge_r m x : (x <= PrettyPlot.Qmax2 m x)%Q.
Proof.
  unfold PrettyPlot.Qmax2. destruct (Qle_bool m x) eqn:E; [apply Qle_refl|].
  destruct (Qlt_le_dec x m) as [H|H]; [apply Qlt_le_weak, H|].
  apply Qle_bool_iff in H. congruence.
Qed.

Lemma Qmax2_absorb m x :
  PrettyPlot.Qmax2 m (PrettyPlot.Qmax2 m x) = PrettyPlot.Qmax2 m x.
Proof.
  unfold PrettyPlot.Qmax2 at 1. rewrite Qmax2_ge. reflexivity.
Qed.

Lemma np_max_snoc done x M :
  PrettyPlot.np_max done = Some M ->
  PrettyPlot.np_max (done ++ [x])%list = Some (PrettyPlot.Qmax2 M x).
Proof.
  destruct done as [|a done]; [discriminate|]. cbn [PrettyPlot.np_max app].
  intros H. injection H as <-. rewrite fold_left_app. reflexivity.
Qed.

Lemma row_pass_next done x todo m :
  PrettyPlot.np_max (done ++ [x])%list = Some m ->
  row_pass (done ++ x :: todo)%list (length done)
  = ((done ++ [m]) ++ todo)%list.
Proof.
  intros Hm. unfold row_pass.
  replace (take (S (length done)) (done ++ x :: todo)%list)
    with (done ++ [x])%list.
  - rewrite Hm. rewrite <- (Nat.add_0_r (length done)) at 1.
    rewrite insert_app_r. rewrite <- app_assoc. reflexivity.
  - rewrite take_app_ge by lia.
    replace (S (length done) - length done)%nat with 1%nat by lia.
    reflexivity.
Qed.

(** The passes over the entries not yet visited, the visited ones holding
    running maxima already. *)
Lemma row_passes_rest todo done M :
  PrettyPlot.np_max done = Some M ->
  fold_left row_pass (seq (length done) (length todo)) (done ++ todo)%list
  = (done ++ PrettyPlot.scan_max M todo)%list.
Proof.
  revert done M. induction todo as [|x todo IH]; intros done M HM.
  - reflexivity.
  - cbn [length seq fold_left PrettyPlot.scan_max].
    rewrite (row_pass_next done x todo _ (np_max_snoc done x M HM)).
    replace (S (length done))
      with (length (done ++ [PrettyPlot.Qmax2 M x])%list)
      by (rewrite length_app; cbn [length]; lia).
    rewrite (IH _ (PrettyPlot.Qmax2 M x)).
    + rewrite <- app_assoc. reflexivity.
    + rewrite (np_max_snoc done _ M HM). rewrite Qmax2_absorb. reflexivity.
Qed.

Lemma row_passes row :
  fold_left row_pass (seq 0 (length row)) row = PrettyPlot.running_max row.
Proof.
  destruct row as [|a row]; [reflexivity|].
  cbn [length seq fold_left PrettyPlot.running_max].
  change (row_pass (a :: row) 0) with (a :: row).
  apply (row_passes_rest row [a] a). reflexivity.
Qed.

Lemma passes_by_row ts (data : list (list Q)) :
  fold_left PrettyPlot.best_until_step ts data
  = map (fun row => fold_left row_pass ts row) data.
Proof.
  revert data. induction ts as [|t ts IH]; intros data.
  - cbn. rewrite map_id. reflexivity.
  - cbn [fold_left]. rewrite IH. unfold PrettyPlot.best_until_step.
    rewrite map_map. reflexivity.
Qed.

Lemma early_stop_running_max data columns :
  Forall (fun row => length row = columns) data ->
  PrettyPlot.early_stop data columns = map PrettyPlot.running_max data.
Proof.
  intros Hrect. unfold PrettyPlot.early_stop. rewrite passes_by_row.
  apply map_ext_in. intros row Hrow.
  rewrite List.Forall_forall in Hrect. rewrite <- (Hrect row Hrow).
  apply row_passes.
Qed.

Lemma scan_max_lookup row M t :
  (t < length row)%nat ->
  PrettyPlot.scan_max M row !! t
  = Some (fold_left PrettyPlot.Qmax2 (take (S t) row) M).
Proof.
  revert M t. induction row as [|a row IH]; intros M t Ht;
    [cbn in Ht; lia|].
  destruct t as [|t]; [reflexivity|].
  cbn [PrettyPlot.scan_max]. cbn [length] in Ht.
  rewrite lookup_cons. rewrite IH by lia. reflexivity.
Qed.

Lemma running_max_lookup row t :
  (t < length row)%nat ->
  PrettyPlot.running_max row !! t = PrettyPlot.np_max (take (S t) row).
Proof.
  destruct row as [|a row]; intros Ht; [cbn in Ht; lia|].
  destruct t as [|t]; [reflexivity|].
  cbn [PrettyPlot.running_max length] in *. rewrite lookup_cons.
  rewrite scan_max_lookup by lia. reflexivity.
Qed.

Lemma scan_max_monotone row M t m m' :
  (M :: PrettyPlot.scan_max M row) !! t = Some m ->
  (M :: PrettyPlot.scan_max M row) !! S t = Some m' ->
  (m <= m')%Q.
Proof.
  revert M t. induction row as [|a row IH]; intros M t H1 H2.
  - destruct t; discriminate H2.
  - destruct t as [|t].
    + cbn in H1, H2. injection H1 as <-. injection H2 as <-.
      apply Qle_bool_iff, Qmax2_ge.
    + cbn [PrettyPlot.scan_max] in H1, H2.
      rewrite lookup_cons in H1. rewrite lookup_cons in H2.
      exact (IH _ t H1 H2).
Qed.

Lemma scan_max_dominates row M t x m :
  row !! t = Some x -> PrettyPlot.scan_max M row !! t = Some m -> (x <= m)%Q.
Proof.
  revert M t. induction row as [|a row IH]; intros M t H1 H2;
    [discriminate H1|].
  destruct t as [|t].
  - cbn in H1, H2. injection H1 as <-. injection H2 as <-.
    apply Qmax2_ge_r.
  - cbn [PrettyPlot.scan_max] in H2. rewrite lookup_cons in H1, H2.
    exact (IH _ t H1 H2).
Qed.

End EarlyStop.

(** X20: on rectangular data the early-stop loop of [get_means_and_ci],
    which overwrites the array it reads, still yields the prefix maxima of
    the original data: entry [t] of every row becomes the maximum of the
    first [t + 1] entries the row had before the loop. *)
Theorem early_stop_prefix_maxima
  (data : list (list Q)) (columns r t : nat) (row : list Q) :
  Forall (fun row => length row = columns) data ->
  data !! r = Some row ->
  (t < columns)%nat ->
  exists best,
    PrettyPlot.early_stop data columns !! r = Some best
    /\ length best = columns
    /\ best !! t = PrettyPlot.np_max (take (S t) row).
Proof.
  intros Hrect Hrow Ht.
  rewrite (early_stop_running_max data columns Hrect).
  exists (PrettyPlot.running_max row).
  assert (Hlen : length row = columns).
  { rewrite List.Forall_forall in Hrect. apply Hrect.
    apply list_elem_of_In, list_elem_of_lookup. eauto. }
  split; [|split].
  - rewrite list_lookup_fmap, Hrow. reflexivity.
  - rewrite <- Hlen. destruct row as [|a row]; [reflexivity|].
    cbn [PrettyPlot.running_max length]. f_equal.
    clear. generalize a. induction row as [|b row IH]; intros m;
      [reflexivity|].
    cbn [PrettyPlot.scan_max length]. rewrite IH. reflexivity.
  - apply running_max_lookup. lia.
Qed.

Lemma early_stop_prefix_maxima_witness :
  exists best,
    PrettyPlot.early_stop [[1; 3; 2]; [2; 1; 4]]%Q 3 !! 0%nat = Some best
    /\ length best = 3%nat
    /\ best !! 2%nat = PrettyPlot.np_max (take 3 [1; 3; 2]%Q).
Proof.
  apply (early_stop_prefix_maxima [[1; 3; 2]; [2; 1; 4]]%Q 3 0 2
           [1; 3; 2]%Q).
  - repeat constructor.
  - reflexivity.
  - lia.
Defined.

(** X21: on rectangular data every early-stop curve is non-decreasing from
    one step to the next and lies on or above the curve it was computed
    from. *)
Theorem early_stop_monotone
  (data : list (list Q)) (columns r t : nat) (row best : list Q)
  (x m : Q) :
  Forall (fun row => length row = columns) data ->
  data !! r = Some row ->
  PrettyPlot.early_stop data columns !! r = Some best ->
  row !! t = Some x ->
  best !! t = Some m ->
  (x <= m)%Q /\ forall m', best !! S t = Some m' -> (m <= m')%Q.
Proof.
  intros Hrect Hrow Hbest Hx Hm.
  rewrite (early_stop_running_max data columns Hrect) in Hbest.
  rewrite list_lookup_fmap, Hrow in Hbest. injection Hbest as <-.
  destruct row as [|a row]; [discriminate Hx|].
  cbn [PrettyPlot.running_max] in *. split.
  - destruct t as [|t].
    + cbn in Hx, Hm. injection Hx as <-. injection Hm as <-. apply Qle_refl.
    + rewrite lookup_cons in Hx, Hm.
      exact (scan_max_dominates row a t x m Hx Hm).
  - intros m' Hm'. exact (scan_max_monotone row a t m m' Hm Hm').
Qed.

Lemma early_stop_monotone_witness :
  PrettyPlot.early_stop [[1; 3; 2]; [2; 1; 4]]%Q 3 !! 1%nat
  = Some [2; 2; 4]%Q
  /\ (1 <= 2)%Q /\ (2 <= 4)%Q.
Proof.
  split; [reflexivity|].
  destruct (early_stop_monotone [[1; 3; 2]; [2; 1; 4]]%Q 3 1 1
              [2; 1; 4]%Q [2; 2; 4]%Q 1 2) as [Habove Hnext].
  - repeat constructor.
  - reflexivity.
  - reflexivity.
  - reflexivity.
  - reflexivity.
  - split; [exact Habove|]. apply (Hnext 4%Q). reflexivity.
Defined.

(** ** [ExplorationMetrics]: the values of the revisitation counters *)

Section RevisitationValues.

Lemma revisits_after_values n :
  revisits_after n = 0 \/ 2 <= revisits_after n.
Proof. destruct n as [|n]; cbn [revisits_after]; lia. Qed.

End RevisitationValues.

(** X22: throughout an episode no revisitation counter, lenient or strict,
    ever holds the value 1: the counter of a room is 0 until the first
    detection and at least 2 from then on. *)
Theorem revisitation_counter_skips_one
  (st0 : ExplorationMetrics.state) (levels : list (list region))
  (agent_position : vec3) (xs : list ExplorationMetrics.step)
  (room : string) :
  let st :=
    ExplorationMetrics.updates
      (ExplorationMetrics.reset_metric st0 levels agent_position) xs in
  (count (ExplorationMetrics.room_revisitation_map st) room = 0
   \/ 2 <= count (ExplorationMetrics.room_revisitation_map st) room)
  /\ (count (ExplorationMetrics.room_revisitation_map_strict st) room = 0
      \/ 2 <= count (ExplorationMetrics.room_revisitation_map_strict st)
                room).
Proof.
  cbv zeta.
  destruct (reset_revisitation st0 levels agent_position room) as [H0 H0s].
  cbv zeta in H0, H0s. split.
  - rewrite (revisitation_run peeked
               ExplorationMetrics.room_revisitation_map room
               (fun s x => update_revisitation s x room) xs _ 0%nat H0).
    apply revisits_after_values.
  - rewrite (revisitation_run peeked_strict
               ExplorationMetrics.room_revisitation_map_strict room
               (fun s x => update_revisitation_strict s x room) xs _ 0%nat
               H0s).
    apply revisits_after_values.
Qed.
